(** * OIDC login flow of the JWT/OIDC auth backend ([path_oidc.go])

    A shallow embedding of [path_oidc.go]: the request cache kept by the
    backend, the three handlers of the flow ([authURL], [pathCallback],
    [pathPoll]), the form-post helper ([pathCallbackPost]) and the two pure
    helpers ([validRedirect], [parseMount]), followed by the properties of
    the flow that the specification states.

    Go strings are byte strings: they are [string] here (a list of [ascii]).
    The request cache is a finite map from state identifiers to requests.
    Handlers thread the backend through a small state monad whose [Return]
    is Go's early [return]. *)

From Stdlib Require Import String Ascii List Bool Arith Lia.
From stdpp Require Import base option list strings gmap.
Import ListNotations.
Local Open Scope string_scope.

(** ** The pieces of Go's [strings] package that the file uses *)

Module Strings.

(** [strings.Split(s, sep)] for a one-byte separator, the only kind
    [path_oidc.go] passes: the pieces of [s] between the separators; never
    an empty list. *)
Fixpoint Split (s : string) (sep : ascii) : list string :=
  match s with
  | EmptyString => [EmptyString]
  | String c s' =>
      if Ascii.eqb c sep then EmptyString :: Split s' sep
      else match Split s' sep with
           | [] => [String c EmptyString]
           | p :: ps => String c p :: ps
           end
  end.

(** [strings.Join(parts, sep)], the inverse of [Split]. *)
Fixpoint Join (parts : list string) (sep : ascii) : string :=
  match parts with
  | [] => EmptyString
  | [p] => p
  | p :: ps => p ++ String sep (Join ps sep)
  end.

(** [strings.Contains(s, substr)]. *)
Definition Contains (s substr : string) : bool :=
  match String.index 0 substr s with
  | Some _ => true
  | None => false
  end.

(** [strings.Replace(s, old, new, 1)]: the first occurrence of [old] in
    [s] replaced by [new]; [s] itself when there is none. *)
Definition Replace1 (s old new : string) : string :=
  match String.index 0 old s with
  | Some i =>
      String.substring 0 i s ++ new ++
      String.substring (i + String.length old)
                       (String.length s - (i + String.length old)) s
  | None => s
  end.

End Strings.

(** [strutil.StrListContains(haystack, needle)] of go-secure-stdlib: a linear
    search with string equality. *)
Fixpoint StrListContains (haystack : list string) (needle : string) : bool :=
  match haystack with
  | [] => false
  | item :: rest => if String.eqb item needle then true
                    else StrListContains rest needle
  end.

(** ** [parseMount] *)

(** [parts[i]]; every use below is guarded by [i+2 < len(parts)]. *)
Definition at_index (parts : list string) (i : nat) : string :=
  nth i parts EmptyString.

(** The loop [for i := 0; i+2 < len(parts); i++] of [parseMount], started at
    [i]. [fuel] bounds the number of iterations; [length parts] is enough
    (lemma [parseMount_loop_fuel]). *)
Fixpoint parseMount_loop (parts : list string) (i fuel : nat) : string :=
  match fuel with
  | O => ""
  | S fuel' =>
      if (i + 2 <? length parts)%nat then
        if String.eqb (at_index parts i) "v1"
           && String.eqb (at_index parts (i + 1)) "auth"
        then at_index parts (i + 2)
        else parseMount_loop parts (i + 1) fuel'
      else ""
  end.

(** [parseMount] attempts to extract the mount path from a redirect URI. *)
Definition parseMount (redirectURI : string) : string :=
  let parts := Strings.Split redirectURI "/" in
  parseMount_loop parts 0 (length parts).

(** [i] is a place where the segments [v1], [auth] and a third one follow
    each other. *)
Definition mount_at (parts : list string) (i : nat) : Prop :=
  i + 2 < length parts /\
  parts !! i = Some "v1" /\ parts !! (i + 1) = Some "auth".

(** Whether [i] is such a place can be decided. *)
#[local] Instance mount_at_dec (parts : list string) (i : nat) :
  Decision (mount_at parts i).
Proof. unfold mount_at. apply _. Defined.

(** ** [validRedirect] *)

(** The operations of Go's [net/url] that [path_oidc.go] calls. The package
    is outside the repository, so the handlers are stated over any
    implementation of it; [GoURL] below is the implementation used for
    concrete URIs. [url_Parse] answers [None] where [url.Parse] returns an
    error. The setters stand for the assignments [u.Host = h] and
    [u.RawQuery = q]. *)
Class NetURL := {
  URL : Type;
  Values : Type;
  url_Parse : string -> option URL;
  url_Hostname : URL -> string;
  url_set_Host : URL -> string -> URL;
  url_set_RawQuery : URL -> string -> URL;
  url_String : URL -> string;
  url_Query : URL -> Values;
  values_Get : Values -> string -> string;
  values_Del : Values -> string -> Values;
  values_Encode : Values -> string;
  url_QueryEscape : string -> string
}.

Section ValidRedirect.
Context {net_url : NetURL}.

(** The hosts [validRedirect] treats as loopback. *)
Definition loopbackHosts : list string := ["localhost"; "127.0.0.1"; "::1"].

(** The loop [for _, a := range allowed] of [validRedirect]; [inputURI]
    has already lost its port. A list entry that does not parse ends the
    loop with [false]. *)
Fixpoint validRedirect_loop (inputURI : URL) (allowed : list string) : bool :=
  match allowed with
  | [] => false
  | a :: rest =>
      match url_Parse a with
      | None => false
      | Some allowedURI =>
          let allowedURI := url_set_Host allowedURI (url_Hostname allowedURI) in
          if String.eqb (url_String inputURI) (url_String allowedURI) then true
          else validRedirect_loop inputURI rest
      end
  end.

(** [validRedirect] checks whether [uri] is in [allowed] using special
    handling for loopback uris. *)
Definition validRedirect (uri : string) (allowed : list string) : bool :=
  match url_Parse uri with
  | None => false
  | Some inputURI =>
      if negb (StrListContains loopbackHosts (url_Hostname inputURI))
      then StrListContains allowed uri
      else
        let inputURI := url_set_Host inputURI (url_Hostname inputURI) in
        validRedirect_loop inputURI allowed
  end.

(** What the specification asks of the loopback branch: entries that do
    not parse are passed over, every other entry is compared without its
    port. Follows the specification's words, for comparison with
    [validRedirect_loop]. *)
Fixpoint specRedirect_loop (inputURI : URL) (allowed : list string) : bool :=
  match allowed with
  | [] => false
  | a :: rest =>
      match url_Parse a with
      | None => specRedirect_loop inputURI rest
      | Some allowedURI =>
          let allowedURI := url_set_Host allowedURI (url_Hostname allowedURI) in
          if String.eqb (url_String inputURI) (url_String allowedURI) then true
          else specRedirect_loop inputURI rest
      end
  end.

(** The allow-list without the entries that do not parse. *)
Definition wellFormedEntries (allowed : list string) : list string :=
  List.filter (fun a => match url_Parse a with Some _ => true | None => false end)
              allowed.

(** [candidate] has a loopback host and equals the allow-list entry [a]
    once both have lost their port. *)
Definition portAgnosticMatch (candidate a : string) : Prop :=
  exists inputURI allowedURI,
    url_Parse candidate = Some inputURI /\
    url_Parse a = Some allowedURI /\
    url_String (url_set_Host inputURI (url_Hostname inputURI)) =
    url_String (url_set_Host allowedURI (url_Hostname allowedURI)).

End ValidRedirect.

(** ** Data model *)

(** Error prefixes and the form-post sentinel (the [const] blocks of
    [path_oidc.go]). *)
Definition errLoginFailed : string := "Vault login failed.".
Definition errNoResponse : string := "No response from provider.".
Definition errTokenVerification : string := "Token verification failed.".
Definition errNotOIDCFlow : string := "OIDC login is not configured for this mount".
Definition noCode : string := "no_code".

(** [oidcRequestTimeout] and [oidcRequestCleanupInterval], in nanoseconds
    as [time.Duration] counts them. *)
Definition oidcRequestTimeout : Z := 10 * 60 * 1000000000.
Definition oidcRequestCleanupInterval : Z := 1 * 60 * 1000000000.

(** Modelled from the spec: the role's callback-mode constants, declared in
    the role file of the repository. The specification names the two modes
    client and direct. *)
Definition callbackModeClient : string := "client".
Definition callbackModeDirect : string := "direct".

(** Modelled from the spec: the configuration's response mode and response
    type constants, declared in the configuration file of the repository
    (body-post delivery, authorization-code and ID-token responses). *)
Definition responseModeFormPost : string := "form_post".
Definition responseTypeCode : string := "code".
Definition responseTypeIDToken : string := "id_token".

(** Modelled from the spec: the result of [config.authType()]; only the
    comparison with [OIDCFlow] matters here. *)
Inductive authType_t := StaticKeys | JWKS | OIDCDiscovery | OIDCFlow | unconfigured.

Definition authType_eqb (a b : authType_t) : bool :=
  match a, b with
  | StaticKeys, StaticKeys | JWKS, JWKS | OIDCDiscovery, OIDCDiscovery
  | OIDCFlow, OIDCFlow | unconfigured, unconfigured => true
  | _, _ => false
  end.

(** Go's [error] values, by their message. *)
Definition error := string.
Definition ErrPermissionDenied : error := "permission denied".

(** A Go result pair [(v, err)]. *)
Inductive result (A : Type) :=
| Ok (a : A)
| Err (e : error).
Arguments Ok {A} a.
Arguments Err {A} e.

(** Modelled from the spec: the fields and methods of [jwtConfig] that the
    flow reads; [authType] and [hasType] are the results of the methods of
    the same name. *)
Record jwtConfig := {
  OIDCResponseMode : string;
  NamespaceInState : bool;
  DefaultRole : string;
  authType : authType_t;
  hasType : string -> bool
}.

(** Modelled from the spec: the fields of [jwtRole] that the flow reads.
    Durations are nanosecond counts. *)
Record jwtRole := {
  CallbackMode : string;
  AllowedRedirectURIs : list string;
  TokenBoundCIDRs : list string;
  BoundAudiences : list string;
  OIDCScopes : list string;
  MaxAge : Z;
  VerboseOIDCLogging : bool;
  BoundSubject : string;
  BoundClaimsType : string;
  BoundClaims : gmap string string;
  Policies : list string;
  Period : Z;
  NumUses : Z;
  TTL : Z;
  MaxTTL : Z;
  BoundCIDRs : list string
}.

(** [logical.Alias], as far as [createIdentity] fills it. *)
Record Alias := {
  alias_Name : string;
  alias_Metadata : gmap string string
}.

(** [logical.LeaseOptions] and [logical.Auth]: the credential. *)
Record LeaseOptions := {
  Renewable : bool;
  lease_TTL : Z;
  lease_MaxTTL : Z
}.

Record Auth := {
  auth_Policies : list string;
  auth_DisplayName : string;
  auth_Period : Z;
  auth_NumUses : Z;
  auth_Alias : Alias;
  auth_GroupAliases : list Alias;
  auth_InternalData : gmap string string;
  auth_Metadata : gmap string string;
  auth_LeaseOptions : LeaseOptions;
  auth_BoundCIDRs : list string
}.

(** The options [createOIDCRequest] passes to [oidc.NewRequest]. *)
Inductive oidc_Option :=
| WithAudiences (auds : list string)
| WithScopes (scopes : list string)
| WithImplicitFlow
| WithPKCE (verifier : string)
| WithMaxAge (seconds : N).

(** [oidc.Request] of the cap library, as the flow observes it: its state
    identifier, its redirect URL, and the options it was made with. *)
Record oidc_Request := {
  State : string;
  RedirectURL : string;
  ExpireIn : Z;
  Options : list oidc_Option
}.

(** [oidcRequest] represents a single OIDC authentication flow. It is
    created when an authURL is requested and is identified by its state.
    [auth] stores the response in direct callback mode ([None] is Go's
    [nil]). *)
Record oidcRequest := {
  Request : oidc_Request;
  rolename : string;
  code : string;
  idToken : string;
  clientNonce : string;
  auth : option Auth
}.

(** The assignments to the fields of a stored request. *)
Definition set_code_idToken (r : oidcRequest) (c t : string) : oidcRequest :=
  {| Request := Request r; rolename := rolename r; code := c; idToken := t;
     clientNonce := clientNonce r; auth := auth r |}.

Definition set_auth (r : oidcRequest) (a : Auth) : oidcRequest :=
  {| Request := Request r; rolename := rolename r; code := code r;
     idToken := idToken r; clientNonce := clientNonce r; auth := Some a |}.

(** A value of a response's [Data] map. *)
Inductive dataValue :=
| DString (s : string)
| DInt (n : Z)
| DBytes (b : string).

(** [logical.Response]: the [Data] map and the [Auth] pointer. *)
Record Response := {
  Data : gmap string dataValue;
  resp_Auth : option Auth
}.

(** The keys and status codes of the SDK and of [net/http]. *)
Definition HTTPContentType : string := "http_content_type".
Definition HTTPRawBody : string := "http_raw_body".
Definition HTTPStatusCode : string := "http_status_code".
Definition StatusOK : Z := 200.
Definition StatusBadRequest : Z := 400.
Definition StatusMethodNotAllowed : Z := 405.

(** [logical.ErrorResponse(text)]. *)
Definition ErrorResponse (text : string) : Response :=
  {| Data := {[ "error" := DString text ]}; resp_Auth := None |}.

(** What a handler returns: Go's pair of a response and an error. *)
Inductive Outcome :=
| Resp (r : Response)
| Fail (e : error).

(** [framework.FieldData] after the schema's conversion: [Get] answers the
    field's value, the empty string when the field was not supplied. *)
Abbreviation FieldData := (gmap string string).
Definition Get (d : FieldData) (k : string) : string := default "" (d !! k).

(** [logical.Request], as far as the handlers read it. *)
Record Connection := { RemoteAddr : string }.
Record logical_Request := { req_Connection : option Connection }.

(** Claims of an ID token: a JSON object whose string members are told
    apart from the others. *)
Inductive claimValue :=
| ClaimString (s : string)
| ClaimOther (json : string).

Abbreviation Claims := (gmap string claimValue).

(** ** The collaborators of the flow

    Everything the handlers call that lives outside [path_oidc.go]: the
    configuration and role storage, the provider client of the cap library,
    the identity translation, the bound-claims check, the HTML pages and a
    few formatting helpers. The handlers are stated over any such world.
    Calls that draw randomness ([oidc.NewCodeVerifier], [oidc.NewRequest])
    take the backend's entropy counter. [None] for an [option error] is Go's
    [nil] error, [None] for a token source is a [nil] source. *)
Record World := {
  b_config : result (option jwtConfig);
  b_role : string -> result (option jwtRole);
  Provider : Type;
  Tk : Type;
  TokenSource : Type;
  b_getProvider : jwtConfig -> result Provider;
  provider_AuthURL : Provider -> oidc_Request -> result string;
  provider_Exchange : Provider -> oidc_Request -> string -> string -> result Tk;
  provider_VerifyIDToken : Provider -> string -> oidc_Request -> option error;
  provider_UserInfo : Provider -> TokenSource -> string -> Claims -> option error * Claims;
  tk_IDToken : Tk -> string;
  tk_StaticTokenSource : Tk -> option TokenSource;
  idToken_Claims : string -> result Claims;
  b_createIdentity : Claims -> jwtRole -> option TokenSource -> result (Alias * list Alias);
  validateBoundClaims : string -> gmap string string -> Claims -> option error;
  RemoteAddrIsOk : string -> list string -> bool;
  PopulateTokenAuth : jwtRole -> Auth -> Auth;
  oidc_NewCodeVerifier : nat -> result string;
  oidc_NewRequest : nat -> Z -> string -> list oidc_Option -> result oidc_Request;
  duration_Seconds_uint : Z -> N;
  fmt_q : string -> string;
  json_Marshal : Claims -> result string;
  errorHTML : string -> string -> string;
  formpostHTML : string -> string -> string -> string;
  successHTML : string;
  RespondWithStatusCode : Z -> Outcome
}.

(** ** The backend and the monad of its handlers *)

Inductive logLevel := Debug | Info | Warn.

Record logEntry := {
  log_level : logLevel;
  log_msg : string;
  log_args : list (string * string)
}.

(** The mutable part of [jwtAuthBackend]: the cache [b.oidcRequests] of live
    requests by state (an entry that has expired is one the cache no longer
    answers, so it is not in the map), what has been logged, and the
    randomness consumed so far. The cache holds pointers to requests; a
    handler that changes a request ([pathCallbackPost], [pathCallback])
    stores it back right after the change, so the map of request values is
    the cache as the next call finds it. Calls are run one after the
    other. *)
Record jwtAuthBackend := {
  oidcRequests : gmap string oidcRequest;
  logger : list logEntry;
  entropy : nat
}.

Definition with_oidcRequests (b : jwtAuthBackend) (m : gmap string oidcRequest)
  : jwtAuthBackend :=
  {| oidcRequests := m; logger := logger b; entropy := entropy b |}.

(** A piece of a Go function body that returns [R]: it either leaves the
    function with a value ([inl], Go's [return]) or goes on with a local
    value ([inr]); the backend is threaded through. *)
Definition Go (R A : Type) : Type := jwtAuthBackend -> (R + A) * jwtAuthBackend.

Definition ret {R A} (a : A) : Go R A := fun b => (inr a, b).

Definition bind {R A B} (m : Go R A) (k : A -> Go R B) : Go R B :=
  fun b => match m b with
           | (inl r, b') => (inl r, b')
           | (inr a, b') => k a b'
           end.

Definition Return {R A} (r : R) : Go R A := fun b => (inl r, b).

Notation "x <- e ;; k" := (bind e (fun x => k))
  (at level 100, e at next level, k at level 200, right associativity).
Notation "e ;; k" := (bind e (fun _ => k)).

(** [if c { return r }]. *)
Definition return_if {R} (c : bool) (r : R) : Go R unit :=
  if c then Return r else ret tt.

(** [if c { body }]. *)
Definition when {R} (c : bool) (body : Go R unit) : Go R unit :=
  if c then body else ret tt.

(** A whole function body, run from a backend. *)
Definition run {R} (body : Go R R) (b : jwtAuthBackend) : R * jwtAuthBackend :=
  match body b with
  | (inl r, b') => (r, b')
  | (inr r, b') => (r, b')
  end.

(** A call of a function from inside another body. *)
Definition call {R R'} (body : Go R R) : Go R' R :=
  fun b => let (r, b') := run body b in (inr r, b').

(** [b.Logger().Warn(msg, args...)] and its siblings. *)
Definition log {R} (l : logLevel) (m : string) (args : list (string * string))
  : Go R unit :=
  fun b => (inr tt,
            {| oidcRequests := oidcRequests b;
               logger := (logger b ++ [ {| log_level := l; log_msg := m; log_args := args |} ])%list;
               entropy := entropy b |}).

(** The next piece of randomness. *)
Definition fresh {R} : Go R nat :=
  fun b => (inr (entropy b),
            {| oidcRequests := oidcRequests b; logger := logger b;
               entropy := S (entropy b) |}).

(** [setOIDCRequest], [getOIDCRequest], [deleteOIDCRequest]. *)
Definition setOIDCRequest {R} (stateID : string) (oidcReq : oidcRequest) : Go R unit :=
  fun b => (inr tt, with_oidcRequests b (<[stateID := oidcReq]> (oidcRequests b))).

Definition getOIDCRequest {R} (stateID : string) : Go R (option oidcRequest) :=
  fun b => (inr (oidcRequests b !! stateID), b).

Definition deleteOIDCRequest {R} (stateID : string) : Go R unit :=
  fun b => (inr tt, with_oidcRequests b (delete stateID (oidcRequests b))).

(** [v, err := f(); if err != nil { return nil, err }]. *)
Definition try {A} (r : result A) : Go Outcome A :=
  match r with
  | Ok a => ret a
  | Err e => Return (Fail e)
  end.

(** [if p == nil { return out }], then [p] is used. *)
Definition unwrap {R A} (p : option A) (out : R) : Go R A :=
  match p with
  | Some a => ret a
  | None => Return out
  end.

(** A [map[string]interface{}] literal. *)
Definition mapOf (entries : list (string * dataValue)) : gmap string dataValue :=
  list_to_map entries.

(** A handler: from the backend before the call to what is returned and
    the backend after it. *)
Definition Handler := jwtAuthBackend -> Outcome * jwtAuthBackend.

(** ** The handlers *)

Section Handlers.
Context {net_url : NetURL} (W : World).

Definition expiredOrMissing : Outcome :=
  Resp (ErrorResponse (errLoginFailed ++ " Expired or missing OAuth state.")).

Definition pathCallbackPost (req : logical_Request) (d : FieldData) : Handler :=
  run (
    config <- try (b_config W) ;;
    config <- unwrap config
      (Resp (ErrorResponse (errLoginFailed ++ " Could not load configuration."))) ;;
    return_if (negb (String.eqb (OIDCResponseMode config) responseModeFormPost))
      (RespondWithStatusCode W StatusMethodNotAllowed) ;;
    let stateID := Get d "state" in
    let code := Get d "code" in
    let idToken := Get d "id_token" in
    let data := mapOf [ (HTTPContentType, DString "text/html");
                        (HTTPStatusCode, DInt StatusOK) ] in
    (* Store the provided code and/or token into its OIDC request, which
       must already exist. *)
    oidcReq <- getOIDCRequest stateID ;;
    match oidcReq with
    | None =>
        let data := <[HTTPRawBody :=
          DBytes (errorHTML W errLoginFailed "Expired or missing OAuth state.")]> data in
        let data := <[HTTPStatusCode := DInt StatusBadRequest]> data in
        ret (Resp {| Data := data; resp_Auth := None |})
    | Some oidcReq =>
        let oidcReq := set_code_idToken oidcReq code idToken in
        setOIDCRequest stateID oidcReq ;;
        let mount := parseMount (RedirectURL (Request oidcReq)) in
        if String.eqb mount "" then
          let data := <[HTTPRawBody :=
            DBytes (errorHTML W errLoginFailed "Invalid redirect path.")]> data in
          let data := <[HTTPStatusCode := DInt StatusBadRequest]> data in
          ret (Resp {| Data := data; resp_Auth := None |})
        else
          let data := <[HTTPRawBody :=
            DBytes (formpostHTML W mount noCode stateID)]> data in
          ret (Resp {| Data := data; resp_Auth := None |})
    end).

Definition loginFailedResponse (useHttp : bool) (msg : string) : Response :=
  if negb useHttp then ErrorResponse (errLoginFailed ++ " " ++ msg)
  else {| Data := mapOf [ (HTTPContentType, DString "text/html");
                          (HTTPStatusCode, DInt StatusBadRequest);
                          (HTTPRawBody, DBytes (errorHTML W errLoginFailed msg)) ];
          resp_Auth := None |}.

(** The token as [pathCallback] logs it: the signature is stripped. *)
Definition loggedToken (rawToken : string) : string :=
  let parts := Strings.Split rawToken "." in
  if (length parts =? 3)%nat
  then at_index parts 0 ++ "." ++ at_index parts 1 ++ ".xxxxxxxxxxx"
  else "invalid token format".

(** The code [pathCallback] works with: the sentinel [noCode] stands for
    the code stored on the request. *)
Definition callbackCode (supplied : string) (oidcReq : oidcRequest) : string :=
  if String.eqb supplied noCode then code oidcReq else supplied.

Definition pathCallback (req : logical_Request) (d : FieldData) : Handler :=
  run (
    config <- try (b_config W) ;;
    config <- unwrap config
      (Resp (ErrorResponse (errLoginFailed ++ " Could not load configuration"))) ;;
    let stateID := Get d "state" in
    oidcReq <- getOIDCRequest stateID ;;
    oidcReq <- match oidcReq with
               | None => Return expiredOrMissing
               | Some r => match auth r with
                           | Some _ => Return expiredOrMissing
                           | None => ret r
                           end
               end ;;
    let roleName := rolename oidcReq in
    role <- match b_role W roleName with
            | Err e => deleteOIDCRequest stateID ;; Return (Fail e)
            | Ok None =>
                deleteOIDCRequest stateID ;;
                Return (Resp (ErrorResponse (errLoginFailed ++ " Role could not be found")))
            | Ok (Some role) => ret role
            end ;;
    let useHttp := String.eqb (CallbackMode role) callbackModeDirect in
    (* state is only accessed once when not using direct callback *)
    when (negb useHttp) (deleteOIDCRequest stateID) ;;
    let errorDescription := Get d "error_description" in
    return_if (negb (String.eqb errorDescription ""))
      (Resp (loginFailedResponse useHttp errorDescription)) ;;
    let clientNonce' := Get d "client_nonce" in
    (* If a client_nonce was provided at the start of the auth process,
       require that it is present and matching during the callback phase
       unless using the direct callback mode (checked in poll instead). *)
    return_if (negb (String.eqb (clientNonce oidcReq) "")
               && negb (String.eqb clientNonce' (clientNonce oidcReq))
               && negb useHttp)
      (Resp (ErrorResponse "invalid client_nonce")) ;;
    when (0 <? length (TokenBoundCIDRs role))%nat
      (match req_Connection req with
       | None =>
           log Warn "token bound CIDRs found but no connection information available for validation" [] ;;
           Return (Fail ErrPermissionDenied)
       | Some conn =>
           return_if (negb (RemoteAddrIsOk W (RemoteAddr conn) (TokenBoundCIDRs role)))
             (Fail ErrPermissionDenied)
       end) ;;
    provider <- match b_getProvider W config with
                | Err e => Return (Fail ("error getting provider for login operation: " ++ e))
                | Ok p => ret p
                end ;;
    let code := callbackCode (Get d "code") oidcReq in
    tokens <- (if String.eqb code "" then
                 return_if (String.eqb (idToken oidcReq) "")
                   (Resp (loginFailedResponse useHttp "No code or id_token received.")) ;;
                 (* Verify the ID token received from the authentication response. *)
                 let rawToken := idToken oidcReq in
                 match provider_VerifyIDToken W provider rawToken (Request oidcReq) with
                 | Some e => Return (Resp (ErrorResponse (errTokenVerification ++ " " ++ e)))
                 | None => ret (rawToken, None)
                 end
               else
                 (* Exchange the authorization code for an ID token and access token. *)
                 match provider_Exchange W provider (Request oidcReq) stateID code with
                 | Err e =>
                     Return (Resp (loginFailedResponse useHttp
                               ("Error exchanging oidc code: " ++ fmt_q W e ++ ".")))
                 | Ok token => ret (tk_IDToken W token, Some token)
                 end) ;;
    let rawToken := fst tokens in
    let token := snd tokens in
    when (VerboseOIDCLogging role)
      (log Debug "OIDC provider response" [("id_token", loggedToken rawToken)]) ;;
    (* Parse claims from the ID token payload. *)
    allClaims <- try (idToken_Claims W rawToken) ;;
    let allClaims := delete "nonce" allClaims in
    (* Get the subject claim for bound subject and user info validation *)
    let subject := match allClaims !! "sub" with
                   | Some (ClaimString subStr) => subStr
                   | _ => ""
                   end in
    return_if (negb (String.eqb (BoundSubject role) "")
               && negb (String.eqb (BoundSubject role) subject))
      (Resp (loginFailedResponse useHttp "sub claim does not match bound subject")) ;;
    (* The token source is only available for the authorization code flow. *)
    let tokenSource := match token with
                       | Some token => tk_StaticTokenSource W token
                       | None => None
                       end in
    (* A failure to fetch additional information from /userinfo does not
       invalidate the authorization flow. *)
    allClaims <- match tokenSource with
                 | Some ts =>
                     let fetched := provider_UserInfo W provider ts subject allClaims in
                     match fst fetched with
                     | Some e =>
                         log (if Strings.Contains e "user info endpoint is not supported"
                              then Info else Warn)
                             "error reading /userinfo endpoint" [("error", e)] ;;
                         ret (snd fetched)
                     | None => ret (snd fetched)
                     end
                 | None => ret allClaims
                 end ;;
    when (VerboseOIDCLogging role)
      (match json_Marshal W allClaims with
       | Ok c => log Debug "OIDC provider response" [("claims", c)]
       | Err e => log Debug "OIDC provider response" [("marshalling error", e)]
       end) ;;
    identity <- match b_createIdentity W allClaims role tokenSource with
                | Err e => Return (Resp (loginFailedResponse useHttp e))
                | Ok i => ret i
                end ;;
    let alias := fst identity in
    let groupAliases := snd identity in
    match validateBoundClaims W (BoundClaimsType role) (BoundClaims role) allClaims with
    | Some e => Return (Resp (loginFailedResponse useHttp ("error validating claims: " ++ e)))
    | None => ret tt
    end ;;
    let tokenMetadata : gmap string string :=
      alias_Metadata alias ∪ {[ "role" := roleName ]} in
    let auth :=
      {| auth_Policies := Policies role;
         auth_DisplayName := alias_Name alias;
         auth_Period := Period role;
         auth_NumUses := NumUses role;
         auth_Alias := alias;
         auth_GroupAliases := groupAliases;
         auth_InternalData := {[ "role" := roleName ]};
         auth_Metadata := tokenMetadata;
         auth_LeaseOptions := {| Renewable := true; lease_TTL := TTL role;
                                 lease_MaxTTL := MaxTTL role |};
         auth_BoundCIDRs := BoundCIDRs role |} in
    let auth := PopulateTokenAuth W role auth in
    if useHttp then
      let oidcReq := set_auth oidcReq auth in
      setOIDCRequest stateID oidcReq ;;
      ret (Resp {| Data := mapOf [ (HTTPContentType, DString "text/html");
                                   (HTTPStatusCode, DInt StatusOK);
                                   (HTTPRawBody, DBytes (successHTML W)) ];
                   resp_Auth := None |})
    else
      ret (Resp {| Data := ∅; resp_Auth := Some auth |})).

Definition pathPoll (req : logical_Request) (d : FieldData) : Handler :=
  run (
    let stateID := Get d "state" in
    oidcReq <- getOIDCRequest stateID ;;
    oidcReq <- unwrap oidcReq expiredOrMissing ;;
    let clientNonce' := Get d "client_nonce" in
    when (negb (String.eqb (clientNonce oidcReq) "")
          && negb (String.eqb clientNonce' (clientNonce oidcReq)))
      (deleteOIDCRequest stateID ;;
       Return (Resp (ErrorResponse "invalid client_nonce"))) ;;
    match auth oidcReq with
    | None =>
        (* Return the same response as oauth 2.0 device flow in RFC8628 *)
        Return (Resp (ErrorResponse "authorization_pending"))
    | Some a =>
        deleteOIDCRequest stateID ;;
        ret (Resp {| Data := ∅; resp_Auth := Some a |})
    end).

(** [createOIDCRequest] makes an expiring request object, associated with
    a random state ID that is passed throughout the OAuth process. *)
Definition createOIDCRequest (config : jwtConfig) (role : jwtRole)
    (rolename redirectURI clientNonce : string)
  : Go (result oidcRequest) (result oidcRequest) :=
  let options := [ WithAudiences (BoundAudiences role);
                   WithScopes (OIDCScopes role) ] in
  options <- (if hasType config responseTypeIDToken then
                ret (options ++ [WithImplicitFlow])%list
              else if hasType config responseTypeCode then
                seed <- fresh ;;
                match oidc_NewCodeVerifier W seed with
                | Err e => Return (Err ("error creating code challenge: " ++ e))
                | Ok v => ret (options ++ [WithPKCE v])%list
                end
              else ret options) ;;
  let options := if (0 <? MaxAge role)%Z
                 then (options ++ [WithMaxAge (duration_Seconds_uint W (MaxAge role))])%list
                 else options in
  seed <- fresh ;;
  match oidc_NewRequest W seed oidcRequestTimeout redirectURI options with
  | Err e => Return (Err e)
  | Ok request =>
      let oidcReq := {| Request := request; rolename := rolename; code := "";
                        idToken := ""; clientNonce := clientNonce; auth := None |} in
      setOIDCRequest (State request) oidcReq ;;
      ret (Ok oidcReq)
  end.

(** The namespace block of [authURL]: when the namespace is passed around
    in the state and the redirect URI carries it as a query parameter, it is
    removed from the redirect URI. The result is the namespace and the
    redirect URI to go on with; [None] when the redirect URI does not parse
    ([authURL] then returns its default response). *)
Definition splitNamespace (config : jwtConfig) (redirectURI : string)
  : option (string * string) :=
  if NamespaceInState config then
    match url_Parse redirectURI with
    | None => None
    | Some inputURI =>
        let qParam := url_Query inputURI in
        let namespace := values_Get qParam "namespace" in
        if (0 <? String.length namespace)%nat then
          let qParam := values_Del qParam "namespace" in
          let inputURI := url_set_RawQuery inputURI (values_Encode qParam) in
          Some (namespace, url_String inputURI)
        else Some (namespace, redirectURI)
    end
  else Some ("", redirectURI).

(** The default response of [authURL] for most error/invalid conditions. *)
Definition emptyAuthURL : Response :=
  {| Data := mapOf [ ("auth_url", DString "") ]; resp_Auth := None |}.

(** [authURL] returns a URL used for redirection to receive an
    authorization code. Because this endpoint is unauthenticated, the
    response to invalid or non-OIDC roles is intentionally
    non-descriptive and will simply be an empty string. *)
Definition authURL (req : logical_Request) (d : FieldData) : Handler :=
  run (
    (* default response for most error/invalid conditions *)
    let resp := emptyAuthURL in
    config <- try (b_config W) ;;
    config <- unwrap config (Resp (ErrorResponse "could not load configuration")) ;;
    return_if (negb (authType_eqb (authType config) OIDCFlow))
      (Resp (ErrorResponse errNotOIDCFlow)) ;;
    let roleName := Get d "role" in
    let roleName := if String.eqb roleName "" then DefaultRole config else roleName in
    return_if (String.eqb roleName "") (Resp (ErrorResponse "missing role")) ;;
    let redirectURI := Get d "redirect_uri" in
    return_if (String.eqb redirectURI "") (Resp (ErrorResponse "missing redirect_uri")) ;;
    role <- try (b_role W roleName) ;;
    role <- unwrap role
      (Resp (ErrorResponse ("role " ++ fmt_q W roleName ++ " could not be found"))) ;;
    let clientNonce := Get d "client_nonce" in
    return_if (String.eqb clientNonce ""
               && negb (String.eqb (CallbackMode role) callbackModeClient))
      (Resp (ErrorResponse "missing client_nonce")) ;;
    (* The namespace, if any, is taken out of redirectURI. *)
    ns <- unwrap (splitNamespace config redirectURI) (Resp resp) ;;
    let namespace := fst ns in
    let redirectURI := snd ns in
    when (negb (validRedirect redirectURI (AllowedRedirectURIs role)))
      (log Warn "unauthorized redirect_uri" [("redirect_uri", redirectURI)] ;;
       Return (Resp resp)) ;;
    (* If configured for form_post, redirect directly to Vault instead of
       the UI, if this was initiated by the UI. *)
    let redirectURI := if String.eqb (OIDCResponseMode config) responseModeFormPost
                       then Strings.Replace1 redirectURI "ui/vault" "v1"
                       else redirectURI in
    provider <- match b_getProvider W config with
                | Err e =>
                    log Warn "error getting provider for login operation" [("error", e)] ;;
                    Return (Resp resp)
                | Ok p => ret p
                end ;;
    created <- call (createOIDCRequest config role roleName redirectURI clientNonce) ;;
    oidcReq <- match created with
               | Err e =>
                   log Warn "error generating OAuth state" [("error", e)] ;;
                   Return (Resp resp)
               | Ok r => ret r
               end ;;
    urlStr <- match provider_AuthURL W provider (Request oidcReq) with
              | Err e =>
                  log Warn "error generating auth URL" [("error", e)] ;;
                  Return (Resp resp)
              | Ok u => ret u
              end ;;
    (* embed namespace in oidcReq in the auth_url *)
    let urlStr :=
      if NamespaceInState config && (0 <? String.length namespace)%nat then
        let stateWithNamespace := State (Request oidcReq) ++ ",ns=" ++ namespace in
        Strings.Replace1 urlStr (State (Request oidcReq))
                         (url_QueryEscape stateWithNamespace)
      else urlStr in
    let data := <["auth_url" := DString urlStr]> (Data resp) in
    let data := if String.eqb (CallbackMode role) callbackModeDirect
                then <["poll_interval" := DString "5"]>
                       (<["state" := DString (State (Request oidcReq))]> data)
                else data in
    ret (Resp {| Data := data; resp_Auth := None |})).

End Handlers.

(** ** [net/url] on redirect URIs

    An implementation of [NetURL] that follows Go's [net/url] (as of Go
    1.19, which prints a URL without authority as [scheme:/path]) on the
    references written with letters, digits and the bytes [-._~:/?[]=&],
    which [net/url] neither escapes nor unescapes: URIs with an authority,
    [scheme://host[:port][/path][?query]], URIs without one, opaque URIs and
    relative references. Inputs outside this form (user information, a
    fragment, a byte that needs escaping, a bracketed host that is not
    written like an IPv6 address) are not covered: [Parse] answers [None]
    for them, as it does for the inputs [url.Parse] rejects. *)
Module GoURL.

Record t := {
  Scheme : string;
  Opaque : string;
  Host : string;
  Path : string;
  OmitHost : bool;
  ForceQuery : bool;
  RawQuery : string
}.

Definition isLetter (c : ascii) : bool :=
  (Ascii.leb "a" c && Ascii.leb c "z") || (Ascii.leb "A" c && Ascii.leb c "Z").

Definition isDigit (c : ascii) : bool := Ascii.leb "0" c && Ascii.leb c "9".

Definition isHex (c : ascii) : bool :=
  isDigit c || (Ascii.leb "a" c && Ascii.leb c "f")
            || (Ascii.leb "A" c && Ascii.leb c "F").

Definition oneOf (set : string) (c : ascii) : bool :=
  existsb (Ascii.eqb c) (list_ascii_of_string set).

Definition unreserved (c : ascii) : bool :=
  isLetter c || isDigit c || oneOf "-._~" c.

Definition covered (c : ascii) : bool := unreserved c || oneOf ":/?[]=&" c.

Definition all (p : ascii -> bool) (s : string) : bool :=
  forallb p (list_ascii_of_string s).

Definition toLower (c : ascii) : ascii :=
  if Ascii.leb "A" c && Ascii.leb c "Z"
  then ascii_of_nat (nat_of_ascii c + 32) else c.

Fixpoint ToLower (s : string) : string :=
  match s with
  | EmptyString => EmptyString
  | String c s' => String (toLower c) (ToLower s')
  end.

(** [strings.Cut(s, sep)] for a one-byte separator. *)
Fixpoint Cut (s : string) (sep : ascii) : string * string * bool :=
  match s with
  | EmptyString => (EmptyString, EmptyString, false)
  | String c s' =>
      if Ascii.eqb c sep then (EmptyString, s', true)
      else let '(before, after, found) := Cut s' sep in
           (String c before, after, found)
  end.

(** [strings.LastIndexByte(s, c)]. *)
Fixpoint LastIndexByte (s : string) (c : ascii) : option nat :=
  match s with
  | EmptyString => None
  | String c' s' =>
      match LastIndexByte s' c with
      | Some i => Some (S i)
      | None => if Ascii.eqb c' c then Some 0 else None
      end
  end.

(** [s[i:]]. *)
Definition from (i : nat) (s : string) : string :=
  String.substring i (String.length s - i) s.

(** [getScheme]: the scheme and what follows its colon; no scheme when
    the first bytes are not one. [i] is the index of the first byte of
    [rest] in [rawURL]. *)
Fixpoint getScheme_from (i : nat) (rawURL rest : string) : result (string * string) :=
  match rest with
  | EmptyString => Ok (EmptyString, rawURL)
  | String c rest' =>
      if isLetter c then getScheme_from (S i) rawURL rest'
      else if isDigit c || oneOf "+-." c then
        if (i =? 0)%nat then Ok (EmptyString, rawURL)
        else getScheme_from (S i) rawURL rest'
      else if Ascii.eqb c ":" then
        if (i =? 0)%nat then Err "missing protocol scheme"
        else Ok (String.substring 0 i rawURL, rest')
      else Ok (EmptyString, rawURL)
  end.

Definition getScheme (rawURL : string) : result (string * string) :=
  getScheme_from 0 rawURL rawURL.

Definition validOptionalPort (port : string) : bool :=
  match port with
  | EmptyString => true
  | String c digits => Ascii.eqb c ":" && all isDigit digits
  end.

(** [parseHost], on covered bytes: the port after the host must be a
    number; a bracketed host must close its bracket (and is covered when
    it is written like an IPv6 address). *)
Definition parseHost (host : string) : option string :=
  if String.prefix "[" host then
    match LastIndexByte host "]" with
    | None => None
    | Some i =>
        if validOptionalPort (from (i + 1) host)
           && all (fun c => isHex c || oneOf ":." c) (String.substring 1 (i - 1) host)
        then Some host else None
    end
  else
    match LastIndexByte host ":" with
    | Some i => if validOptionalPort (from i host) then Some host else None
    | None => Some host
    end.

(** The authority up to the first slash, and the path from it. *)
Fixpoint splitAuthority (s : string) : string * string :=
  match s with
  | EmptyString => (EmptyString, EmptyString)
  | String c s' =>
      if Ascii.eqb c "/" then (EmptyString, s)
      else let (authority, path) := splitAuthority s' in (String c authority, path)
  end.

(** [parse]: the scheme is split off, then the query; what is left is an
    opaque part when it follows a scheme without a slash, and otherwise an
    authority, when it starts with two slashes, and a path. A relative path
    must not have a colon in its first segment. *)
Definition Parse (rawURL : string) : option t :=
  if negb (all covered rawURL) then None else
  match getScheme rawURL with
  | Err _ => None
  | Ok (scheme, rest) =>
      let '(rest, query, found) := Cut rest "?" in
      let url := {| Scheme := ToLower scheme; Opaque := ""; Host := "";
                    Path := ""; OmitHost := false;
                    ForceQuery := found && String.eqb query "";
                    RawQuery := query |} in
      let rooted := String.prefix "/" rest in
      if negb rooted && negb (String.eqb scheme "") then
        Some {| Scheme := Scheme url; Opaque := rest; Host := ""; Path := "";
                OmitHost := false; ForceQuery := ForceQuery url;
                RawQuery := RawQuery url |}
      else if negb rooted && Strings.Contains (fst (fst (Cut rest "/"))) ":" then
        None
      else if (negb (String.eqb scheme "") || negb (String.prefix "///" rest))
              && String.prefix "//" rest then
        let (authority, path) := splitAuthority (from 2 rest) in
        match parseHost authority with
        | None => None
        | Some host =>
            Some {| Scheme := Scheme url; Opaque := ""; Host := host;
                    Path := path; OmitHost := false;
                    ForceQuery := ForceQuery url; RawQuery := RawQuery url |}
        end
      else
        Some {| Scheme := Scheme url; Opaque := ""; Host := ""; Path := rest;
                OmitHost := negb (String.eqb scheme "") && rooted;
                ForceQuery := ForceQuery url; RawQuery := RawQuery url |}
  end.

(** [splitHostPort] and [Hostname]: the host without a valid port and
    without the brackets of an IPv6 literal. *)
Definition Hostname (u : t) : string :=
  let host := Host u in
  let host := match LastIndexByte host ":" with
              | Some colon => if validOptionalPort (from colon host)
                              then String.substring 0 colon host else host
              | None => host
              end in
  if String.prefix "[" host
     && String.eqb (from (String.length host - 1) host) "]"
  then String.substring 1 (String.length host - 2) host
  else host.

Definition set_Host (u : t) (h : string) : t :=
  {| Scheme := Scheme u; Opaque := Opaque u; Host := h; Path := Path u;
     OmitHost := OmitHost u; ForceQuery := ForceQuery u; RawQuery := RawQuery u |}.

Definition set_RawQuery (u : t) (q : string) : t :=
  {| Scheme := Scheme u; Opaque := Opaque u; Host := Host u; Path := Path u;
     OmitHost := OmitHost u; ForceQuery := ForceQuery u; RawQuery := q |}.

(** [String] reassembles the URL: the scheme and its colon; the opaque part,
    or else the two slashes and the host, unless the host is omitted, and
    the path, set off from the host by a slash and, when nothing stands
    before it, from a colon in its first segment by [./]; and the query. *)
Definition String_ (u : t) : string :=
  let nonEmpty s := negb (String.eqb s "") in
  (if nonEmpty (Scheme u) then Scheme u ++ ":" else "") ++
  (if nonEmpty (Opaque u) then Opaque u
   else
     (if nonEmpty (Scheme u) || nonEmpty (Host u) then
        if OmitHost u && String.eqb (Host u) "" then ""
        else (if nonEmpty (Host u) || nonEmpty (Path u) then "//" else "")
             ++ Host u
      else "") ++
     (if nonEmpty (Path u) && negb (String.prefix "/" (Path u))
         && nonEmpty (Host u)
      then "/" else "") ++
     (if String.eqb (Scheme u) "" && String.eqb (Host u) ""
         && Strings.Contains (fst (fst (Cut (Path u) "/"))) ":"
      then "./" else "") ++
     Path u) ++
  (if ForceQuery u || nonEmpty (RawQuery u)
   then "?" ++ RawQuery u else "").

(** [url.Values]: the values of each key, keys in order of appearance. *)
Definition Values_t := list (string * list string).

Fixpoint addValue (m : Values_t) (k v : string) : Values_t :=
  match m with
  | [] => [(k, [v])]
  | (k', vs) :: m' =>
      if String.eqb k' k then (k', (vs ++ [v])%list) :: m'
      else (k', vs) :: addValue m' k v
  end.

(** [ParseQuery] on covered bytes: the pieces between ampersands, each cut
    at its first equals sign; empty pieces are skipped. *)
Definition parseQuery (query : string) : Values_t :=
  fold_left (fun m piece =>
               if String.eqb piece "" then m
               else let '(k, v, _) := Cut piece "=" in addValue m k v)
            (Strings.Split query "&") [].

Definition Query (u : t) : Values_t := parseQuery (RawQuery u).

Definition Values_Get (v : Values_t) (key : string) : string :=
  match List.find (fun kv => String.eqb (fst kv) key) v with
  | Some (_, x :: _) => x
  | _ => EmptyString
  end.

Definition Values_Del (v : Values_t) (key : string) : Values_t :=
  List.filter (fun kv => negb (String.eqb (fst kv) key)) v.

Definition hexDigit (n : nat) : ascii :=
  match String.get n "0123456789ABCDEF" with
  | Some c => c
  | None => "0"%char
  end.

(** [QueryEscape]: unreserved bytes stay, a space becomes a plus sign,
    every other byte becomes a percent sign and two hexadecimal digits. *)
Fixpoint QueryEscape (s : string) : string :=
  match s with
  | EmptyString => EmptyString
  | String c s' =>
      if unreserved c then String c (QueryEscape s')
      else if Ascii.eqb c " " then String "+" (QueryEscape s')
      else String "%" (String (hexDigit (nat_of_ascii c / 16))
                        (String (hexDigit (nat_of_ascii c mod 16)) (QueryEscape s')))
  end.

(** Keys in increasing byte order, as [Encode] sorts them. *)
Fixpoint insertSorted (kv : string * list string) (m : Values_t) : Values_t :=
  match m with
  | [] => [kv]
  | kv' :: m' => if String.leb (fst kv) (fst kv') then kv :: m
                 else kv' :: insertSorted kv m'
  end.

Definition sortKeys (m : Values_t) : Values_t := fold_right insertSorted [] m.

Definition Values_Encode (v : Values_t) : string :=
  Strings.Join
    (flat_map (fun kv => map (fun x => QueryEscape (fst kv) ++ "=" ++ QueryEscape x)
                             (snd kv))
              (sortKeys v)) "&".

End GoURL.

#[export] Instance goURL : NetURL := {|
  URL := GoURL.t;
  Values := GoURL.Values_t;
  url_Parse := GoURL.Parse;
  url_Hostname := GoURL.Hostname;
  url_set_Host := GoURL.set_Host;
  url_set_RawQuery := GoURL.set_RawQuery;
  url_String := GoURL.String_;
  url_Query := GoURL.Query;
  values_Get := GoURL.Values_Get;
  values_Del := GoURL.Values_Del;
  values_Encode := GoURL.Values_Encode;
  url_QueryEscape := GoURL.QueryEscape
|}.

(** ** A small world to run the handlers in

    One mount whose provider accepts the authorization code [code-1] and
    answers with an ID token for the subject [alice]. The configuration and
    the role table are left open. *)
Module Sample.

Definition quoted (s : string) : string :=
  String (ascii_of_nat 34) (s ++ String (ascii_of_nat 34) EmptyString).

Definition rawIDToken : string := "header.payload.signature".

Definition claims : Claims :=
  <["sub" := ClaimString "alice"]> (<["nonce" := ClaimString "n-0"]> ∅).

Definition alias : Alias := {| alias_Name := "alice"; alias_Metadata := ∅ |}.

Fixpoint tally (n : nat) : string :=
  match n with
  | O => EmptyString
  | S n' => String "i" (tally n')
  end.

Definition world (cfg : result (option jwtConfig))
    (roles : string -> result (option jwtRole)) : World :=
  {| b_config := cfg;
     b_role := roles;
     Provider := unit;
     Tk := string;
     TokenSource := unit;
     b_getProvider := fun _ => Ok tt;
     provider_AuthURL := fun _ r =>
       Ok ("https://idp.example/authorize?state=" ++ State r);
     provider_Exchange := fun _ _ _ code =>
       if String.eqb code "code-1" then Ok rawIDToken else Err "invalid_grant";
     provider_VerifyIDToken := fun _ raw _ =>
       if String.eqb raw rawIDToken then None else Some "invalid id_token";
     provider_UserInfo := fun _ _ _ c => (None, c);
     tk_IDToken := fun t => t;
     tk_StaticTokenSource := fun _ => Some tt;
     idToken_Claims := fun _ => Ok claims;
     b_createIdentity := fun _ _ _ => Ok (alias, []);
     validateBoundClaims := fun _ _ _ => None;
     RemoteAddrIsOk := fun _ _ => true;
     PopulateTokenAuth := fun _ a => a;
     oidc_NewCodeVerifier := fun seed => Ok ("verifier-" ++ tally seed);
     oidc_NewRequest := fun seed timeout redirectURI options =>
       Ok {| State := "st-" ++ tally seed; RedirectURL := redirectURI;
             ExpireIn := timeout; Options := options |};
     duration_Seconds_uint := fun d => Z.to_N (d / 1000000000);
     fmt_q := quoted;
     json_Marshal := fun _ => Ok "{}";
     errorHTML := fun summary detail => "<p>" ++ summary ++ " " ++ detail ++ "</p>";
     formpostHTML := fun mount code state =>
       "<form>" ++ mount ++ " " ++ code ++ " " ++ state ++ "</form>";
     successHTML := "<p>Signed in.</p>";
     RespondWithStatusCode := fun status =>
       Resp {| Data := mapOf [ (HTTPStatusCode, DInt status) ]; resp_Auth := None |}
  |}.

Definition config : jwtConfig :=
  {| OIDCResponseMode := "query"; NamespaceInState := false; DefaultRole := "";
     authType := OIDCFlow; hasType := String.eqb responseTypeCode |}.

Definition formPostConfig : jwtConfig :=
  {| OIDCResponseMode := responseModeFormPost; NamespaceInState := false;
     DefaultRole := ""; authType := OIDCFlow; hasType := String.eqb responseTypeCode |}.

Definition role (mode : string) : jwtRole :=
  {| CallbackMode := mode;
     AllowedRedirectURIs := ["https://vault.example/ui/vault/auth/oidc/oidc/callback";
                             "http://localhost:8250/oidc/callback"];
     TokenBoundCIDRs := [];
     BoundAudiences := [];
     OIDCScopes := [];
     MaxAge := 0;
     VerboseOIDCLogging := false;
     BoundSubject := "";
     BoundClaimsType := "string";
     BoundClaims := ∅;
     Policies := ["default"];
     Period := 0;
     NumUses := 0;
     TTL := 0;
     MaxTTL := 0;
     BoundCIDRs := [] |}.

(** A mount with the one role [dev], in callback mode [mode]. *)
Definition roles (mode : string) (name : string) : result (option jwtRole) :=
  if String.eqb name "dev" then Ok (Some (role mode)) else Ok None.

Definition mount (mode : string) : World := world (Ok (Some config)) (roles mode).

(** A request as [createOIDCRequest] stores it for the role [dev]. *)
Definition request (nonce : string) : oidcRequest :=
  {| Request := {| State := "st-"; RedirectURL := "http://localhost:8250/oidc/callback";
                   ExpireIn := oidcRequestTimeout; Options := [] |};
     rolename := "dev"; code := ""; idToken := ""; clientNonce := nonce;
     auth := None |}.

Definition backend (m : gmap string oidcRequest) : jwtAuthBackend :=
  {| oidcRequests := m; logger := []; entropy := 0 |}.

Definition fields (l : list (string * string)) : FieldData := list_to_map l.

Definition noConnection : logical_Request := {| req_Connection := None |}.

End Sample.

(** ** Judgements on handler bodies

    [steps I Q m]: from a cache that satisfies [I], the piece [m] either
    returns from the function with a value and a cache related by [Q], or
    goes on with a cache that still satisfies [I]. [ends I Q m] is the same
    for a whole body: whatever it returns is related to the final cache by
    [Q]. *)
Definition steps {R A} (I : gmap string oidcRequest -> Prop)
    (Q : R -> gmap string oidcRequest -> Prop) (m : Go R A) : Prop :=
  forall b, I (oidcRequests b) ->
            match m b with
            | (inl r, b') => Q r (oidcRequests b')
            | (inr _, b') => I (oidcRequests b')
            end.

Definition ends {R} (I : gmap string oidcRequest -> Prop)
    (Q : R -> gmap string oidcRequest -> Prop) (m : Go R R) : Prop :=
  forall b, I (oidcRequests b) ->
            Q (fst (run m b)) (oidcRequests (snd (run m b))).

(** The nonce supplied with a poll or a callback passes the check against
    the stored request: the request carries no nonce, or the same one. *)
Definition noncePasses (oidcReq : oidcRequest) (supplied : string) : Prop :=
  clientNonce oidcReq = "" \/ supplied = clientNonce oidcReq.

(** The page [pathCallback] answers with in direct mode once the credential
    is attached. *)
Definition successPage (W : World) : Response :=
  {| Data := mapOf [ (HTTPContentType, DString "text/html");
                     (HTTPStatusCode, DInt StatusOK);
                     (HTTPRawBody, DBytes (successHTML W)) ];
     resp_Auth := None |}.

(** The role [authURL] works with: the requested one, the configured
    default when none is requested. *)
Definition roleNameOf (config : jwtConfig) (d : FieldData) : string :=
  if String.eqb (Get d "role") "" then DefaultRole config else Get d "role".

(** The redirect URI [authURL] hands to the provider and stores: under
    body-post delivery the UI path is replaced by the API path. *)
Definition providerRedirect (config : jwtConfig) (uri : string) : string :=
  if String.eqb (OIDCResponseMode config) responseModeFormPost
  then Strings.Replace1 uri "ui/vault" "v1" else uri.

(** The message of an outcome that is an error response. *)
Definition errorText (o : Outcome) : option dataValue :=
  match o with
  | Resp r => Data r !! "error"
  | Fail _ => None
  end.

(** ** What a callback checks before it hands out a credential *)

(** The connection check of [pathCallback] passes. *)
Definition cidrPasses (W : World) (req : logical_Request) (role : jwtRole) : Prop :=
  TokenBoundCIDRs role = [] \/
  exists conn, req_Connection req = Some conn /\
               RemoteAddrIsOk W (RemoteAddr conn) (TokenBoundCIDRs role) = true.

(** The credential [pathCallback] builds from the role and the identity
    before [PopulateTokenAuth] fills in the token parameters of the role. *)
Definition builtAuth (role : jwtRole) (roleName : string)
    (identity : Alias * list Alias) : Auth :=
  {| auth_Policies := Policies role;
     auth_DisplayName := alias_Name (fst identity);
     auth_Period := Period role;
     auth_NumUses := NumUses role;
     auth_Alias := fst identity;
     auth_GroupAliases := snd identity;
     auth_InternalData := {[ "role" := roleName ]};
     auth_Metadata := alias_Metadata (fst identity) ∪ {[ "role" := roleName ]};
     auth_LeaseOptions := {| Renewable := true; lease_TTL := TTL role;
                             lease_MaxTTL := MaxTTL role |};
     auth_BoundCIDRs := BoundCIDRs role |}.

(** The subject [pathCallback] reads from the claims: the claim [sub] when
    it is a string. *)
Definition subjectOf (allClaims : Claims) : string :=
  match allClaims !! "sub" with
  | Some (ClaimString subStr) => subStr
  | _ => ""
  end.

(** The bound subject of the role, if any, is the subject of the claims. *)
Definition subjectPasses (role : jwtRole) (allClaims : Claims) : Prop :=
  BoundSubject role = "" \/ BoundSubject role = subjectOf allClaims.

(** The provider hands [pathCallback] its token: it exchanged the code the
    callback works with for a token, whose ID token is used, or, when there
    is no code, it verified the stored ID token. *)
Definition tokenObtained (W : World) (p : Provider W) (d : FieldData)
    (r : oidcRequest) (rawToken : string) (token : option (Tk W)) : Prop :=
  (callbackCode (Get d "code") r <> "" /\
   exists t, provider_Exchange W p (Request r) (Get d "state")
                               (callbackCode (Get d "code") r) = Ok t /\
             rawToken = tk_IDToken W t /\ token = Some t) \/
  (callbackCode (Get d "code") r = "" /\ idToken r <> "" /\
   provider_VerifyIDToken W p (idToken r) (Request r) = None /\
   rawToken = idToken r /\ token = None).

(** The token source of the access token, when there is one. *)
Definition tokenSourceOf (W : World) (token : option (Tk W))
  : option (TokenSource W) :=
  match token with
  | Some token => tk_StaticTokenSource W token
  | None => None
  end.

(** The claims after the user info endpoint has been asked, when there is a
    token source; a failure of the endpoint leaves what it returns. *)
Definition withUserInfo (W : World) (p : Provider W)
    (tokenSource : option (TokenSource W)) (subject : string)
    (allClaims : Claims) : Claims :=
  match tokenSource with
  | Some ts => snd (provider_UserInfo W p ts subject allClaims)
  | None => allClaims
  end.

(** Everything that stands between a callback that is past the nonce check
    and the credential [a]. *)
Definition callbackGrants (W : World) (req : logical_Request) (d : FieldData)
    (config : jwtConfig) (r : oidcRequest) (role : jwtRole) (a : Auth) : Prop :=
  Get d "error_description" = "" /\
  cidrPasses W req role /\
  exists p rawToken token claims identity,
    b_getProvider W config = Ok p /\
    tokenObtained W p d r rawToken token /\
    idToken_Claims W rawToken = Ok claims /\
    let allClaims := delete "nonce" claims in
    let tokenSource := tokenSourceOf W token in
    subjectPasses role allClaims /\
    let allClaims :=
      withUserInfo W p tokenSource (subjectOf allClaims) allClaims in
    b_createIdentity W allClaims role tokenSource = Ok identity /\
    validateBoundClaims W (BoundClaimsType role) (BoundClaims role) allClaims
    = None /\
    a = PopulateTokenAuth W role (builtAuth role (rolename r) identity).

(** ** The options of a provider request *)

(** The options [createOIDCRequest] passes to [oidc.NewRequest] fit the
    configuration and the role: the implicit flow is asked for exactly when
    the configuration has the ID-token response type, a PKCE verifier is
    only sent when it has not and has the code response type, and a maximum
    age is sent exactly when the role has a positive one. *)
Definition optionsFit (config : jwtConfig) (role : jwtRole)
    (options : list oidc_Option) : Prop :=
  In (WithAudiences (BoundAudiences role)) options /\
  In (WithScopes (OIDCScopes role)) options /\
  (In WithImplicitFlow options <-> hasType config responseTypeIDToken = true) /\
  ((exists v, In (WithPKCE v) options) <->
   hasType config responseTypeIDToken = false /\
   hasType config responseTypeCode = true) /\
  ((exists n, In (WithMaxAge n) options) <-> (0 < MaxAge role)%Z).

(** * Properties *)

(** ** [strings.Split] *)

Lemma Split_nonempty (s : string) (sep : ascii) : Strings.Split s sep <> [].
Proof.
  destruct s as [|c s]; simpl; [discriminate|].
  destruct (Ascii.eqb c sep); [discriminate|].
  destruct (Strings.Split s sep); discriminate.
Qed.


(** No piece holds the separator. *)
Lemma Split_pieces (s : string) (sep : ascii) (p : string) :
  In p (Strings.Split s sep) -> ~ In sep (list_ascii_of_string p).
Proof.
  revert p. induction s as [|c s IH]; simpl; intros p Hp.
  - destruct Hp as [<-|[]]. simpl. tauto.
  - destruct (Ascii.eqb_spec c sep) as [->|Hne].
    + destruct Hp as [<-|Hp]; [simpl; tauto | now apply IH].
    + pose proof (Split_nonempty s sep) as Hn.
      destruct (Strings.Split s sep) as [|q qs] eqn:E; [contradiction|].
      destruct Hp as [<-|Hp].
      * simpl. intros [Heq|Hin]; [congruence|].
        apply (IH q); [now left | exact Hin].
      * apply IH. now right.
Qed.

(** ** [parseMount] *)

Lemma at_index_lookup (parts : list string) (i : nat) (s : string) :
  parts !! i = Some s -> at_index parts i = s.
Proof. intros H. unfold at_index. rewrite nth_lookup, H. reflexivity. Qed.

Lemma mount_at_test (parts : list string) (i : nat) :
  (i + 2 < length parts)%nat ->
  (String.eqb (at_index parts i) "v1" && String.eqb (at_index parts (i + 1)) "auth" = true
   <-> mount_at parts i).
Proof.
  intros Hlt. unfold mount_at.
  destruct (lookup_lt_is_Some_2 parts i ltac:(lia)) as [a Ha].
  destruct (lookup_lt_is_Some_2 parts (i + 1) ltac:(lia)) as [b Hb].
  rewrite (at_index_lookup _ _ _ Ha), (at_index_lookup _ _ _ Hb), Ha, Hb.
  rewrite andb_true_iff, !String.eqb_eq. split.
  - intros [-> ->]. auto.
  - intros (_ & [= ->] & [= ->]). auto.
Qed.

(** The loop returns at the first place where [v1], [auth] and a third
    segment follow each other, and falls through to the empty string when
    there is none; [fuel] only has to cover the segments left. *)
Lemma parseMount_loop_spec (parts : list string) (fuel i : nat) :
  (length parts <= i + fuel)%nat ->
  (forall j, (i <= j)%nat -> mount_at parts j ->
             (forall k, (i <= k < j)%nat -> ~ mount_at parts k) ->
             parseMount_loop parts i fuel = at_index parts (j + 2)) /\
  ((forall j, (i <= j)%nat -> ~ mount_at parts j) ->
   parseMount_loop parts i fuel = "").
Proof.
  revert i. induction fuel as [|fuel IH]; intros i Hfuel.
  - split.
    + intros j Hij (Hlt & _) _. lia.
    + reflexivity.
  - simpl. destruct (Nat.ltb_spec (i + 2) (length parts)) as [Hlt|Hge].
    + destruct (String.eqb (at_index parts i) "v1"
                && String.eqb (at_index parts (i + 1)) "auth") eqn:Htest.
      * apply mount_at_test in Htest; [|exact Hlt]. split.
        -- intros j Hij Hj Hfirst.
           destruct (decide (j = i)) as [->|Hne]; [reflexivity|].
           exfalso. apply (Hfirst i); [lia | exact Htest].
        -- intros Hnone. exfalso. apply (Hnone i); [lia | exact Htest].
      * assert (~ mount_at parts i) as Hi.
        { intros Hm. apply mount_at_test in Hm; [congruence | exact Hlt]. }
        destruct (IH (i + 1)%nat ltac:(lia)) as [IH1 IH2]. split.
        -- intros j Hij Hj Hfirst.
           destruct (decide (j = i)) as [->|Hne]; [contradiction|].
           apply IH1; [lia | exact Hj |]. intros k Hk. apply Hfirst. lia.
        -- intros Hnone. apply IH2. intros j Hj. apply Hnone. lia.
    + split.
      * intros j Hij (Hj & _) _. lia.
      * reflexivity.
Qed.

(** Either some place is the first one with the three segments, or no place
    has them. *)
Lemma first_mount (parts : list string) :
  (exists j, mount_at parts j /\ forall k, (k < j)%nat -> ~ mount_at parts k) \/
  (forall j, ~ mount_at parts j).
Proof.
  assert (forall n,
    (exists j, (j < n)%nat /\ mount_at parts j /\
               forall k, (k < j)%nat -> ~ mount_at parts k) \/
    (forall j, (j < n)%nat -> ~ mount_at parts j)) as Hsearch.
  { induction n as [|n [(j & Hj & Hm & Hfirst)|Hnone]].
    - right. intros j Hj. lia.
    - left. exists j. auto with lia.
    - destruct (decide (mount_at parts n)) as [Hm|Hm].
      + left. exists n. auto with lia.
      + right. intros j Hj. destruct (decide (j = n)) as [->|]; [exact Hm|].
        apply Hnone. lia. }
  destruct (Hsearch (length parts)) as [(j & _ & Hm & Hfirst)|Hnone].
  - left. eauto.
  - right. intros j Hm. apply (Hnone j); [|exact Hm]. destruct Hm. lia.
Qed.

(** The iteration bound of [parseMount] is never what stops the loop. *)
Lemma parseMount_loop_fuel (parts : list string) (fuel : nat) :
  (length parts <= fuel)%nat ->
  parseMount_loop parts 0 fuel = parseMount_loop parts 0 (length parts).
Proof.
  intros Hfuel.
  destruct (first_mount parts) as [(j & Hj & Hfirst)|Hnone].
  - destruct (parseMount_loop_spec parts fuel 0 ltac:(lia)) as [H1 _].
    destruct (parseMount_loop_spec parts (length parts) 0 ltac:(lia)) as [H2 _].
    rewrite (H1 j), (H2 j); auto with lia.
  - destruct (parseMount_loop_spec parts fuel 0 ltac:(lia)) as [_ H1].
    destruct (parseMount_loop_spec parts (length parts) 0 ltac:(lia)) as [_ H2].
    rewrite H1, H2; auto.
Qed.

(** C9. [parseMount] splits the redirect URI on the slash and scans the
    segments from the left: at the first place where the segments [v1] and
    [auth] are followed by a third segment it returns that third segment;
    when no place has the three segments it returns the empty string. The
    callback URI of the mount [jwt-test] resolves to [jwt-test]. *)
Theorem parseMount_first_match (redirectURI : string) :
  let parts := Strings.Split redirectURI "/" in
  (forall i mount,
      mount_at parts i ->
      (forall j, (j < i)%nat -> ~ mount_at parts j) ->
      parts !! (i + 2)%nat = Some mount ->
      parseMount redirectURI = mount) /\
  ((forall i, ~ mount_at parts i) -> parseMount redirectURI = "") /\
  parseMount "https://host/v1/auth/jwt-test/oidc/callback" = "jwt-test".
Proof.
  intros parts. unfold parseMount. fold parts.
  destruct (parseMount_loop_spec parts (length parts) 0 ltac:(lia)) as [Hhit Hmiss].
  split; [|split].
  - intros i mount Hi Hfirst Hthird.
    rewrite (Hhit i ltac:(lia) Hi).
    + now apply at_index_lookup.
    + intros k Hk. apply Hfirst. lia.
  - intros Hnone. apply Hmiss. intros j _. apply Hnone.
  - reflexivity.
Qed.

(** The theorem at two URIs: one with the segments at the fourth place, one
    without them. *)
Lemma parseMount_first_match_witness :
  parseMount "https://host/v1/auth/jwt-test/oidc/callback" = "jwt-test" /\
  parseMount "https://host/ui/vault/auth/jwt-test/oidc/callback" = "".
Proof.
  split.
  - apply (proj1 (parseMount_first_match
                    "https://host/v1/auth/jwt-test/oidc/callback") 3%nat "jwt-test").
    + unfold mount_at. simpl. split; [lia | split; reflexivity].
    + intros j Hj (_ & H1 & H2).
      destruct j as [|[|[|j]]]; simpl in *; try discriminate; lia.
    + reflexivity.
  - apply (proj1 (proj2 (parseMount_first_match
                    "https://host/ui/vault/auth/jwt-test/oidc/callback"))).
    intros i (Hlt & H1 & H2). simpl in Hlt.
    do 9 (destruct i as [|i]; [simpl in *; discriminate|]). simpl in Hlt. lia.
Defined.

(** ** [validRedirect] *)

Lemma StrListContains_In (haystack : list string) (needle : string) :
  StrListContains haystack needle = true <-> In needle haystack.
Proof.
  induction haystack as [|item rest IH]; simpl.
  - split; [discriminate | tauto].
  - destruct (String.eqb_spec item needle) as [->|Hne].
    + split; auto.
    + rewrite IH. split; [auto | intros [H|H]; [contradiction | exact H]].
Qed.

Section ValidRedirectFacts.
Context {net_url : NetURL}.

(** A candidate that does not parse never validates. *)
Lemma validRedirect_malformed (uri : string) (allowed : list string) :
  url_Parse uri = None -> validRedirect uri allowed = false.
Proof. intros H. unfold validRedirect. now rewrite H. Qed.

(** A candidate whose host is not a loopback host validates exactly when the
    string itself is in the allow-list. *)
Lemma validRedirect_not_loopback (uri : string) (allowed : list string) (u : URL) :
  url_Parse uri = Some u ->
  StrListContains loopbackHosts (url_Hostname u) = false ->
  (validRedirect uri allowed = true <-> In uri allowed).
Proof.
  intros Hparse Hhost. unfold validRedirect. rewrite Hparse, Hhost. simpl.
  apply StrListContains_In.
Qed.

(** On the loopback branch the candidate is compared without its port. *)
Lemma validRedirect_loopback (uri : string) (allowed : list string) (u : URL) :
  url_Parse uri = Some u ->
  StrListContains loopbackHosts (url_Hostname u) = true ->
  validRedirect uri allowed =
  validRedirect_loop (url_set_Host u (url_Hostname u)) allowed.
Proof.
  intros Hparse Hhost. unfold validRedirect. now rewrite Hparse, Hhost.
Qed.

(** An entry that does not parse ends the loop: what follows it is never
    looked at. *)
Lemma validRedirect_loop_stops (u : URL) (a : string) (rest : list string) :
  url_Parse a = None -> validRedirect_loop u (a :: rest) = false.
Proof. intros H. simpl. now rewrite H. Qed.

(** The loop finds an entry that matches without its port when every entry
    before it parses. *)
Lemma validRedirect_loop_finds (u : URL) (before after : list string)
    (a : string) (v : URL) :
  Forall (fun b => is_Some (url_Parse b)) before ->
  url_Parse a = Some v ->
  url_String u = url_String (url_set_Host v (url_Hostname v)) ->
  validRedirect_loop u (before ++ a :: after)%list = true.
Proof.
  intros Hbefore Ha Heq. induction Hbefore as [|b before [w Hb] _ IH]; simpl.
  - rewrite Ha, Heq, String.eqb_refl. reflexivity.
  - rewrite Hb. destruct (String.eqb _ _); [reflexivity | exact IH].
Qed.

(** The reading of the specification passes over the entries that do not
    parse: it is the loop run on the entries that parse. *)
Lemma specRedirect_loop_wellFormed (u : URL) (allowed : list string) :
  specRedirect_loop u allowed = validRedirect_loop u (wellFormedEntries allowed).
Proof.
  induction allowed as [|a rest IH]; simpl; [reflexivity|].
  destruct (url_Parse a) as [v|] eqn:Ha; simpl.
  - rewrite Ha, IH. reflexivity.
  - exact IH.
Qed.

(** Whatever the loop accepts, the reading of the specification accepts. *)
Lemma validRedirect_loop_sound (u : URL) (allowed : list string) :
  validRedirect_loop u allowed = true -> specRedirect_loop u allowed = true.
Proof.
  induction allowed as [|a rest IH]; simpl; [discriminate|].
  destruct (url_Parse a) as [v|]; [|discriminate].
  destruct (String.eqb _ _); auto.
Qed.

(** On an allow-list whose entries all parse the two agree. *)
Lemma validRedirect_loop_complete (u : URL) (allowed : list string) :
  Forall (fun a => is_Some (url_Parse a)) allowed ->
  validRedirect_loop u allowed = specRedirect_loop u allowed.
Proof.
  induction 1 as [|a rest [v Ha] _ IH]; simpl; [reflexivity|].
  rewrite Ha, IH. reflexivity.
Qed.

End ValidRedirectFacts.

(** C2. The behaviour of the code at an allow-list whose first entry has a
    port that is not a number: the loop returns at that entry, so the
    loopback candidate is refused although the second entry matches it
    without its port; on the allow-list without the malformed entry the
    candidate validates. *)
Theorem validRedirect_malformed_entry_blocks_match :
  let uri := "http://127.0.0.1:4321/cb" in
  let allowed := ["http://127.0.0.1:port/cb"; "http://127.0.0.1:9999/cb"] in
  url_Parse "http://127.0.0.1:port/cb" = None /\
  wellFormedEntries allowed = ["http://127.0.0.1:9999/cb"] /\
  validRedirect uri allowed = false /\
  validRedirect uri (wellFormedEntries allowed) = true.
Proof. repeat split; reflexivity. Qed.

(** C7. The behaviour of the code at a loopback candidate and an allow-list
    that holds an entry equal to it up to the port, after an entry whose
    IPv6 bracket is not closed: the candidate matches the second entry
    without its port and yet does not validate. *)
Theorem validRedirect_loopback_match_missed :
  let uri := "http://127.0.0.1:4321/cb" in
  let allowed := ["http://[::1:8250/cb"; "http://127.0.0.1:9999/cb"] in
  (exists u, url_Parse uri = Some u /\
             StrListContains loopbackHosts (url_Hostname u) = true) /\
  In "http://127.0.0.1:9999/cb" allowed /\
  portAgnosticMatch uri "http://127.0.0.1:9999/cb" /\
  validRedirect uri allowed = false /\
  validRedirect uri ["http://127.0.0.1:9999/cb"] = true.
Proof.
  split; [|split; [|split; [|split]]].
  - eexists. split; reflexivity.
  - simpl. auto.
  - unfold portAgnosticMatch. do 2 eexists. repeat split; reflexivity.
  - reflexivity.
  - reflexivity.
Qed.

(** ** Running handler bodies *)

Lemma run_bind_inr {R A} (m : Go R A) (k : A -> Go R R)
    (b b' : jwtAuthBackend) (a : A) :
  m b = (inr a, b') -> run (bind m k) b = run (k a) b'.
Proof. intros H. unfold run, bind. rewrite H. reflexivity. Qed.

Lemma run_bind_inl {R A} (m : Go R A) (k : A -> Go R R)
    (b b' : jwtAuthBackend) (r : R) :
  m b = (inl r, b') -> run (bind m k) b = (r, b').
Proof. intros H. unfold run, bind. rewrite H. reflexivity. Qed.

Section Logic.
Context {R : Type} (I : gmap string oidcRequest -> Prop)
        (Q : R -> gmap string oidcRequest -> Prop).

Lemma steps_ret {A} (a : A) : steps I Q (ret a).
Proof. intros b Hb. exact Hb. Qed.

Lemma steps_Return {A} (r : R) :
  (forall m, I m -> Q r m) -> steps I Q (@Return R A r).
Proof. intros H b Hb. simpl. auto. Qed.

Lemma steps_bind {A B} (m : Go R A) (k : A -> Go R B) :
  steps I Q m -> (forall a, steps I Q (k a)) -> steps I Q (bind m k).
Proof.
  intros Hm Hk b Hb. unfold bind. specialize (Hm b Hb).
  destruct (m b) as [[r|a] b']; [exact Hm | apply Hk, Hm].
Qed.

Lemma steps_log l msg args : steps I Q (@log R l msg args).
Proof. intros b Hb. exact Hb. Qed.

Lemma steps_fresh : steps I Q (@fresh R).
Proof. intros b Hb. exact Hb. Qed.

Lemma steps_get (stateID : string) : steps I Q (@getOIDCRequest R stateID).
Proof. intros b Hb. exact Hb. Qed.

(** A called function may do anything to the cache when [I] asks nothing. *)
Lemma steps_call {R'} (body : Go R' R') :
  (forall m, I m) -> steps I Q (@call R' R body).
Proof.
  intros H b _. unfold call. destruct (run body b) as [r b']. apply H.
Qed.

Lemma ends_ret (r : R) : (forall m, I m -> Q r m) -> ends I Q (ret r).
Proof. intros H b Hb. simpl. auto. Qed.

Lemma ends_Return (r : R) : (forall m, I m -> Q r m) -> ends I Q (Return r).
Proof. intros H b Hb. simpl. auto. Qed.

Lemma ends_bind {A} (m : Go R A) (k : A -> Go R R) :
  steps I Q m -> (forall a, ends I Q (k a)) -> ends I Q (bind m k).
Proof.
  intros Hm Hk b Hb. unfold run, bind. specialize (Hm b Hb).
  destruct (m b) as [[r|a] b'] eqn:E; simpl; [exact Hm|].
  specialize (Hk a b' Hm). unfold run in Hk. exact Hk.
Qed.

(** A body that ends by storing a request and returning. *)
Lemma ends_set (stateID : string) (oidcReq : oidcRequest) (r : R) :
  (forall m, I m -> Q r (<[stateID := oidcReq]> m)) ->
  ends I Q (bind (setOIDCRequest stateID oidcReq) (fun _ => ret r)).
Proof. intros H b Hb. simpl. auto. Qed.

End Logic.

(** Symbolic execution of the pieces of a body: every early return leaves a
    side condition [forall m, I m -> Q r m]. *)
Ltac go_steps :=
  repeat first
    [ apply steps_ret
    | apply steps_log
    | apply steps_fresh
    | apply steps_get
    | apply steps_call; solve [intros; exact Logic.I]
    | apply steps_Return; try (intros; assumption)
    | apply steps_bind; [|intros ?]
    | progress unfold return_if, when, try, unwrap
    | match goal with
      | |- steps _ _ (match ?x with _ => _ end) => destruct x eqn:?
      end ].

Ltac go_ends :=
  repeat first
    [ apply ends_ret; try (intros; assumption)
    | apply ends_Return; try (intros; assumption)
    | apply ends_set
    | apply ends_bind; [go_steps | intros ?]
    | progress cbv zeta
    | match goal with
      | |- ends _ _ (match ?x with _ => _ end) => destruct x eqn:?
      end ].

(** One step of a body whose piece [m] is decided by the hypotheses. *)
Ltac go_on := erewrite run_bind_inr by reflexivity; cbv zeta.
Ltac go_on_by tac := erewrite run_bind_inr by (tac; reflexivity); cbv zeta.
Ltac go_out_by tac := erewrite run_bind_inl by (tac; reflexivity).

(** ** Lookups in the request and field maps *)

Lemma Get_insert_eq (d : FieldData) (k v : string) : Get (<[k := v]> d) k = v.
Proof. unfold Get. now rewrite lookup_insert_eq. Qed.

Lemma Get_insert_ne (d : FieldData) (k k' v : string) :
  k <> k' -> Get (<[k := v]> d) k' = Get d k'.
Proof. intros H. unfold Get. now rewrite lookup_insert_ne. Qed.

Lemma errorText_ErrorResponse (x : string) :
  errorText (Resp (ErrorResponse x)) = Some (DString x).
Proof. unfold errorText, ErrorResponse. simpl. apply lookup_singleton_eq. Qed.

Lemma ErrorResponse_inj (x y : string) :
  Resp (ErrorResponse x) = Resp (ErrorResponse y) -> x = y.
Proof.
  intros H. apply (f_equal errorText) in H.
  rewrite !errorText_ErrorResponse in H. congruence.
Qed.

(** ** Looking up the state *)

Lemma pathPoll_missing (req : logical_Request) (d : FieldData) (b : jwtAuthBackend) :
  oidcRequests b !! Get d "state" = None ->
  pathPoll req d b = (expiredOrMissing, b).
Proof.
  intros Hs. unfold pathPoll. cbv zeta.
  go_on. go_out_by ltac:(rewrite Hs). reflexivity.
Qed.

Lemma pathCallback_missing (W : World) (req : logical_Request) (d : FieldData)
    (b : jwtAuthBackend) (config : jwtConfig) :
  b_config W = Ok (Some config) ->
  oidcRequests b !! Get d "state" = None ->
  pathCallback W req d b = (expiredOrMissing, b).
Proof.
  intros Hc Hs. unfold pathCallback.
  go_on_by ltac:(unfold try; rewrite Hc). go_on. go_on.
  go_out_by ltac:(rewrite Hs). reflexivity.
Qed.

Lemma pathCallback_resolved (W : World) (req : logical_Request) (d : FieldData)
    (b : jwtAuthBackend) (config : jwtConfig) (r : oidcRequest) (a : Auth) :
  b_config W = Ok (Some config) ->
  oidcRequests b !! Get d "state" = Some r ->
  auth r = Some a ->
  pathCallback W req d b = (expiredOrMissing, b).
Proof.
  intros Hc Hs Ha. unfold pathCallback.
  go_on_by ltac:(unfold try; rewrite Hc). go_on. go_on.
  go_out_by ltac:(rewrite Hs, Ha). reflexivity.
Qed.

(** C3, as the code has it. [pathPoll] fails with the expired-or-missing
    error whenever the state is absent from the cache. [pathCallback] loads
    the configuration before it looks at the state: once the configuration
    is loaded it fails with the same error whenever the state is absent or
    the stored request already carries a credential. Neither call changes
    the backend. *)
Theorem expired_or_missing_state (W : World) (req : logical_Request)
    (d : FieldData) (b : jwtAuthBackend) :
  (oidcRequests b !! Get d "state" = None ->
   pathPoll req d b = (expiredOrMissing, b)) /\
  (forall config,
      b_config W = Ok (Some config) ->
      (oidcRequests b !! Get d "state" = None \/
       exists r a, oidcRequests b !! Get d "state" = Some r /\ auth r = Some a) ->
      pathCallback W req d b = (expiredOrMissing, b)).
Proof.
  split.
  - apply pathPoll_missing.
  - intros config Hc [Hs|(r & a & Hs & Ha)].
    + eapply pathCallback_missing; eassumption.
    + eapply pathCallback_resolved; eassumption.
Qed.

(** The theorem on the sample mount with an empty cache. *)
Lemma expired_or_missing_state_witness :
  pathPoll Sample.noConnection (Sample.fields [("state", "st-gone")])
           (Sample.backend ∅) = (expiredOrMissing, Sample.backend ∅) /\
  pathCallback (Sample.mount callbackModeClient) Sample.noConnection
               (Sample.fields [("state", "st-gone")]) (Sample.backend ∅)
  = (expiredOrMissing, Sample.backend ∅).
Proof.
  split.
  - apply (proj1 (expired_or_missing_state (Sample.mount callbackModeClient)
                    Sample.noConnection (Sample.fields [("state", "st-gone")])
                    (Sample.backend ∅))).
    reflexivity.
  - apply (proj2 (expired_or_missing_state (Sample.mount callbackModeClient)
                    Sample.noConnection (Sample.fields [("state", "st-gone")])
                    (Sample.backend ∅)) Sample.config).
    + reflexivity.
    + left. reflexivity.
Defined.

(** C3 as stated fails where the mount has no configuration: the callback
    for a state that is not in the cache is answered with the configuration
    error, not with the expired-or-missing error. *)
Lemma pathCallback_unconfigured_counterexample :
  let W := Sample.world (Ok None) (Sample.roles callbackModeClient) in
  let d := Sample.fields [("state", "st-gone")] in
  let b := Sample.backend ∅ in
  oidcRequests b !! Get d "state" = None /\
  fst (pathCallback W Sample.noConnection d b)
  = Resp (ErrorResponse "Vault login failed. Could not load configuration") /\
  fst (pathCallback W Sample.noConnection d b) <> expiredOrMissing.
Proof.
  split; [reflexivity|]. split; [reflexivity|].
  intros H.
  apply (ErrorResponse_inj "Vault login failed. Could not load configuration"
                           "Vault login failed. Expired or missing OAuth state.") in H.
  discriminate.
Qed.

(** ** Client mode: the request is used once *)

(** Where the role is resolved and is not in direct mode, [pathCallback]
    ends with the entry deleted and nothing else changed in the cache,
    whatever happens after the deletion. *)
Lemma pathCallback_client_deletes (W : World) (req : logical_Request)
    (d : FieldData) (b : jwtAuthBackend) (config : jwtConfig)
    (r : oidcRequest) (role : jwtRole) :
  b_config W = Ok (Some config) ->
  oidcRequests b !! Get d "state" = Some r ->
  auth r = None ->
  b_role W (rolename r) = Ok (Some role) ->
  CallbackMode role <> callbackModeDirect ->
  oidcRequests (snd (pathCallback W req d b))
  = delete (Get d "state") (oidcRequests b).
Proof.
  intros Hc Hs Ha Hrole Hmode. apply String.eqb_neq in Hmode.
  unfold pathCallback.
  go_on_by ltac:(unfold try; rewrite Hc). go_on. go_on.
  go_on_by ltac:(rewrite Hs, Ha).
  go_on_by ltac:(rewrite Hrole).
  rewrite Hmode.
  go_on.
  match goal with
  | |- oidcRequests (snd (run ?body ?b0)) = ?X =>
      apply (fun H : ends (fun m => m = X) (fun _ m => m = X) body => H b0);
      [|reflexivity]
  end.
  go_ends.
Qed.

(** When the role of the request cannot be loaded or is gone, the entry is
    deleted as well. *)
Lemma pathCallback_role_gone_deletes (W : World) (req : logical_Request)
    (d : FieldData) (b : jwtAuthBackend) (config : jwtConfig) (r : oidcRequest) :
  b_config W = Ok (Some config) ->
  oidcRequests b !! Get d "state" = Some r ->
  auth r = None ->
  (forall role, b_role W (rolename r) <> Ok (Some role)) ->
  oidcRequests (snd (pathCallback W req d b))
  = delete (Get d "state") (oidcRequests b).
Proof.
  intros Hc Hs Ha Hrole. unfold pathCallback.
  go_on_by ltac:(unfold try; rewrite Hc). go_on. go_on.
  go_on_by ltac:(rewrite Hs, Ha).
  destruct (b_role W (rolename r)) as [[role|]|e] eqn:E.
  - now destruct (Hrole role).
  - go_out_by idtac. reflexivity.
  - go_out_by idtac. reflexivity.
Qed.

(** C4. In [pathCallback] for a role that is not in direct mode, the entry
    of the request leaves the cache as soon as the role is resolved:
    whatever the error description, the nonce, the connection, the provider,
    the token and the claims turn out to be, and whether the call succeeds
    or fails, the cache after the call is the cache before it without the
    entry. No later poll or callback with the same state observes the
    request: both fail with the expired-or-missing error. *)
Theorem pathCallback_client_mode_single_use (W : World) (req : logical_Request)
    (d : FieldData) (b : jwtAuthBackend) (config : jwtConfig)
    (r : oidcRequest) (role : jwtRole) :
  b_config W = Ok (Some config) ->
  oidcRequests b !! Get d "state" = Some r ->
  auth r = None ->
  b_role W (rolename r) = Ok (Some role) ->
  CallbackMode role <> callbackModeDirect ->
  let b' := snd (pathCallback W req d b) in
  oidcRequests b' = delete (Get d "state") (oidcRequests b) /\
  oidcRequests b' !! Get d "state" = None /\
  (forall req' d',
      Get d' "state" = Get d "state" ->
      pathPoll req' d' b' = (expiredOrMissing, b')) /\
  (forall W' req' d' config',
      b_config W' = Ok (Some config') ->
      Get d' "state" = Get d "state" ->
      pathCallback W' req' d' b' = (expiredOrMissing, b')).
Proof.
  intros Hc Hs Ha Hrole Hmode b'.
  assert (oidcRequests b' = delete (Get d "state") (oidcRequests b)) as Hdel.
  { eapply pathCallback_client_deletes; eassumption. }
  assert (oidcRequests b' !! Get d "state" = None) as Hgone.
  { rewrite Hdel. apply lookup_delete_eq. }
  repeat split; try assumption.
  - intros req' d' Hd'. apply pathPoll_missing. now rewrite Hd'.
  - intros W' req' d' config' Hc' Hd'.
    eapply pathCallback_missing; [eassumption | now rewrite Hd'].
Qed.

(** The theorem on the sample mount in client mode: a callback that brings
    the wrong nonce fails, and the entry is gone all the same. *)
Lemma pathCallback_client_mode_single_use_witness :
  let W := Sample.mount callbackModeClient in
  let d := Sample.fields [("state", "st-"); ("client_nonce", "other")] in
  let b := Sample.backend {[ "st-" := Sample.request "n-1" ]} in
  let b' := snd (pathCallback W Sample.noConnection d b) in
  oidcRequests b' = delete (Get d "state") (oidcRequests b) /\
  oidcRequests b' !! Get d "state" = None /\
  (forall req' d',
      Get d' "state" = Get d "state" ->
      pathPoll req' d' b' = (expiredOrMissing, b')) /\
  (forall W' req' d' config',
      b_config W' = Ok (Some config') ->
      Get d' "state" = Get d "state" ->
      pathCallback W' req' d' b' = (expiredOrMissing, b')).
Proof.
  intros W d b.
  apply (pathCallback_client_mode_single_use W Sample.noConnection d b
           Sample.config (Sample.request "n-1") (Sample.role callbackModeClient)).
  - reflexivity.
  - reflexivity.
  - reflexivity.
  - reflexivity.
  - discriminate.
Defined.

(** ** Polling *)

Lemma noncePasses_test (r : oidcRequest) (supplied : string) :
  noncePasses r supplied <->
  negb (String.eqb (clientNonce r) "") && negb (String.eqb supplied (clientNonce r))
  = false.
Proof.
  unfold noncePasses. rewrite andb_false_iff, !negb_false_iff, !String.eqb_eq.
  reflexivity.
Qed.

Lemma nonceFails_test (r : oidcRequest) (supplied : string) :
  clientNonce r <> "" -> supplied <> clientNonce r ->
  negb (String.eqb (clientNonce r) "") && negb (String.eqb supplied (clientNonce r))
  = true.
Proof.
  intros H1 H2. apply String.eqb_neq in H1, H2. now rewrite H1, H2.
Qed.

(** A poll for a request without a credential, with a nonce that passes:
    the pending answer, and the backend as it was. *)
Lemma pathPoll_pending (req : logical_Request) (d : FieldData)
    (b : jwtAuthBackend) (r : oidcRequest) :
  oidcRequests b !! Get d "state" = Some r ->
  noncePasses r (Get d "client_nonce") ->
  auth r = None ->
  pathPoll req d b = (Resp (ErrorResponse "authorization_pending"), b).
Proof.
  intros Hs Hn Ha. apply noncePasses_test in Hn.
  unfold pathPoll. cbv zeta.
  go_on. go_on_by ltac:(rewrite Hs).
  go_on_by ltac:(unfold when; rewrite Hn).
  rewrite Ha. reflexivity.
Qed.

(** A poll for a request with a credential, with a nonce that passes: the
    credential, and the entry deleted. *)
Lemma pathPoll_delivers (req : logical_Request) (d : FieldData)
    (b : jwtAuthBackend) (r : oidcRequest) (a : Auth) :
  oidcRequests b !! Get d "state" = Some r ->
  noncePasses r (Get d "client_nonce") ->
  auth r = Some a ->
  pathPoll req d b
  = (Resp {| Data := ∅; resp_Auth := Some a |},
     with_oidcRequests b (delete (Get d "state") (oidcRequests b))).
Proof.
  intros Hs Hn Ha. apply noncePasses_test in Hn.
  unfold pathPoll. cbv zeta.
  go_on. go_on_by ltac:(rewrite Hs).
  go_on_by ltac:(unfold when; rewrite Hn).
  rewrite Ha. reflexivity.
Qed.

(** A poll with a nonce that differs from the stored one: the nonce error,
    and the entry deleted. *)
Lemma pathPoll_nonce_mismatch (req : logical_Request) (d : FieldData)
    (b : jwtAuthBackend) (r : oidcRequest) :
  oidcRequests b !! Get d "state" = Some r ->
  clientNonce r <> "" ->
  Get d "client_nonce" <> clientNonce r ->
  pathPoll req d b
  = (Resp (ErrorResponse "invalid client_nonce"),
     with_oidcRequests b (delete (Get d "state") (oidcRequests b))).
Proof.
  intros Hs H1 H2. pose proof (nonceFails_test r _ H1 H2) as Hn.
  unfold pathPoll. cbv zeta.
  go_on. go_on_by ltac:(rewrite Hs).
  go_out_by ltac:(unfold when; rewrite Hn). reflexivity.
Qed.

(** Once the entry is deleted, a poll with the same state finds nothing. *)
Lemma pathPoll_after_delete (req : logical_Request) (d : FieldData)
    (b : jwtAuthBackend) (stateID : string) :
  Get d "state" = stateID ->
  let b' := with_oidcRequests b (delete stateID (oidcRequests b)) in
  pathPoll req d b' = (expiredOrMissing, b').
Proof.
  intros Hd b'. apply pathPoll_missing. rewrite Hd. apply lookup_delete_eq.
Qed.

(** ** Direct mode: the callback attaches the credential *)

(** In direct mode [pathCallback] either leaves the cache as it was, or
    stores the request with a credential attached and answers with the
    success page. *)
Lemma pathCallback_direct_attaches (W : World) (req : logical_Request)
    (d : FieldData) (b : jwtAuthBackend) (config : jwtConfig)
    (r : oidcRequest) (role : jwtRole) :
  b_config W = Ok (Some config) ->
  oidcRequests b !! Get d "state" = Some r ->
  auth r = None ->
  b_role W (rolename r) = Ok (Some role) ->
  CallbackMode role = callbackModeDirect ->
  oidcRequests (snd (pathCallback W req d b)) = oidcRequests b \/
  exists a,
    oidcRequests (snd (pathCallback W req d b))
    = <[Get d "state" := set_auth r a]> (oidcRequests b) /\
    fst (pathCallback W req d b) = Resp (successPage W).
Proof.
  intros Hc Hs Ha Hrole Hmode. apply String.eqb_eq in Hmode.
  unfold pathCallback.
  go_on_by ltac:(unfold try; rewrite Hc). go_on. go_on.
  go_on_by ltac:(rewrite Hs, Ha).
  go_on_by ltac:(rewrite Hrole).
  rewrite Hmode.
  go_on.
  match goal with
  | |- oidcRequests (snd (run ?body ?b0)) = ?X \/ _ =>
      apply (fun H : ends (fun m => m = X)
                       (fun out m => m = X \/
                          exists a, m = <[Get d "state" := set_auth r a]> X /\
                                    out = Resp (successPage W)) body => H b0);
      [|reflexivity]
  end.
  go_ends; try (intros m ->; left; reflexivity).
  intros m ->. right. eexists. split; reflexivity.
Qed.

(** C5, as the code has it. Direct-mode delivery happens at most once. For a
    stored request and a poll whose nonce passes the check against it:
    while no credential is attached the poll answers
    [authorization_pending] and leaves the backend as it was, so a later
    poll still finds the request; a callback for a direct-mode role either
    leaves the cache alone or attaches a credential and answers with the
    success page; and once a credential is attached, the poll returns that
    credential and deletes the entry, after which every poll with the same
    state fails with the expired-or-missing error. *)
Theorem direct_mode_delivery (W : World) (req : logical_Request)
    (d : FieldData) (b : jwtAuthBackend) (r : oidcRequest) :
  oidcRequests b !! Get d "state" = Some r ->
  noncePasses r (Get d "client_nonce") ->
  (auth r = None ->
   pathPoll req d b = (Resp (ErrorResponse "authorization_pending"), b)) /\
  (forall reqc dc config role,
      auth r = None ->
      Get dc "state" = Get d "state" ->
      b_config W = Ok (Some config) ->
      b_role W (rolename r) = Ok (Some role) ->
      CallbackMode role = callbackModeDirect ->
      let b1 := snd (pathCallback W reqc dc b) in
      oidcRequests b1 = oidcRequests b \/
      exists a,
        fst (pathCallback W reqc dc b) = Resp (successPage W) /\
        oidcRequests b1 !! Get d "state" = Some (set_auth r a) /\
        let b2 := with_oidcRequests b1 (delete (Get d "state") (oidcRequests b1)) in
        pathPoll req d b1 = (Resp {| Data := ∅; resp_Auth := Some a |}, b2) /\
        forall req' d', Get d' "state" = Get d "state" ->
                        pathPoll req' d' b2 = (expiredOrMissing, b2)) /\
  (forall a,
      auth r = Some a ->
      let b' := with_oidcRequests b (delete (Get d "state") (oidcRequests b)) in
      pathPoll req d b = (Resp {| Data := ∅; resp_Auth := Some a |}, b') /\
      forall req' d', Get d' "state" = Get d "state" ->
                      pathPoll req' d' b' = (expiredOrMissing, b')).
Proof.
  intros Hs Hn. split; [|split].
  - intros Ha. eapply pathPoll_pending; eassumption.
  - intros reqc dc config role Ha Hdc Hc Hrole Hmode b1.
    rewrite <- Hdc in Hs.
    destruct (pathCallback_direct_attaches W reqc dc b config r role
                Hc Hs Ha Hrole Hmode) as [Hsame|(a & Hset & Hout)].
    + left. exact Hsame.
    + right. exists a. rewrite Hdc in Hset.
      assert (oidcRequests b1 !! Get d "state" = Some (set_auth r a)) as Hs1.
      { unfold b1. rewrite Hset. apply lookup_insert_eq. }
      split; [exact Hout|]. split; [exact Hs1|]. split.
      * eapply pathPoll_delivers; [exact Hs1 | exact Hn | reflexivity].
      * intros req' d' Hd'. now apply pathPoll_after_delete.
  - intros a Ha b'. split.
    + eapply pathPoll_delivers; eassumption.
    + intros req' d' Hd'. now apply pathPoll_after_delete.
Qed.

(** The theorem on the sample mount in direct mode: the request of the role
    [dev] is pending, the callback with the code the provider accepts
    attaches the credential, the poll delivers it once. *)
Lemma direct_mode_delivery_witness :
  let W := Sample.mount callbackModeDirect in
  let d := Sample.fields [("state", "st-"); ("client_nonce", "n-1")] in
  let dc := Sample.fields [("state", "st-"); ("code", "code-1")] in
  let b := Sample.backend {[ "st-" := Sample.request "n-1" ]} in
  pathPoll Sample.noConnection d b
  = (Resp (ErrorResponse "authorization_pending"), b) /\
  let b1 := snd (pathCallback W Sample.noConnection dc b) in
  (oidcRequests b1 = oidcRequests b \/
   exists a,
     fst (pathCallback W Sample.noConnection dc b) = Resp (successPage W) /\
     oidcRequests b1 !! Get d "state" = Some (set_auth (Sample.request "n-1") a) /\
     let b2 := with_oidcRequests b1 (delete (Get d "state") (oidcRequests b1)) in
     pathPoll Sample.noConnection d b1
     = (Resp {| Data := ∅; resp_Auth := Some a |}, b2) /\
     forall req' d', Get d' "state" = Get d "state" ->
                     pathPoll req' d' b2 = (expiredOrMissing, b2)).
Proof.
  intros W d dc b.
  assert (oidcRequests b !! Get d "state" = Some (Sample.request "n-1")) as Hs
    by reflexivity.
  assert (noncePasses (Sample.request "n-1") (Get d "client_nonce")) as Hn
    by (right; reflexivity).
  destruct (direct_mode_delivery W Sample.noConnection d b
              (Sample.request "n-1") Hs Hn) as (Hpending & Hattach & _).
  split.
  - apply Hpending. reflexivity.
  - apply (Hattach Sample.noConnection dc Sample.config
                   (Sample.role callbackModeDirect)); reflexivity.
Defined.

(** C5 as stated fails for a poll that brings another nonce than the stored
    one: the request has no credential yet, and the poll is answered with
    the nonce error and deletes the entry instead of answering
    [authorization_pending] and keeping it. *)
Lemma pathPoll_pending_counterexample :
  let d := Sample.fields [("state", "st-"); ("client_nonce", "n-2")] in
  let b := Sample.backend {[ "st-" := Sample.request "n-1" ]} in
  oidcRequests b !! Get d "state" = Some (Sample.request "n-1") /\
  auth (Sample.request "n-1") = None /\
  fst (pathPoll Sample.noConnection d b) = Resp (ErrorResponse "invalid client_nonce") /\
  fst (pathPoll Sample.noConnection d b) <> Resp (ErrorResponse "authorization_pending") /\
  oidcRequests (snd (pathPoll Sample.noConnection d b)) !! Get d "state" = None.
Proof.
  repeat split; try reflexivity.
  intros H.
  apply (ErrorResponse_inj "invalid client_nonce" "authorization_pending") in H.
  discriminate.
Qed.

(** ** Nonce correlation *)

(** A callback for a role that is not in direct mode, without an error
    description and with a nonce that differs from the stored one: the nonce
    error, and the entry deleted. *)
Lemma pathCallback_nonce_mismatch (W : World) (req : logical_Request)
    (d : FieldData) (b : jwtAuthBackend) (config : jwtConfig)
    (r : oidcRequest) (role : jwtRole) :
  b_config W = Ok (Some config) ->
  oidcRequests b !! Get d "state" = Some r ->
  auth r = None ->
  b_role W (rolename r) = Ok (Some role) ->
  CallbackMode role <> callbackModeDirect ->
  Get d "error_description" = "" ->
  clientNonce r <> "" ->
  Get d "client_nonce" <> clientNonce r ->
  pathCallback W req d b
  = (Resp (ErrorResponse "invalid client_nonce"),
     with_oidcRequests b (delete (Get d "state") (oidcRequests b))).
Proof.
  intros Hc Hs Ha Hrole Hmode He H1 H2.
  pose proof (nonceFails_test r _ H1 H2) as Hn.
  apply String.eqb_neq in Hmode.
  unfold pathCallback.
  go_on_by ltac:(unfold try; rewrite Hc). go_on. go_on.
  go_on_by ltac:(rewrite Hs, Ha).
  go_on_by ltac:(rewrite Hrole).
  rewrite Hmode.
  go_on.
  go_on_by ltac:(rewrite He).
  go_out_by ltac:(rewrite Hn). reflexivity.
Qed.

(** In direct mode the callback does not look at the supplied nonce. *)
Lemma pathCallback_direct_ignores_nonce (W : World) (req : logical_Request)
    (d : FieldData) (b : jwtAuthBackend) (config : jwtConfig)
    (r : oidcRequest) (role : jwtRole) (nonce : string) :
  b_config W = Ok (Some config) ->
  oidcRequests b !! Get d "state" = Some r ->
  auth r = None ->
  b_role W (rolename r) = Ok (Some role) ->
  CallbackMode role = callbackModeDirect ->
  pathCallback W req (<["client_nonce" := nonce]> d) b = pathCallback W req d b.
Proof.
  intros Hc Hs Ha Hrole Hmode. apply String.eqb_eq in Hmode.
  unfold pathCallback.
  rewrite (Get_insert_ne d "client_nonce" "state"),
          (Get_insert_ne d "client_nonce" "error_description"),
          (Get_insert_ne d "client_nonce" "code") by discriminate.
  do 2 (go_on_by ltac:(unfold try; rewrite Hc); go_on; go_on;
        go_on_by ltac:(rewrite Hs, Ha);
        go_on_by ltac:(rewrite Hrole); symmetry).
  rewrite Hmode, !andb_false_r. reflexivity.
Qed.

(** C6, as the code has it. For a stored request created with a non-empty
    nonce and a call that supplies a different one: [pathPoll] fails with
    the nonce error and deletes the entry; [pathCallback] does the same
    when the role is not in direct mode and the provider reported no error
    (configuration and role resolved, no credential attached yet). After
    either, a poll with the same state fails with the expired-or-missing
    error. In direct mode [pathCallback] does not compare the nonce. *)
Theorem nonce_mismatch_is_fatal (W : World) (req : logical_Request)
    (d : FieldData) (b : jwtAuthBackend) (r : oidcRequest) :
  oidcRequests b !! Get d "state" = Some r ->
  clientNonce r <> "" ->
  Get d "client_nonce" <> clientNonce r ->
  let b' := with_oidcRequests b (delete (Get d "state") (oidcRequests b)) in
  pathPoll req d b = (Resp (ErrorResponse "invalid client_nonce"), b') /\
  (forall config role,
      b_config W = Ok (Some config) ->
      auth r = None ->
      b_role W (rolename r) = Ok (Some role) ->
      CallbackMode role <> callbackModeDirect ->
      Get d "error_description" = "" ->
      pathCallback W req d b = (Resp (ErrorResponse "invalid client_nonce"), b')) /\
  (forall req' d', Get d' "state" = Get d "state" ->
                   pathPoll req' d' b' = (expiredOrMissing, b')) /\
  (forall config role,
      b_config W = Ok (Some config) ->
      auth r = None ->
      b_role W (rolename r) = Ok (Some role) ->
      CallbackMode role = callbackModeDirect ->
      pathCallback W req d b
      = pathCallback W req (<["client_nonce" := clientNonce r]> d) b).
Proof.
  intros Hs H1 H2 b'. split; [|split; [|split]].
  - now apply pathPoll_nonce_mismatch with (r := r).
  - intros config role Hc Ha Hrole Hmode He.
    now apply pathCallback_nonce_mismatch with (config := config) (r := r) (role := role).
  - intros req' d' Hd'. now apply pathPoll_after_delete.
  - intros config role Hc Ha Hrole Hmode. symmetry.
    now apply pathCallback_direct_ignores_nonce
      with (config := config) (r := r) (role := role).
Qed.

(** The theorem on the sample mount in client mode, for a request created
    with the nonce [n-1] and calls that bring [n-2]. *)
Lemma nonce_mismatch_is_fatal_witness :
  let W := Sample.mount callbackModeClient in
  let d := Sample.fields [("state", "st-"); ("client_nonce", "n-2"); ("code", "code-1")] in
  let b := Sample.backend {[ "st-" := Sample.request "n-1" ]} in
  let b' := with_oidcRequests b (delete (Get d "state") (oidcRequests b)) in
  pathPoll Sample.noConnection d b = (Resp (ErrorResponse "invalid client_nonce"), b') /\
  pathCallback W Sample.noConnection d b
  = (Resp (ErrorResponse "invalid client_nonce"), b') /\
  (forall req' d', Get d' "state" = Get d "state" ->
                   pathPoll req' d' b' = (expiredOrMissing, b')).
Proof.
  intros W d b b'.
  assert (oidcRequests b !! Get d "state" = Some (Sample.request "n-1")) as Hs
    by reflexivity.
  assert (clientNonce (Sample.request "n-1") <> "") as H1 by discriminate.
  assert (Get d "client_nonce" <> clientNonce (Sample.request "n-1")) as H2
    by discriminate.
  destruct (nonce_mismatch_is_fatal W Sample.noConnection d b
              (Sample.request "n-1") Hs H1 H2) as (Hpoll & Hcb & Hnext & _).
  split; [exact Hpoll|]. split; [|exact Hnext].
  apply (Hcb Sample.config (Sample.role callbackModeClient));
    first [reflexivity | discriminate].
Defined.

(** C6 as stated fails for a callback in direct mode: the request was
    created with the nonce [n-1], the callback brings [n-2], and it is not
    answered with the nonce error but with the success page; the entry stays
    in the cache, with the credential attached. *)
Lemma pathCallback_direct_nonce_counterexample :
  let W := Sample.mount callbackModeDirect in
  let d := Sample.fields [("state", "st-"); ("client_nonce", "n-2"); ("code", "code-1")] in
  let b := Sample.backend {[ "st-" := Sample.request "n-1" ]} in
  clientNonce (Sample.request "n-1") <> "" /\
  Get d "client_nonce" <> clientNonce (Sample.request "n-1") /\
  fst (pathCallback W Sample.noConnection d b) = Resp (successPage W) /\
  fst (pathCallback W Sample.noConnection d b) <> Resp (ErrorResponse "invalid client_nonce") /\
  (exists r a, oidcRequests (snd (pathCallback W Sample.noConnection d b)) !! Get d "state"
               = Some r /\ auth r = Some a).
Proof.
  split; [discriminate|]. split; [discriminate|]. split; [reflexivity|]. split.
  - intros H. apply (f_equal errorText) in H.
    rewrite errorText_ErrorResponse in H. discriminate H.
  - do 2 eexists. split; reflexivity.
Qed.

(** ** Starting a login *)

Lemma errorText_emptyAuthURL : errorText (Resp emptyAuthURL) = None.
Proof. reflexivity. Qed.

Lemma not_an_error (o : Outcome) (text : string) :
  errorText o = None -> o <> Resp (ErrorResponse text).
Proof.
  intros Ho ->. rewrite errorText_ErrorResponse in Ho. discriminate.
Qed.

(** [authURL] up to the nonce check: the configuration is loaded and is for
    the OIDC flow, a role name and a redirect URI are there, the role
    exists. What is left of the body runs from the backend as it was. *)
Lemma authURL_reaches_nonce_check (W : World) {net_url : NetURL}
    (req : logical_Request) (d : FieldData) (b : jwtAuthBackend)
    (config : jwtConfig) (role : jwtRole) :
  b_config W = Ok (Some config) ->
  authType config = OIDCFlow ->
  roleNameOf config d <> "" ->
  Get d "redirect_uri" <> "" ->
  b_role W (roleNameOf config d) = Ok (Some role) ->
  Get d "client_nonce" = "" ->
  CallbackMode role <> callbackModeClient ->
  authURL W req d b = (Resp (ErrorResponse "missing client_nonce"), b).
Proof.
  intros Hc Ht Hname Huri Hrole Hnonce Hmode.
  apply String.eqb_neq in Hname, Huri, Hmode.
  unfold authURL. cbv zeta. fold (roleNameOf config d).
  go_on_by ltac:(unfold try; rewrite Hc). go_on.
  go_on_by ltac:(rewrite Ht).
  fold (roleNameOf config d).
  go_on_by ltac:(rewrite Hname).
  go_on_by ltac:(rewrite Huri).
  go_on_by ltac:(unfold try; rewrite Hrole). go_on.
  go_out_by ltac:(rewrite Hnonce, Hmode). reflexivity.
Qed.

(** In client mode a call without a nonce goes past the nonce check: what
    it returns is never the missing-nonce error. *)
Lemma authURL_client_mode_accepts_empty_nonce (W : World) {net_url : NetURL}
    (req : logical_Request) (d : FieldData) (b : jwtAuthBackend)
    (config : jwtConfig) (role : jwtRole) :
  b_config W = Ok (Some config) ->
  authType config = OIDCFlow ->
  roleNameOf config d <> "" ->
  Get d "redirect_uri" <> "" ->
  b_role W (roleNameOf config d) = Ok (Some role) ->
  CallbackMode role = callbackModeClient ->
  errorText (fst (authURL W req d b)) = None.
Proof.
  intros Hc Ht Hname Huri Hrole Hmode.
  apply String.eqb_neq in Hname, Huri. apply String.eqb_eq in Hmode.
  unfold authURL. cbv zeta.
  go_on_by ltac:(unfold try; rewrite Hc). go_on.
  go_on_by ltac:(rewrite Ht).
  fold (roleNameOf config d).
  go_on_by ltac:(rewrite Hname).
  go_on_by ltac:(rewrite Huri).
  go_on_by ltac:(unfold try; rewrite Hrole). go_on.
  go_on_by ltac:(rewrite Hmode, andb_false_r).
  match goal with
  | |- errorText (fst (run ?body ?b0)) = None =>
      apply (fun H : ends (fun _ => True) (fun out _ => errorText out = None) body
             => H b0 Logic.I)
  end.
  go_ends; try (intros; reflexivity).
  intros _ _. unfold errorText. simpl.
  destruct (String.eqb (CallbackMode role) callbackModeDirect);
    repeat (rewrite lookup_insert_ne by discriminate); reflexivity.
Qed.

(** C1, as the code has it. In [authURL], for a call that reaches the nonce
    check (configuration loaded for the OIDC flow, role name and redirect
    URI present, role found) without a client nonce: the call fails with
    the missing-nonce error whenever the role's callback mode is not client,
    in particular when it is direct; when the callback mode is client the
    missing nonce is accepted, and the call does not fail with that
    error. *)
Theorem authURL_nonce_required_unless_client (W : World) {net_url : NetURL}
    (req : logical_Request) (d : FieldData) (b : jwtAuthBackend)
    (config : jwtConfig) (role : jwtRole) :
  b_config W = Ok (Some config) ->
  authType config = OIDCFlow ->
  roleNameOf config d <> "" ->
  Get d "redirect_uri" <> "" ->
  b_role W (roleNameOf config d) = Ok (Some role) ->
  Get d "client_nonce" = "" ->
  (CallbackMode role <> callbackModeClient ->
   authURL W req d b = (Resp (ErrorResponse "missing client_nonce"), b)) /\
  (CallbackMode role = callbackModeDirect ->
   authURL W req d b = (Resp (ErrorResponse "missing client_nonce"), b)) /\
  (CallbackMode role = callbackModeClient ->
   fst (authURL W req d b) <> Resp (ErrorResponse "missing client_nonce")).
Proof.
  intros Hc Ht Hname Huri Hrole Hnonce. split; [|split].
  - intros Hmode. now apply authURL_reaches_nonce_check with (config := config) (role := role).
  - intros Hmode.
    apply authURL_reaches_nonce_check with (config := config) (role := role);
      try assumption.
    rewrite Hmode. discriminate.
  - intros Hmode. apply not_an_error.
    now apply authURL_client_mode_accepts_empty_nonce
      with (config := config) (role := role).
Qed.

(** The theorem on the sample mount, in direct mode and in client mode, for
    a call of the role [dev] without a nonce. *)
Lemma authURL_nonce_required_unless_client_witness :
  let d := Sample.fields [("role", "dev");
                          ("redirect_uri", "http://localhost:8250/oidc/callback")] in
  let b := Sample.backend ∅ in
  authURL (Sample.mount callbackModeDirect) Sample.noConnection d b
  = (Resp (ErrorResponse "missing client_nonce"), b) /\
  fst (authURL (Sample.mount callbackModeClient) Sample.noConnection d b)
  <> Resp (ErrorResponse "missing client_nonce").
Proof.
  intros d b. split.
  - apply (proj1 (proj2 (authURL_nonce_required_unless_client
             (Sample.mount callbackModeDirect) Sample.noConnection d b
             Sample.config (Sample.role callbackModeDirect)
             eq_refl eq_refl ltac:(discriminate) ltac:(discriminate)
             eq_refl eq_refl))).
    reflexivity.
  - apply (proj2 (proj2 (authURL_nonce_required_unless_client
             (Sample.mount callbackModeClient) Sample.noConnection d b
             Sample.config (Sample.role callbackModeClient)
             eq_refl eq_refl ltac:(discriminate) ltac:(discriminate)
             eq_refl eq_refl))).
    reflexivity.
Defined.

(** C1 as stated fails: a missing nonce is not rejected exactly when the
    role is not in direct mode. On the sample mount the call without a nonce
    is rejected in direct mode and accepted in client mode, where it is
    answered with an authorization URL. *)
Lemma authURL_nonce_rule_counterexample :
  let d := Sample.fields [("role", "dev");
                          ("redirect_uri", "http://localhost:8250/oidc/callback")] in
  let b := Sample.backend ∅ in
  let rejected mode :=
    fst (authURL (Sample.mount mode) Sample.noConnection d b)
    = Resp (ErrorResponse "missing client_nonce") in
  Get d "client_nonce" = "" /\
  rejected callbackModeDirect /\
  ~ rejected callbackModeClient /\
  Data (match fst (authURL (Sample.mount callbackModeClient) Sample.noConnection d b) with
        | Resp r => r
        | Fail _ => emptyAuthURL
        end) !! "auth_url"
  = Some (DString "https://idp.example/authorize?state=st-i") /\
  ~ (forall mode, rejected mode <-> mode <> callbackModeDirect).
Proof.
  intros d b rejected.
  assert (rejected callbackModeDirect) as Hdirect by reflexivity.
  assert (~ rejected callbackModeClient) as Hclient.
  { unfold rejected. apply not_an_error. reflexivity. }
  split; [reflexivity|]. split; [exact Hdirect|]. split; [exact Hclient|].
  split; [reflexivity|].
  intros H. apply (proj1 (H callbackModeDirect) Hdirect). reflexivity.
Qed.

Section EmptyAuthURL.
Context (W : World) {net_url : NetURL}.
Context (req : logical_Request) (d : FieldData) (b : jwtAuthBackend).
Context (config : jwtConfig) (role : jwtRole).
Hypothesis Hconfig : b_config W = Ok (Some config).
Hypothesis Hflow : authType config = OIDCFlow.
Hypothesis Hname : roleNameOf config d <> "".
Hypothesis Huri : Get d "redirect_uri" <> "".
Hypothesis Hrole : b_role W (roleNameOf config d) = Ok (Some role).
Hypothesis Hnonce :
  Get d "client_nonce" <> "" \/ CallbackMode role = callbackModeClient.

Lemma nonce_check_passes :
  String.eqb (Get d "client_nonce") ""
  && negb (String.eqb (CallbackMode role) callbackModeClient) = false.
Proof.
  destruct Hnonce as [H|H].
  - apply String.eqb_neq in H. now rewrite H.
  - apply String.eqb_eq in H. now rewrite H, andb_false_r.
Qed.

(** The body of [authURL] after the nonce check. *)
Ltac to_namespace :=
  unfold authURL; cbv zeta;
  go_on_by ltac:(unfold try; rewrite Hconfig); go_on;
  go_on_by ltac:(rewrite Hflow);
  fold (roleNameOf config d);
  go_on_by ltac:(rewrite (proj2 (String.eqb_neq _ _) Hname));
  go_on_by ltac:(rewrite (proj2 (String.eqb_neq _ _) Huri));
  go_on_by ltac:(unfold try; rewrite Hrole); go_on;
  go_on_by ltac:(rewrite nonce_check_passes).

Lemma authURL_unparsable_redirect :
  splitNamespace config (Get d "redirect_uri") = None ->
  authURL W req d b = (Resp emptyAuthURL, b).
Proof.
  intros Hns. to_namespace.
  go_out_by ltac:(rewrite Hns). reflexivity.
Qed.

Lemma authURL_invalid_redirect (ns uri : string) :
  splitNamespace config (Get d "redirect_uri") = Some (ns, uri) ->
  validRedirect uri (AllowedRedirectURIs role) = false ->
  fst (authURL W req d b) = Resp emptyAuthURL.
Proof.
  intros Hns Hvalid. to_namespace.
  go_on_by ltac:(rewrite Hns).
  go_out_by ltac:(simpl; rewrite Hvalid). reflexivity.
Qed.

Lemma authURL_provider_fails (ns uri : string) (e : error) :
  splitNamespace config (Get d "redirect_uri") = Some (ns, uri) ->
  validRedirect uri (AllowedRedirectURIs role) = true ->
  b_getProvider W config = Err e ->
  fst (authURL W req d b) = Resp emptyAuthURL.
Proof.
  intros Hns Hvalid Hp. to_namespace.
  go_on_by ltac:(rewrite Hns).
  go_on_by ltac:(simpl; rewrite Hvalid).
  go_out_by ltac:(rewrite Hp). reflexivity.
Qed.

Lemma authURL_request_fails (ns uri : string) (p : Provider W) (e : error) :
  splitNamespace config (Get d "redirect_uri") = Some (ns, uri) ->
  validRedirect uri (AllowedRedirectURIs role) = true ->
  b_getProvider W config = Ok p ->
  fst (run (createOIDCRequest W config role (roleNameOf config d)
              (providerRedirect config uri) (Get d "client_nonce")) b) = Err e ->
  fst (authURL W req d b) = Resp emptyAuthURL.
Proof.
  intros Hns Hvalid Hp Hcreate. to_namespace.
  go_on_by ltac:(rewrite Hns).
  go_on_by ltac:(simpl; rewrite Hvalid).
  go_on_by ltac:(rewrite Hp).
  unfold providerRedirect in Hcreate. simpl in Hcreate |- *.
  destruct (run (createOIDCRequest _ _ _ _ _ _) b) as [created b1] eqn:E.
  simpl in Hcreate. subst created.
  go_on_by ltac:(unfold call; rewrite E).
  go_out_by idtac. reflexivity.
Qed.

Lemma authURL_url_fails (ns uri : string) (p : Provider W) (r : oidcRequest)
    (e : error) :
  splitNamespace config (Get d "redirect_uri") = Some (ns, uri) ->
  validRedirect uri (AllowedRedirectURIs role) = true ->
  b_getProvider W config = Ok p ->
  fst (run (createOIDCRequest W config role (roleNameOf config d)
              (providerRedirect config uri) (Get d "client_nonce")) b) = Ok r ->
  provider_AuthURL W p (Request r) = Err e ->
  fst (authURL W req d b) = Resp emptyAuthURL.
Proof.
  intros Hns Hvalid Hp Hcreate Hurl. to_namespace.
  go_on_by ltac:(rewrite Hns).
  go_on_by ltac:(simpl; rewrite Hvalid).
  go_on_by ltac:(rewrite Hp).
  unfold providerRedirect in Hcreate. simpl in Hcreate |- *.
  destruct (run (createOIDCRequest _ _ _ _ _ _) b) as [created b1] eqn:E.
  simpl in Hcreate. subst created.
  go_on_by ltac:(unfold call; rewrite E).
  go_on.
  go_out_by ltac:(rewrite Hurl). reflexivity.
Qed.

End EmptyAuthURL.

(** C8, as the code has it. In [authURL], for a call that is past the
    earlier guards (the configuration is loaded for the OIDC flow, the role
    name and the redirect URI are there, the role is found, and the nonce is
    there or the role is in client mode): when the redirect URI does not
    validate against the role's allow-list, and likewise when the provider
    cannot be constructed, when the request cannot be created or when the
    provider cannot generate the authorization URL, the call returns a
    response (not a Go error) whose [auth_url] is the empty string and which
    carries no error message. The same holds when the redirect URI does not
    parse while the namespace is looked for. *)
Theorem authURL_degrades_to_empty_url (W : World) {net_url : NetURL}
    (req : logical_Request) (d : FieldData) (b : jwtAuthBackend)
    (config : jwtConfig) (role : jwtRole) :
  b_config W = Ok (Some config) ->
  authType config = OIDCFlow ->
  roleNameOf config d <> "" ->
  Get d "redirect_uri" <> "" ->
  b_role W (roleNameOf config d) = Ok (Some role) ->
  (Get d "client_nonce" <> "" \/ CallbackMode role = callbackModeClient) ->
  let created uri :=
    fst (run (createOIDCRequest W config role (roleNameOf config d)
                (providerRedirect config uri) (Get d "client_nonce")) b) in
  let degraded := fst (authURL W req d b) = Resp emptyAuthURL in
  (splitNamespace config (Get d "redirect_uri") = None -> degraded) /\
  (forall ns uri,
      splitNamespace config (Get d "redirect_uri") = Some (ns, uri) ->
      (validRedirect uri (AllowedRedirectURIs role) = false -> degraded) /\
      (validRedirect uri (AllowedRedirectURIs role) = true ->
       (forall e, b_getProvider W config = Err e -> degraded) /\
       (forall p e, b_getProvider W config = Ok p ->
                    created uri = Err e -> degraded) /\
       (forall p r e, b_getProvider W config = Ok p ->
                      created uri = Ok r ->
                      provider_AuthURL W p (Request r) = Err e -> degraded))) /\
  Data emptyAuthURL !! "auth_url" = Some (DString "") /\
  errorText (Resp emptyAuthURL) = None.
Proof.
  intros Hc Ht Hname Huri Hrole Hnonce created degraded.
  split; [|split; [|split; reflexivity]].
  - intros Hns. unfold degraded.
    now rewrite (authURL_unparsable_redirect W req d b config role).
  - intros ns uri Hns. split.
    + intros Hvalid. eapply authURL_invalid_redirect; eassumption.
    + intros Hvalid. split; [|split].
      * intros e Hp. eapply authURL_provider_fails; eassumption.
      * intros p e Hp Hcreate. eapply authURL_request_fails; eassumption.
      * intros p r e Hp Hcreate Hurl. eapply authURL_url_fails; eassumption.
Qed.

(** The theorem on the sample mount in client mode, for a redirect URI that
    is not on the allow-list of the role [dev]. *)
Lemma authURL_degrades_to_empty_url_witness :
  let d := Sample.fields [("role", "dev");
                          ("redirect_uri", "https://evil.example/cb")] in
  fst (authURL (Sample.mount callbackModeClient) Sample.noConnection d
               (Sample.backend ∅))
  = Resp emptyAuthURL.
Proof.
  intros d.
  destruct (authURL_degrades_to_empty_url
              (Sample.mount callbackModeClient) Sample.noConnection d
              (Sample.backend ∅) Sample.config (Sample.role callbackModeClient)
              eq_refl eq_refl ltac:(discriminate) ltac:(discriminate) eq_refl
              (or_intror eq_refl)) as (_ & H & _).
  apply (proj1 (H "" "https://evil.example/cb" eq_refl)). reflexivity.
Defined.

(** C8 as stated fails: a redirect URI that fails validation is not always
    answered with an empty authorization URL. The nonce check of [authURL]
    comes before the validation of the redirect URI: on the sample mount in
    direct mode, a call without a nonce whose redirect URI is not on the
    allow-list of the role is answered with the descriptive error for the
    missing nonce. *)
Lemma authURL_unlisted_redirect_counterexample :
  let d := Sample.fields [("role", "dev");
                          ("redirect_uri", "https://evil.example/cb")] in
  let out := fst (authURL (Sample.mount callbackModeDirect) Sample.noConnection
                          d (Sample.backend ∅)) in
  Get d "client_nonce" = "" /\
  splitNamespace Sample.config (Get d "redirect_uri")
  = Some ("", "https://evil.example/cb") /\
  validRedirect "https://evil.example/cb"
                (AllowedRedirectURIs (Sample.role callbackModeDirect)) = false /\
  out = Resp (ErrorResponse "missing client_nonce") /\
  out <> Resp emptyAuthURL /\
  errorText out = Some (DString "missing client_nonce").
Proof.
  intros d out.
  assert (out = Resp (ErrorResponse "missing client_nonce")) as Hout
      by (vm_compute; reflexivity).
  split; [reflexivity|]. split; [vm_compute; reflexivity|].
  split; [vm_compute; reflexivity|]. split; [exact Hout|].
  rewrite Hout. split; [|reflexivity].
  intros H. apply (f_equal errorText) in H. vm_compute in H. discriminate H.
Qed.

(** ** The form-post sentinel *)

Lemma callbackCode_sentinel (r : oidcRequest) : callbackCode noCode r = code r.
Proof. reflexivity. Qed.

Lemma callbackCode_supplied (supplied : string) (r : oidcRequest) :
  supplied <> noCode -> callbackCode supplied r = supplied.
Proof.
  intros H. unfold callbackCode. apply String.eqb_neq in H. now rewrite H.
Qed.

Lemma callbackCode_stored (r : oidcRequest) : callbackCode (code r) r = code r.
Proof. unfold callbackCode. now destruct (String.eqb (code r) noCode). Qed.

(** Under body-post delivery [pathCallbackPost] writes the code and the ID
    token it receives into the stored request. *)
Lemma pathCallbackPost_stores (W : World) (req : logical_Request)
    (d : FieldData) (b : jwtAuthBackend) (config : jwtConfig) (r : oidcRequest) :
  b_config W = Ok (Some config) ->
  OIDCResponseMode config = responseModeFormPost ->
  oidcRequests b !! Get d "state" = Some r ->
  oidcRequests (snd (pathCallbackPost W req d b))
  = <[Get d "state" := set_code_idToken r (Get d "code") (Get d "id_token")]>
      (oidcRequests b).
Proof.
  intros Hc Hmode Hs. apply String.eqb_eq in Hmode.
  unfold pathCallbackPost.
  go_on_by ltac:(unfold try; rewrite Hc). go_on.
  go_on_by ltac:(rewrite Hmode).
  go_on. rewrite Hs.
  go_on.
  destruct (String.eqb (parseMount _) _); reflexivity.
Qed.

(** The page [pathCallbackPost] answers with sends the browser on to the
    callback with the sentinel in place of the code. *)
Lemma pathCallbackPost_page (W : World) (req : logical_Request)
    (d : FieldData) (b : jwtAuthBackend) (config : jwtConfig) (r : oidcRequest) :
  b_config W = Ok (Some config) ->
  OIDCResponseMode config = responseModeFormPost ->
  oidcRequests b !! Get d "state" = Some r ->
  parseMount (RedirectURL (Request r)) <> "" ->
  exists page,
    fst (pathCallbackPost W req d b) = Resp page /\
    Data page !! HTTPRawBody
    = Some (DBytes (formpostHTML W (parseMount (RedirectURL (Request r)))
                                 noCode (Get d "state"))).
Proof.
  intros Hc Hmode Hs Hmount.
  apply String.eqb_eq in Hmode. apply String.eqb_neq in Hmount.
  unfold pathCallbackPost.
  go_on_by ltac:(unfold try; rewrite Hc). go_on.
  go_on_by ltac:(rewrite Hmode).
  go_on. rewrite Hs.
  go_on. simpl. rewrite Hmount.
  eexists. split; [reflexivity|]. simpl. apply lookup_insert_eq.
Qed.

(** A callback that brings the sentinel is the callback that brings the
    stored code. *)
Lemma pathCallback_sentinel (W : World) (req : logical_Request)
    (d : FieldData) (b : jwtAuthBackend) (r : oidcRequest) :
  oidcRequests b !! Get d "state" = Some r ->
  pathCallback W req (<["code" := noCode]> d) b
  = pathCallback W req (<["code" := code r]> d) b.
Proof.
  intros Hs. unfold pathCallback.
  rewrite !(Get_insert_eq d "code").
  rewrite (Get_insert_ne d "code" "state" noCode),
          (Get_insert_ne d "code" "error_description" noCode),
          (Get_insert_ne d "code" "client_nonce" noCode),
          (Get_insert_ne d "code" "state" (code r)),
          (Get_insert_ne d "code" "error_description" (code r)),
          (Get_insert_ne d "code" "client_nonce" (code r)) by discriminate.
  destruct (b_config W) as [[config|]|e] eqn:Hc.
  - do 2 (go_on; go_on; go_on; rewrite Hs; symmetry).
    destruct (auth r) as [a|] eqn:Ha.
    + do 2 (go_out_by idtac; symmetry). reflexivity.
    + destruct (b_role W (rolename r)) as [[role|]|e] eqn:Hrole.
      * do 2 (go_on; go_on_by ltac:(rewrite Hrole); symmetry).
        rewrite callbackCode_sentinel, callbackCode_stored. reflexivity.
      * do 2 (go_on; go_out_by ltac:(rewrite Hrole); symmetry). reflexivity.
      * do 2 (go_on; go_out_by ltac:(rewrite Hrole); symmetry). reflexivity.
  - do 2 (go_on; go_out_by idtac; symmetry). reflexivity.
  - do 2 (go_out_by idtac; symmetry). reflexivity.
Qed.

(** Where the callback gets as far as the provider and has a code to work
    with, the code it hands to [Exchange] is [callbackCode]: when the
    provider refuses that code, the callback fails with the provider's
    message. *)
Lemma pathCallback_exchanges (W : World) (req : logical_Request)
    (d : FieldData) (b : jwtAuthBackend) (config : jwtConfig)
    (r : oidcRequest) (role : jwtRole) (p : Provider W) (e : error) :
  b_config W = Ok (Some config) ->
  oidcRequests b !! Get d "state" = Some r ->
  auth r = None ->
  b_role W (rolename r) = Ok (Some role) ->
  Get d "error_description" = "" ->
  (noncePasses r (Get d "client_nonce") \/ CallbackMode role = callbackModeDirect) ->
  (TokenBoundCIDRs role = [] \/
   exists conn, req_Connection req = Some conn /\
                RemoteAddrIsOk W (RemoteAddr conn) (TokenBoundCIDRs role) = true) ->
  b_getProvider W config = Ok p ->
  callbackCode (Get d "code") r <> "" ->
  provider_Exchange W p (Request r) (Get d "state") (callbackCode (Get d "code") r)
  = Err e ->
  fst (pathCallback W req d b)
  = Resp (loginFailedResponse W (String.eqb (CallbackMode role) callbackModeDirect)
            ("Error exchanging oidc code: " ++ fmt_q W e ++ ".")).
Proof.
  intros Hc Hs Ha Hrole He Hn Hcidr Hp Hcode Hex.
  apply String.eqb_neq in Hcode.
  assert (negb (String.eqb (clientNonce r) "")
          && negb (String.eqb (Get d "client_nonce") (clientNonce r))
          && negb (String.eqb (CallbackMode role) callbackModeDirect) = false) as Hn'.
  { destruct Hn as [Hn|Hn].
    - apply noncePasses_test in Hn. now rewrite Hn.
    - apply String.eqb_eq in Hn. now rewrite Hn, andb_false_r. }
  unfold pathCallback.
  go_on_by ltac:(unfold try; rewrite Hc). go_on. go_on.
  go_on_by ltac:(rewrite Hs, Ha).
  go_on_by ltac:(rewrite Hrole).
  destruct (String.eqb (CallbackMode role) callbackModeDirect);
    (go_on;
     go_on_by ltac:(rewrite He);
     go_on_by ltac:(rewrite Hn');
     go_on_by ltac:(destruct Hcidr as [->|(conn & -> & ->)];
                    [|destruct (0 <? length (TokenBoundCIDRs role))%nat]);
     go_on_by ltac:(rewrite Hp);
     go_out_by ltac:(rewrite Hcode, Hex); reflexivity).
Qed.

(** C10. The second hop of the form-post flow. [pathCallbackPost] stores
    the code (and the ID token) it receives on the request; a callback that
    then brings the sentinel [no_code] is the callback that brings the
    stored code: the sentinel is replaced by the code of the stored request,
    any other code is used as supplied, and the code so chosen is the one
    handed to the provider's exchange. *)
Theorem form_post_sentinel (W : World) (req : logical_Request)
    (d : FieldData) (b : jwtAuthBackend) (r : oidcRequest) :
  oidcRequests b !! Get d "state" = Some r ->
  (forall config,
      b_config W = Ok (Some config) ->
      OIDCResponseMode config = responseModeFormPost ->
      let b1 := snd (pathCallbackPost W req d b) in
      oidcRequests b1 !! Get d "state"
      = Some (set_code_idToken r (Get d "code") (Get d "id_token")) /\
      forall W' req' d',
        Get d' "state" = Get d "state" ->
        pathCallback W' req' (<["code" := noCode]> d') b1
        = pathCallback W' req' (<["code" := Get d "code"]> d') b1) /\
  pathCallback W req (<["code" := noCode]> d) b
  = pathCallback W req (<["code" := code r]> d) b /\
  callbackCode noCode r = code r /\
  (forall supplied, supplied <> noCode -> callbackCode supplied r = supplied) /\
  (forall config role p e,
      b_config W = Ok (Some config) ->
      auth r = None ->
      b_role W (rolename r) = Ok (Some role) ->
      Get d "error_description" = "" ->
      (noncePasses r (Get d "client_nonce") \/ CallbackMode role = callbackModeDirect) ->
      (TokenBoundCIDRs role = [] \/
       exists conn, req_Connection req = Some conn /\
                    RemoteAddrIsOk W (RemoteAddr conn) (TokenBoundCIDRs role) = true) ->
      b_getProvider W config = Ok p ->
      callbackCode (Get d "code") r <> "" ->
      provider_Exchange W p (Request r) (Get d "state")
                        (callbackCode (Get d "code") r) = Err e ->
      fst (pathCallback W req d b)
      = Resp (loginFailedResponse W
                (String.eqb (CallbackMode role) callbackModeDirect)
                ("Error exchanging oidc code: " ++ fmt_q W e ++ "."))).
Proof.
  intros Hs. split; [|split; [|split; [|split]]].
  - intros config Hc Hmode b1.
    assert (oidcRequests b1 !! Get d "state"
            = Some (set_code_idToken r (Get d "code") (Get d "id_token"))) as Hs1.
    { unfold b1. rewrite (pathCallbackPost_stores W req d b config r Hc Hmode Hs).
      apply lookup_insert_eq. }
    split; [exact Hs1|].
    intros W' req' d' Hd'. rewrite <- Hd' in Hs1.
    apply (pathCallback_sentinel W' req' d' b1 _ Hs1).
  - now apply pathCallback_sentinel.
  - apply callbackCode_sentinel.
  - intros supplied. apply callbackCode_supplied.
  - intros config role p e Hc Ha Hrole He Hn Hcidr Hp Hcode Hex.
    eapply pathCallback_exchanges; eassumption.
Qed.

(** The theorem on the sample mount under body-post delivery: the provider
    posts the code [code-1], which is stored; the callback with the
    sentinel is the callback with [code-1]. *)
Lemma form_post_sentinel_witness :
  let W := Sample.world (Ok (Some Sample.formPostConfig))
                        (Sample.roles callbackModeClient) in
  let d := Sample.fields [("state", "st-"); ("code", "code-1")] in
  let b := Sample.backend {[ "st-" := Sample.request "" ]} in
  let b1 := snd (pathCallbackPost W Sample.noConnection d b) in
  oidcRequests b1 !! "st-"
  = Some (set_code_idToken (Sample.request "") "code-1" "") /\
  pathCallback W Sample.noConnection (<["code" := noCode]> d) b1
  = pathCallback W Sample.noConnection (<["code" := "code-1"]> d) b1.
Proof.
  intros W d b b1.
  destruct (form_post_sentinel W Sample.noConnection d b (Sample.request "")
              eq_refl) as (Hpost & _).
  destruct (Hpost Sample.formPostConfig eq_refl eq_refl) as (Hstored & Hsecond).
  split; [exact Hstored|].
  apply (Hsecond W Sample.noConnection d eq_refl).
Defined.

(** The two hops on the sample mount: the callback with the sentinel
    exchanges the posted code and returns the credential of [alice]. *)
Example form_post_round_trip :
  let W := Sample.world (Ok (Some Sample.formPostConfig))
                        (Sample.roles callbackModeClient) in
  let b := Sample.backend {[ "st-" := Sample.request "" ]} in
  let b1 := snd (pathCallbackPost W Sample.noConnection
                   (Sample.fields [("state", "st-"); ("code", "code-1")]) b) in
  let out := fst (pathCallback W Sample.noConnection
                    (Sample.fields [("state", "st-"); ("code", noCode)]) b1) in
  match out with
  | Resp r => option_map auth_DisplayName (resp_Auth r) = Some "alice"
  | Fail _ => False
  end.
Proof. reflexivity. Qed.

(** The direct-mode round trip on the sample mount: [authURL] hands out the
    state, the callback with the code the provider accepts attaches the
    credential, the first poll returns it, the second poll finds nothing. *)
Example direct_mode_round_trip :
  let W := Sample.mount callbackModeDirect in
  let start := authURL W Sample.noConnection
                 (Sample.fields [("role", "dev"); ("client_nonce", "n-1");
                                 ("redirect_uri", "http://localhost:9000/oidc/callback")])
                 (Sample.backend ∅) in
  let poll := pathPoll Sample.noConnection
                (Sample.fields [("state", "st-i"); ("client_nonce", "n-1")]) in
  let callback := pathCallback W Sample.noConnection
                    (Sample.fields [("state", "st-i"); ("code", "code-1")]) in
  let b0 := snd start in
  let b1 := snd (callback b0) in
  let b2 := snd (poll b1) in
  match fst start with
  | Resp r => Data r !! "state" = Some (DString "st-i")
  | Fail _ => False
  end /\
  fst (poll b0) = Resp (ErrorResponse "authorization_pending") /\
  fst (callback b0) = Resp (successPage W) /\
  match fst (poll b1) with
  | Resp r => option_map auth_DisplayName (resp_Auth r) = Some "alice"
  | Fail _ => False
  end /\
  fst (poll b2) = expiredOrMissing.
Proof. repeat split; reflexivity. Qed.

(** * Further properties of the code *)

(** ** [validRedirect]: what validates is on the allow-list *)

Section ValidRedirectMore.
Context {net_url : NetURL}.

Lemma validRedirect_loop_hit (u : URL) (allowed : list string) :
  validRedirect_loop u allowed = true ->
  exists a v, In a allowed /\ url_Parse a = Some v /\
              url_String u = url_String (url_set_Host v (url_Hostname v)).
Proof.
  induction allowed as [|a rest IH]; simpl; [discriminate|].
  destruct (url_Parse a) as [v|] eqn:Ha; [|discriminate].
  destruct (String.eqb_spec (url_String u)
              (url_String (url_set_Host v (url_Hostname v)))) as [Heq|_].
  - intros _. exists a, v. auto.
  - intros H. destruct (IH H) as (a' & v' & Hin & Hp & Heq). eauto 6.
Qed.

Lemma validRedirect_loop_app (u : URL) (allowed more : list string) :
  validRedirect_loop u allowed = true ->
  validRedirect_loop u (allowed ++ more)%list = true.
Proof.
  induction allowed as [|a rest IH]; simpl; [discriminate|].
  destruct (url_Parse a) as [v|]; [|discriminate].
  destruct (String.eqb _ _); auto.
Qed.

(** X1. [validRedirect] never accepts a URI that is not on the allow-list:
    a URI that validates parses, and either its host is not a loopback host
    and the very string is an entry of the list, or its host is a loopback
    host and some entry of the list equals it once both have lost their
    port. In particular nothing validates against an empty list. *)
Theorem validRedirect_only_listed (uri : string) (allowed : list string) :
  validRedirect uri allowed = true ->
  allowed <> [] /\
  exists u, url_Parse uri = Some u /\
    ((StrListContains loopbackHosts (url_Hostname u) = false /\ In uri allowed) \/
     (StrListContains loopbackHosts (url_Hostname u) = true /\
      exists a, In a allowed /\ portAgnosticMatch uri a)).
Proof.
  unfold validRedirect. intros H.
  destruct (url_Parse uri) as [u|] eqn:Hu; [|discriminate].
  destruct (StrListContains loopbackHosts (url_Hostname u)) eqn:Hhost; simpl in H.
  - destruct (validRedirect_loop_hit _ _ H) as (a & v & Hin & Ha & Heq).
    split; [intros ->; destruct Hin|].
    exists u. split; [reflexivity|]. right. split; [exact Hhost|].
    exists a. split; [exact Hin|]. exists u, v. auto.
  - apply StrListContains_In in H.
    split; [intros ->; destruct H|].
    exists u. split; [reflexivity|]. left. auto.
Qed.

(** X2. A loopback URI validates when the allow-list holds an entry that
    equals it without the port and every entry before that one parses. *)
Theorem validRedirect_loopback_finds (uri : string) (u : URL)
    (before after : list string) (a : string) :
  url_Parse uri = Some u ->
  StrListContains loopbackHosts (url_Hostname u) = true ->
  Forall (fun b => is_Some (url_Parse b)) before ->
  portAgnosticMatch uri a ->
  validRedirect uri (before ++ a :: after)%list = true.
Proof.
  intros Hu Hhost Hbefore (u' & v & Hu' & Hv & Heq).
  rewrite Hu in Hu'. injection Hu' as <-.
  rewrite (validRedirect_loopback uri _ u Hu Hhost).
  eapply validRedirect_loop_finds; eassumption.
Qed.

(** X3. Entries added at the end of the allow-list never take a URI off it:
    what validates against a list validates against every extension of the
    list at its end. *)
Theorem validRedirect_extend (uri : string) (allowed more : list string) :
  validRedirect uri allowed = true ->
  validRedirect uri (allowed ++ more)%list = true.
Proof.
  unfold validRedirect.
  destruct (url_Parse uri) as [u|]; [|discriminate].
  destruct (StrListContains loopbackHosts (url_Hostname u)); simpl.
  - apply validRedirect_loop_app.
  - rewrite !StrListContains_In, in_app_iff. auto.
Qed.

End ValidRedirectMore.

(** The three theorems at the loopback URI of a command-line login and the
    allow-list of the sample role. *)
Lemma validRedirect_only_listed_witness :
  [ "https://vault.example/ui/vault/auth/oidc/oidc/callback";
    "http://localhost:8250/oidc/callback" ] <> [] /\
  exists u, url_Parse "http://localhost:9000/oidc/callback" = Some u /\
    ((StrListContains loopbackHosts (url_Hostname u) = false /\
      In "http://localhost:9000/oidc/callback"
         [ "https://vault.example/ui/vault/auth/oidc/oidc/callback";
           "http://localhost:8250/oidc/callback" ]) \/
     (StrListContains loopbackHosts (url_Hostname u) = true /\
      exists a, In a [ "https://vault.example/ui/vault/auth/oidc/oidc/callback";
                       "http://localhost:8250/oidc/callback" ] /\
                portAgnosticMatch "http://localhost:9000/oidc/callback" a)).
Proof.
  apply (validRedirect_only_listed "http://localhost:9000/oidc/callback").
  reflexivity.
Defined.

Lemma validRedirect_loopback_finds_witness :
  validRedirect "http://localhost:9000/oidc/callback"
    ([ "https://vault.example/ui/vault/auth/oidc/oidc/callback" ]
     ++ "http://localhost:8250/oidc/callback" :: [ "http://[::1/cb" ])%list = true.
Proof.
  eapply (validRedirect_loopback_finds "http://localhost:9000/oidc/callback").
  - reflexivity.
  - reflexivity.
  - constructor; [eexists; reflexivity | constructor].
  - do 2 eexists. repeat split; reflexivity.
Defined.

Lemma validRedirect_extend_witness :
  validRedirect "http://localhost:9000/oidc/callback"
    ([ "http://localhost:8250/oidc/callback" ] ++ [ "http://[::1/cb" ])%list = true.
Proof.
  apply (validRedirect_extend "http://localhost:9000/oidc/callback"). reflexivity.
Defined.

(** X4. A URI that parses and whose host is none of [localhost],
    [127.0.0.1] and [::1] validates exactly when the very string is an entry
    of the allow-list: no normalisation is applied to it or to the list. *)
Theorem validRedirect_exact_membership {net_url : NetURL}
    (uri : string) (allowed : list string) (u : URL) :
  url_Parse uri = Some u ->
  StrListContains loopbackHosts (url_Hostname u) = false ->
  (validRedirect uri allowed = true <-> In uri allowed).
Proof. apply validRedirect_not_loopback. Qed.

Lemma validRedirect_exact_membership_witness :
  validRedirect "https://vault.example/ui/vault/auth/oidc/oidc/callback"
                (AllowedRedirectURIs (Sample.role callbackModeClient)) = true
  <-> In "https://vault.example/ui/vault/auth/oidc/oidc/callback"
         (AllowedRedirectURIs (Sample.role callbackModeClient)).
Proof.
  eapply (validRedirect_exact_membership
            "https://vault.example/ui/vault/auth/oidc/oidc/callback"); reflexivity.
Defined.

(** Entries of the allow-list that are relative references or have no
    authority parse, and are passed over by the search for a loopback
    match; a relative reference validates when it is listed as it is. *)
Example validRedirect_relative_entries :
  validRedirect "https://localhost:6000"
                [ "a"; "b"; "mailto:ops"; "https:/cb"; "https://localhost:5000" ]
  = true /\
  validRedirect "cb/oidc" [ "cb/oidc" ] = true /\
  validRedirect "//localhost:8250/cb" [ "//localhost/cb" ] = true /\
  validRedirect "cb:oidc/x" [ "cb:oidc/x" ] = true /\
  validRedirect "1cb:oidc" [ "1cb:oidc" ] = false.
Proof. repeat split; reflexivity. Qed.

(** ** [parseMount]: the mount is one segment *)

Lemma string_app_assoc (a b c : string) : (a ++ b) ++ c = a ++ (b ++ c).
Proof.
  induction a as [|x a IH]; [reflexivity|].
  apply (f_equal (String x)) in IH. exact IH.
Qed.


Lemma Split_app_sep (a b : string) (sep : ascii) :
  ~ In sep (list_ascii_of_string a) ->
  Strings.Split (a ++ String sep b) sep = a :: Strings.Split b sep.
Proof.
  induction a as [|c a IH]; simpl; intros H.
  - now rewrite Ascii.eqb_refl.
  - destruct (Ascii.eqb_spec c sep) as [->|_]; [exfalso; auto|].
    rewrite IH by auto. reflexivity.
Qed.

Lemma at_index_In (parts : list string) (i : nat) :
  (i < length parts)%nat -> In (at_index parts i) parts.
Proof. intros H. unfold at_index. now apply nth_In. Qed.

Lemma parseMount_loop_segment (parts : list string) (fuel i : nat) :
  parseMount_loop parts i fuel = "" \/ In (parseMount_loop parts i fuel) parts.
Proof.
  revert i. induction fuel as [|fuel IH]; intros i; simpl; [auto|].
  destruct (Nat.ltb_spec (i + 2) (length parts)) as [Hlt|_]; [|auto].
  destruct (_ && _); [|apply IH].
  right. apply at_index_In. exact Hlt.
Qed.

(** X5. What [parseMount] returns is the empty string or one of the
    segments of the redirect URI; it never holds a slash. *)
Theorem parseMount_is_segment (redirectURI : string) :
  (parseMount redirectURI = "" \/
   In (parseMount redirectURI) (Strings.Split redirectURI "/")) /\
  ~ In "/"%char (list_ascii_of_string (parseMount redirectURI)).
Proof.
  assert (parseMount redirectURI = "" \/
          In (parseMount redirectURI) (Strings.Split redirectURI "/")) as H
    by apply parseMount_loop_segment.
  split; [exact H|]. destruct H as [->|H].
  - simpl. tauto.
  - eapply Split_pieces. exact H.
Qed.

(** X6. The callback URI of a mount resolves to the mount: for a scheme, a
    host and a mount path without a slash, [parseMount] of
    [scheme://host/v1/auth/mount/rest] is [mount], whatever follows. *)
Theorem parseMount_callback (scheme host mount rest : string) :
  ~ In "/"%char (list_ascii_of_string scheme) ->
  ~ In "/"%char (list_ascii_of_string host) ->
  ~ In "/"%char (list_ascii_of_string mount) ->
  parseMount (scheme ++ "://" ++ host ++ "/v1/auth/" ++ mount ++ "/" ++ rest)
  = mount.
Proof.
  intros Hs Hh Hm. unfold parseMount.
  assert (~ In "/"%char (list_ascii_of_string (scheme ++ ":"))) as Hs'.
  { clear -Hs. induction scheme as [|c s IH]; simpl in *.
    - intros [H|[]]. discriminate.
    - intros [H|H]; [auto | apply IH; auto]. }
  replace (scheme ++ "://" ++ host ++ "/v1/auth/" ++ mount ++ "/" ++ rest)
    with ((scheme ++ ":") ++ String "/" (EmptyString ++ String "/"
            (host ++ String "/" ("v1" ++ String "/" ("auth" ++ String "/"
               (mount ++ String "/" rest))))))
    by (rewrite string_app_assoc; reflexivity).
  rewrite (Split_app_sep _ _ _ Hs').
  rewrite (Split_app_sep EmptyString) by (simpl; tauto).
  rewrite (Split_app_sep host) by exact Hh.
  rewrite (Split_app_sep "v1") by (simpl; intros [H|[H|[]]]; discriminate).
  rewrite (Split_app_sep "auth")
    by (simpl; intros [H|[H|[H|[H|[]]]]]; discriminate).
  rewrite (Split_app_sep mount) by exact Hm.
  pose proof (Split_nonempty rest "/") as Hne.
  destruct (Strings.Split rest "/") as [|p ps]; [contradiction|].
  cbn [length parseMount_loop Nat.add Nat.ltb Nat.leb at_index nth].
  cbn [String.eqb Ascii.eqb Bool.eqb andb].
  rewrite andb_false_r. cbn [String.eqb Ascii.eqb Bool.eqb andb].
  rewrite andb_false_r. reflexivity.
Qed.

Lemma parseMount_callback_witness :
  parseMount ("https" ++ "://" ++ "vault.example:8200" ++ "/v1/auth/"
              ++ "oidc-prod" ++ "/" ++ "oidc/callback") = "oidc-prod".
Proof.
  apply parseMount_callback; simpl;
    repeat (let H := fresh in intros [H|H]; [discriminate H|revert H]); tauto.
Defined.

(** ** [pathCallback]: the token that is logged *)



(** ** More rules for handler bodies *)

Section LogicMore.
Context {R : Type} (I : gmap string oidcRequest -> Prop)
        (Q : R -> gmap string oidcRequest -> Prop).

Lemma steps_delete (stateID : string) :
  (forall m, I m -> I (delete stateID m)) ->
  steps I Q (@deleteOIDCRequest R stateID).
Proof. intros H b Hb. simpl. auto. Qed.

Lemma steps_set (stateID : string) (oidcReq : oidcRequest) :
  (forall m, I m -> I (<[stateID := oidcReq]> m)) ->
  steps I Q (@setOIDCRequest R stateID oidcReq).
Proof. intros H b Hb. simpl. auto. Qed.

(** From the judgement on a whole body to its run. *)
Lemma ends_run (body : Go R R) (b : jwtAuthBackend) :
  ends I Q body -> I (oidcRequests b) ->
  Q (fst (run body b)) (oidcRequests (snd (run body b))).
Proof. intros H. apply H. Qed.

End LogicMore.

(** Symbolic execution as [go_ends], for bodies that also delete and store
    requests; the side conditions of those steps are left as goals. *)
Ltac go_steps_all :=
  repeat first
    [ apply steps_ret
    | apply steps_log
    | apply steps_fresh
    | apply steps_get
    | apply steps_delete
    | apply steps_set
    | apply steps_Return
    | apply steps_bind; [|intros ?]
    | progress unfold return_if, when, try, unwrap
    | match goal with
      | |- steps _ _ (match ?x with _ => _ end) => destruct x eqn:?
      end ].

Ltac go_ends_all :=
  repeat first
    [ apply ends_ret
    | apply ends_Return
    | apply ends_set
    | apply ends_bind; [go_steps_all | intros ?]
    | progress cbv zeta
    | match goal with
      | |- ends _ _ (match ?x with _ => _ end) => destruct x eqn:?
      end ].

(** ** [pathPoll]: every outcome *)

(** X8. [pathPoll] changes nothing in the backend but, at most, the entry of
    the polled state, which it deletes; it writes no log and stores nothing.
    It hands out a credential only when the stored request carries that
    credential and the supplied nonce passes the check against it, and then
    the entry is gone from the cache; and whenever the stored request
    carries a credential and the nonce passes, it hands that credential
    out. *)
Theorem pathPoll_outcomes (req : logical_Request) (d : FieldData)
    (b : jwtAuthBackend) :
  let out := pathPoll req d b in
  (snd out = b \/
   snd out = with_oidcRequests b (delete (Get d "state") (oidcRequests b))) /\
  (forall resp a,
      fst out = Resp resp -> resp_Auth resp = Some a ->
      exists r, oidcRequests b !! Get d "state" = Some r /\
                auth r = Some a /\
                noncePasses r (Get d "client_nonce") /\
                oidcRequests (snd out) !! Get d "state" = None) /\
  (forall r a,
      oidcRequests b !! Get d "state" = Some r ->
      auth r = Some a ->
      noncePasses r (Get d "client_nonce") ->
      fst out = Resp {| Data := ∅; resp_Auth := Some a |}).
Proof.
  intros out. unfold out.
  assert (forall P Q R : Prop, P /\ Q -> R -> P /\ Q /\ R) as glue by tauto.
  apply glue; clear glue.
  2:{ intros r a Hs Ha Hn. now rewrite (pathPoll_delivers req d b r a Hs Hn Ha). }
  destruct (oidcRequests b !! Get d "state") as [r|] eqn:Hs.
  - destruct (negb (String.eqb (clientNonce r) "")
              && negb (String.eqb (Get d "client_nonce") (clientNonce r))) eqn:Hn.
    + apply andb_true_iff in Hn as [H1 H2].
      apply negb_true_iff, String.eqb_neq in H1, H2.
      rewrite (pathPoll_nonce_mismatch req d b r Hs H1 H2).
      split; [right; reflexivity|]. intros resp a [= <-]. discriminate.
    + apply noncePasses_test in Hn.
      destruct (auth r) as [a0|] eqn:Ha.
      * rewrite (pathPoll_delivers req d b r a0 Hs Hn Ha).
        split; [right; reflexivity|]. intros resp a [= <-] [= <-].
        exists r. repeat split; try assumption. apply lookup_delete_eq.
      * rewrite (pathPoll_pending req d b r Hs Hn Ha).
        split; [left; reflexivity|]. intros resp a [= <-]. discriminate.
  - rewrite (pathPoll_missing req d b Hs).
    split; [left; reflexivity|]. intros resp a [= <-]. discriminate.
Qed.

(** ** [pathCallback] and [pathCallbackPost]: other requests are left alone *)

(** X9. [pathCallback] never touches the request of another state: whatever
    the configuration, the role, the provider and the fields of the call
    are, every entry of the cache under a state other than the one of the
    call is after the call what it was before. *)
Theorem pathCallback_frame (W : World) (req : logical_Request) (d : FieldData)
    (b : jwtAuthBackend) (other : string) :
  other <> Get d "state" ->
  oidcRequests (snd (pathCallback W req d b)) !! other = oidcRequests b !! other.
Proof.
  intros Hother. unfold pathCallback.
  apply (ends_run (fun m => m !! other = oidcRequests b !! other)
                  (fun _ m => m !! other = oidcRequests b !! other));
    [|reflexivity].
  go_ends_all; intros m Hm; try exact Hm.
  all: first [ rewrite lookup_delete_ne by congruence; exact Hm
             | rewrite lookup_insert_ne by congruence; exact Hm ].
Qed.

Lemma pathCallback_frame_witness :
  let W := Sample.mount callbackModeClient in
  let d := Sample.fields [("state", "st-"); ("code", "code-1"); ("client_nonce", "n-1")] in
  let b := Sample.backend (<["st-" := Sample.request "n-1"]>
                             {[ "st-i" := Sample.request "n-2" ]}) in
  oidcRequests (snd (pathCallback W Sample.noConnection d b)) !! "st-i"
  = oidcRequests b !! "st-i".
Proof.
  intros W d b. apply (pathCallback_frame W Sample.noConnection d b "st-i").
  discriminate.
Defined.

(** X10. [pathCallbackPost] neither creates nor removes a request, and
    changes nothing of a request but its code and its ID token: after the
    call every state has a request exactly when it had one before, the
    requests of other states are unchanged, and the request of the posted
    state still has its role name, its client nonce, its provider request
    and its credential. A post for a state that is not in the cache stores
    nothing. On a mount configured for body-post delivery the request of
    the posted state is stored with the posted code and ID token. *)
Theorem pathCallbackPost_keeps_requests (W : World) (req : logical_Request)
    (d : FieldData) (b : jwtAuthBackend) :
  let b' := snd (pathCallbackPost W req d b) in
  (forall s, s <> Get d "state" ->
             oidcRequests b' !! s = oidcRequests b !! s) /\
  (oidcRequests b !! Get d "state" = None ->
   oidcRequests b' !! Get d "state" = None) /\
  (forall r, oidcRequests b !! Get d "state" = Some r ->
             exists r', oidcRequests b' !! Get d "state" = Some r' /\
                        Request r' = Request r /\ rolename r' = rolename r /\
                        clientNonce r' = clientNonce r /\ auth r' = auth r) /\
  (forall config r,
      b_config W = Ok (Some config) ->
      OIDCResponseMode config = responseModeFormPost ->
      oidcRequests b !! Get d "state" = Some r ->
      oidcRequests b' !! Get d "state"
      = Some (set_code_idToken r (Get d "code") (Get d "id_token"))).
Proof.
  intros b'.
  assert (forall P Q R S : Prop, P /\ Q /\ R -> S -> P /\ Q /\ R /\ S) as glue
      by tauto.
  apply glue; clear glue.
  2:{ intros config r Hc Hmode Hs. unfold b'.
      rewrite (pathCallbackPost_stores W req d b config r Hc Hmode Hs).
      apply lookup_insert_eq. }
  unfold b', pathCallbackPost. cbv zeta.
  set (s0 := Get d "state").
  set (I0 := fun m : gmap string oidcRequest =>
    (forall s, s <> s0 -> m !! s = oidcRequests b !! s) /\
    (oidcRequests b !! s0 = None -> m !! s0 = None) /\
    (forall r, oidcRequests b !! s0 = Some r ->
               exists r', m !! s0 = Some r' /\
                          Request r' = Request r /\ rolename r' = rolename r /\
                          clientNonce r' = clientNonce r /\ auth r' = auth r)).
  assert (I0 (oidcRequests b)) as Hstart.
  { repeat split; auto. intros r Hr. exists r. auto. }
  destruct (b_config W) as [[config|]|e] eqn:Hc;
    [|go_on; go_out_by idtac; exact Hstart | go_out_by idtac; exact Hstart].
  go_on. go_on.
  destruct (String.eqb (OIDCResponseMode config) responseModeFormPost) eqn:Hmode;
    [|go_out_by idtac; exact Hstart].
  go_on. go_on.
  destruct (oidcRequests b !! s0) as [r|] eqn:Hs; [|exact Hstart].
  go_on.
  assert (I0 (<[s0 := set_code_idToken r (Get d "code") (Get d "id_token")]>
                (oidcRequests b))) as Hend.
  { split; [|split].
    - intros s Hne. now rewrite lookup_insert_ne by congruence.
    - discriminate.
    - intros r0 [= <-]. eexists. rewrite lookup_insert_eq.
      split; [reflexivity|]. simpl. auto. }
  destruct (String.eqb (parseMount _) _); exact Hend.
Qed.

(** X11. What [pathCallbackPost] refuses. On a mount that is not configured
    for body-post delivery it answers with status 405 and leaves the backend
    as it was. Under body-post delivery, a post for a state that is not in
    the cache is answered with the error page for an expired or missing
    state and status 400, the backend unchanged; a post for a request whose
    redirect URL names no mount is answered with the error page for an
    invalid redirect path and status 400, although the posted code and ID
    token have already been stored on the request. *)
Theorem pathCallbackPost_refusals (W : World) (req : logical_Request)
    (d : FieldData) (b : jwtAuthBackend) (config : jwtConfig) :
  b_config W = Ok (Some config) ->
  (OIDCResponseMode config <> responseModeFormPost ->
   pathCallbackPost W req d b = (RespondWithStatusCode W StatusMethodNotAllowed, b)) /\
  (OIDCResponseMode config = responseModeFormPost ->
   (oidcRequests b !! Get d "state" = None ->
    exists page,
      pathCallbackPost W req d b = (Resp page, b) /\
      Data page !! HTTPStatusCode = Some (DInt StatusBadRequest) /\
      Data page !! HTTPRawBody
      = Some (DBytes (errorHTML W errLoginFailed "Expired or missing OAuth state."))) /\
   (forall r,
       oidcRequests b !! Get d "state" = Some r ->
       parseMount (RedirectURL (Request r)) = "" ->
       exists page,
         fst (pathCallbackPost W req d b) = Resp page /\
         Data page !! HTTPStatusCode = Some (DInt StatusBadRequest) /\
         Data page !! HTTPRawBody
         = Some (DBytes (errorHTML W errLoginFailed "Invalid redirect path.")) /\
         oidcRequests (snd (pathCallbackPost W req d b)) !! Get d "state"
         = Some (set_code_idToken r (Get d "code") (Get d "id_token")))).
Proof.
  intros Hc. split; [|split].
  - intros Hmode. apply String.eqb_neq in Hmode. unfold pathCallbackPost.
    go_on_by ltac:(unfold try; rewrite Hc). go_on.
    go_out_by ltac:(rewrite Hmode). reflexivity.
  - intros Hs. apply String.eqb_eq in H. unfold pathCallbackPost.
    go_on_by ltac:(unfold try; rewrite Hc). go_on.
    go_on_by ltac:(rewrite H). go_on. rewrite Hs.
    eexists. split; [reflexivity|]. split; reflexivity.
  - intros r Hs Hmount. apply String.eqb_eq in H.
    rewrite (pathCallbackPost_stores W req d b config r Hc
               (proj1 (String.eqb_eq _ _) H) Hs).
    unfold pathCallbackPost.
    go_on_by ltac:(unfold try; rewrite Hc). go_on.
    go_on_by ltac:(rewrite H). go_on. rewrite Hs. go_on.
    simpl. rewrite Hmount.
    eexists. split; [reflexivity|]. split; [reflexivity|].
    split; [reflexivity | apply lookup_insert_eq].
Qed.

(** The theorem on the sample mount: without body-post delivery, and under
    it for a request whose redirect URL is the listener of a command-line
    login, which names no mount. *)
Lemma pathCallbackPost_refusals_witness :
  let d := Sample.fields [("state", "st-"); ("code", "code-1")] in
  let b := Sample.backend {[ "st-" := Sample.request "" ]} in
  pathCallbackPost (Sample.mount callbackModeClient) Sample.noConnection d b
  = (RespondWithStatusCode (Sample.mount callbackModeClient) StatusMethodNotAllowed, b) /\
  let W := Sample.world (Ok (Some Sample.formPostConfig))
                        (Sample.roles callbackModeClient) in
  exists page,
    fst (pathCallbackPost W Sample.noConnection d b) = Resp page /\
    Data page !! HTTPStatusCode = Some (DInt StatusBadRequest) /\
    Data page !! HTTPRawBody
    = Some (DBytes (errorHTML W errLoginFailed "Invalid redirect path.")) /\
    oidcRequests (snd (pathCallbackPost W Sample.noConnection d b)) !! Get d "state"
    = Some (set_code_idToken (Sample.request "") (Get d "code") (Get d "id_token")).
Proof.
  intros d b. split.
  - apply (proj1 (pathCallbackPost_refusals (Sample.mount callbackModeClient)
                    Sample.noConnection d b Sample.config eq_refl)).
    discriminate.
  - intros W.
    apply (proj2 (proj2 (pathCallbackPost_refusals W Sample.noConnection d b
                           Sample.formPostConfig eq_refl) eq_refl)
                 (Sample.request "")); reflexivity.
Defined.

(** ** [pathCallback]: the ways it fails *)

(** The body of [pathCallback] up to the lookup of the role. *)
Ltac to_role Hc Hs Ha :=
  unfold pathCallback;
  go_on_by ltac:(unfold try; rewrite Hc); go_on; go_on;
  go_on_by ltac:(rewrite Hs, Ha).

(** X12. A callback for a request whose role has gone, or cannot be read,
    deletes the request: the call is answered with the role error, or fails
    with the storage error, and the entry is removed, nothing else being
    changed. *)
Theorem pathCallback_role_gone (W : World) (req : logical_Request)
    (d : FieldData) (b : jwtAuthBackend) (config : jwtConfig) (r : oidcRequest) :
  b_config W = Ok (Some config) ->
  oidcRequests b !! Get d "state" = Some r ->
  auth r = None ->
  let b' := with_oidcRequests b (delete (Get d "state") (oidcRequests b)) in
  (b_role W (rolename r) = Ok None ->
   pathCallback W req d b
   = (Resp (ErrorResponse "Vault login failed. Role could not be found"), b')) /\
  (forall e, b_role W (rolename r) = Err e ->
             pathCallback W req d b = (Fail e, b')).
Proof.
  intros Hc Hs Ha b'. split.
  - intros Hrole. to_role Hc Hs Ha. go_out_by ltac:(rewrite Hrole). reflexivity.
  - intros e Hrole. to_role Hc Hs Ha. go_out_by ltac:(rewrite Hrole). reflexivity.
Qed.

Lemma pathCallback_role_gone_witness :
  let W := Sample.world (Ok (Some Sample.config)) (fun _ => Ok None) in
  let d := Sample.fields [("state", "st-"); ("code", "code-1")] in
  let b := Sample.backend {[ "st-" := Sample.request "n-1" ]} in
  pathCallback W Sample.noConnection d b
  = (Resp (ErrorResponse "Vault login failed. Role could not be found"),
     with_oidcRequests b (delete (Get d "state") (oidcRequests b))).
Proof.
  intros W d b.
  apply (proj1 (pathCallback_role_gone W Sample.noConnection d b Sample.config
                  (Sample.request "n-1") eq_refl eq_refl eq_refl)).
  reflexivity.
Defined.

(** X13. An error reported by the provider ends the callback before the
    nonce, the connection, the provider client or the token are looked at:
    with a non-empty [error_description] the call is answered with the
    login failure that carries this description, as an error response when
    the role is not in direct mode (the entry is then deleted) and as an
    error page with status 400 in direct mode (the backend is then left as
    it was, the request stays without a credential). *)
Theorem pathCallback_provider_denied (W : World) (req : logical_Request)
    (d : FieldData) (b : jwtAuthBackend) (config : jwtConfig)
    (r : oidcRequest) (role : jwtRole) :
  b_config W = Ok (Some config) ->
  oidcRequests b !! Get d "state" = Some r ->
  auth r = None ->
  b_role W (rolename r) = Ok (Some role) ->
  Get d "error_description" <> "" ->
  (CallbackMode role <> callbackModeDirect ->
   pathCallback W req d b
   = (Resp (ErrorResponse (errLoginFailed ++ " " ++ Get d "error_description")),
      with_oidcRequests b (delete (Get d "state") (oidcRequests b)))) /\
  (CallbackMode role = callbackModeDirect ->
   exists page,
     pathCallback W req d b = (Resp page, b) /\
     Data page !! HTTPStatusCode = Some (DInt StatusBadRequest) /\
     Data page !! HTTPRawBody
     = Some (DBytes (errorHTML W errLoginFailed (Get d "error_description")))).
Proof.
  intros Hc Hs Ha Hrole Hdesc. apply String.eqb_neq in Hdesc. split.
  - intros Hmode. apply String.eqb_neq in Hmode.
    to_role Hc Hs Ha. go_on_by ltac:(rewrite Hrole). rewrite Hmode.
    go_on. go_out_by ltac:(rewrite Hdesc). reflexivity.
  - intros Hmode. apply String.eqb_eq in Hmode.
    to_role Hc Hs Ha. go_on_by ltac:(rewrite Hrole). rewrite Hmode.
    go_on. go_out_by ltac:(rewrite Hdesc).
    eexists. split; [reflexivity|]. split; reflexivity.
Qed.

Lemma pathCallback_provider_denied_witness :
  let W := Sample.mount callbackModeClient in
  let d := Sample.fields [("state", "st-"); ("error_description", "access_denied")] in
  let b := Sample.backend {[ "st-" := Sample.request "n-1" ]} in
  pathCallback W Sample.noConnection d b
  = (Resp (ErrorResponse (errLoginFailed ++ " " ++ Get d "error_description")),
     with_oidcRequests b (delete (Get d "state") (oidcRequests b))).
Proof.
  intros W d b.
  apply (proj1 (pathCallback_provider_denied W Sample.noConnection d b
                  Sample.config (Sample.request "n-1")
                  (Sample.role callbackModeClient)
                  eq_refl eq_refl eq_refl eq_refl ltac:(discriminate))).
  discriminate.
Defined.

(** The nonce test of [pathCallback] passes when the nonce passes the check
    against the request, and always in direct mode. *)
Lemma callback_nonce_test (r : oidcRequest) (role : jwtRole) (supplied : string) :
  noncePasses r supplied \/ CallbackMode role = callbackModeDirect ->
  negb (String.eqb (clientNonce r) "")
  && negb (String.eqb supplied (clientNonce r))
  && negb (String.eqb (CallbackMode role) callbackModeDirect) = false.
Proof.
  intros [Hn|Hn].
  - apply noncePasses_test in Hn. now rewrite Hn.
  - apply String.eqb_eq in Hn. now rewrite Hn, andb_false_r.
Qed.





(** ** [pathCallback]: where a credential comes from *)

Lemma run_bind_assoc {R A B} (m : Go R A) (k1 : A -> Go R B) (k2 : B -> Go R R)
    (b : jwtAuthBackend) :
  run (bind (bind m k1) k2) b = run (bind m (fun x => bind (k1 x) k2)) b.
Proof. unfold run, bind. destruct (m b) as [[r|a] b']; reflexivity. Qed.

(** An outcome that is a Go error or an error response carries no
    credential. *)
Ltac no_credential :=
  let resp := fresh "resp" in let a := fresh "a" in
  let Hout := fresh "Hout" in let Hauth := fresh "Hauth" in
  intros resp a Hout Hauth; exfalso; simpl in Hout;
  first [ discriminate Hout
        | injection Hout as <-; simpl in Hauth; discriminate Hauth ].

(** What decides the first piece of a body. *)
Ltac head_scrutinee m :=
  lazymatch m with
  | bind ?m' _ => head_scrutinee m'
  | return_if ?c _ => constr:(c)
  | when true ?body => head_scrutinee body
  | when ?c _ => constr:(c)
  | try ?x => constr:(x)
  | match ?x with _ => _ end =>
      lazymatch x with
      | match ?y with _ => _ end => constr:(y)
      | _ => constr:(x)
      end
  end.

Lemma cidrPasses_dec (W : World) (req : logical_Request) (role : jwtRole) :
  cidrPasses W req role \/ ~ cidrPasses W req role.
Proof.
  unfold cidrPasses. destruct (TokenBoundCIDRs role) as [|c cs]; [auto|].
  destruct (req_Connection req) as [conn|].
  - destruct (RemoteAddrIsOk W (RemoteAddr conn) (c :: cs)) eqn:Hok.
    + left. right. eauto.
    + right. intros [H|(conn' & [= <-] & H)]; congruence.
  - right. intros [H|(conn' & H & _)]; congruence.
Qed.

Lemma subjectPasses_test (role : jwtRole) (allClaims : Claims) :
  subjectPasses role allClaims <->
  negb (String.eqb (BoundSubject role) "")
  && negb (String.eqb (BoundSubject role) (subjectOf allClaims)) = false.
Proof.
  unfold subjectPasses. rewrite andb_false_iff, !negb_false_iff, !String.eqb_eq.
  reflexivity.
Qed.

(** An outcome that is a Go error, an error response or an error page is
    not the success page. *)
Ltac not_success :=
  let Hout := fresh "Hout" in
  intros Hout; exfalso; cbn [fst] in Hout;
  first [ discriminate Hout
        | injection Hout as Hout;
          apply (f_equal (fun m : gmap string dataValue => m !! HTTPStatusCode))
            in Hout;
          vm_compute in Hout; discriminate Hout ].

(** Runs a body to its end by cases on what decides each piece; [tac]
    closes the cases that return early. *)
Ltac drive_by tac :=
  repeat first
    [ go_on
    | progress cbn [fst snd]
    | progress cbv beta iota
    | rewrite run_bind_assoc
    | go_out_by idtac; tac
    | match goal with
      | |- context [run (bind ?m _) _] =>
          let x := head_scrutinee m in
          lazymatch x with
          | true => fail | false => fail | Some _ => fail | None => fail
          | Ok _ => fail | Err _ => fail | (_, _) => fail
          | _ => destruct x eqn:?
          end
      end ].

(** Runs a body along the path that the hypotheses decide: a piece whose
    deciding term is the left-hand side of a hypothesis is rewritten with
    it, any other piece is taken by cases, and the early returns, which
    contradict the hypotheses, are closed on the way. *)
Ltac drive_along :=
  repeat first
    [ go_on
    | progress cbn [fst snd]
    | progress cbv beta iota
    | rewrite run_bind_assoc
    | match goal with
      | |- context [run (bind ?m _) _] =>
          let x := head_scrutinee m in
          match goal with
          | H : x = _ |- _ => rewrite H
          end
      end
    | go_out_by idtac; exfalso; congruence
    | match goal with
      | |- context [run (bind ?m _) _] =>
          let x := head_scrutinee m in
          lazymatch x with
          | true => fail | false => fail | Some _ => fail | None => fail
          | Ok _ => fail | Err _ => fail | (_, _) => fail
          | _ => destruct x eqn:?
          end
      end ].

(** At the end of a run that built a credential, the facts gathered on the
    way are what [callbackGrants] asks for after the network check. *)
Ltac grants_found :=
  cbn [fst snd] in *;
  try match goal with H : Some _ = None |- _ => discriminate H end;
  repeat match goal with
         | H : Some _ = Some _ |- _ => injection H as <-
         end;
  repeat match goal with
         | H : String.eqb _ _ = true |- _ => apply String.eqb_eq in H
         | H : String.eqb _ _ = false |- _ => apply String.eqb_neq in H
         end;
  match goal with
  | H : b_getProvider _ _ = Ok ?p |- _ => exists p
  end;
  do 4 eexists; cbv zeta;
  (split; [eassumption|]);
  (split; [unfold tokenObtained;
           first [ left; split; [assumption|]; eexists;
                   split; [eassumption|]; split; reflexivity
                 | right; repeat split; assumption ] |]);
  (split; [eassumption|]);
  (split; [apply subjectPasses_test; unfold subjectOf; eassumption|]);
  unfold tokenSourceOf, withUserInfo, subjectOf;
  repeat match goal with
         | H : tk_StaticTokenSource _ _ = _ |- _ => rewrite H
         end;
  (split; [eassumption|]); (split; [eassumption|]); reflexivity.

(** A credential in the answer of a callback has passed every check. *)
Lemma pathCallback_credential_facts (W : World) (req : logical_Request)
    (d : FieldData) (b : jwtAuthBackend) :
  forall resp a,
  fst (pathCallback W req d b) = Resp resp ->
  resp_Auth resp = Some a ->
  exists config r role,
    b_config W = Ok (Some config) /\
    oidcRequests b !! Get d "state" = Some r /\
    auth r = None /\
    b_role W (rolename r) = Ok (Some role) /\
    CallbackMode role <> callbackModeDirect /\
    noncePasses r (Get d "client_nonce") /\
    callbackGrants W req d config r role a.
Proof.
  unfold pathCallback.
  destruct (b_config W) as [[config|]|e] eqn:Hc;
    [|go_on; go_out_by idtac; no_credential | go_out_by idtac; no_credential].
  go_on. go_on. go_on.
  destruct (oidcRequests b !! Get d "state") as [r|] eqn:Hs;
    [|go_out_by idtac; no_credential].
  destruct (auth r) as [a0|] eqn:Ha; [go_out_by idtac; no_credential|].
  go_on.
  destruct (b_role W (rolename r)) as [[role|]|e] eqn:Hrole;
    [|go_out_by idtac; no_credential | go_out_by idtac; no_credential].
  go_on.
  destruct (String.eqb (CallbackMode role) callbackModeDirect) eqn:Hmode.
  { (* direct mode: no outcome carries a credential *)
    intros resp a Hout Hauth. exfalso. revert resp a Hout Hauth.
    match goal with
    | |- forall resp a, fst (run ?body ?b0) = _ -> _ =>
        apply (ends_run (fun _ => True)
                 (fun out _ => forall resp a, out = Resp resp ->
                                              resp_Auth resp = Some a -> False)
                 body b0); [|exact Logic.I]
    end.
    go_ends_all; intros; try exact Logic.I;
      match goal with
      | Hout : _ = Resp _, Hauth : resp_Auth _ = Some _ |- _ =>
          first [ discriminate Hout
                | injection Hout as <-;
                  cbn [resp_Auth loginFailedResponse negb ErrorResponse] in Hauth;
                  discriminate Hauth ]
      end. }
  go_on.
  destruct (String.eqb (Get d "error_description") "") eqn:Hdesc;
    [|go_out_by idtac; no_credential].
  go_on.
  destruct (negb (String.eqb (clientNonce r) "")
            && negb (String.eqb (Get d "client_nonce") (clientNonce r))) eqn:Hn;
    [go_out_by idtac; no_credential|].
  go_on.
  destruct (cidrPasses_dec W req role) as [Hcidr|Hcidr].
  2:{ destruct (TokenBoundCIDRs role) as [|c cs] eqn:Hcs;
        [exfalso; apply Hcidr; left; exact Hcs|].
      destruct (req_Connection req) as [conn|] eqn:Hconn.
      - destruct (RemoteAddrIsOk W (RemoteAddr conn) (c :: cs)) eqn:Hok.
        + exfalso. apply Hcidr. right. rewrite Hcs. eauto.
        + go_out_by idtac. no_credential.
      - go_out_by idtac. no_credential. }
  go_on_by ltac:(destruct Hcidr as [->|(conn & -> & ->)];
                 [|destruct (0 <? length (TokenBoundCIDRs role))%nat]).
  drive_by ltac:(idtac; no_credential).
  all: intros resp0 cred Hout Hauth; unfold run, ret in Hout; cbn [fst] in Hout;
       injection Hout as <-; cbn [resp_Auth] in Hauth; injection Hauth as <-;
       exists config, r, role.
  all: apply String.eqb_neq in Hmode; apply String.eqb_eq in Hdesc.
  all: apply noncePasses_test in Hn.
  all: repeat (split; [first [assumption | reflexivity]|]).
  all: grants_found.
Qed.

(** The success page of a callback in direct mode has passed every check. *)
Lemma pathCallback_attached_facts (W : World) (req : logical_Request)
    (d : FieldData) (b : jwtAuthBackend) (config : jwtConfig)
    (r : oidcRequest) (role : jwtRole) :
  b_config W = Ok (Some config) ->
  oidcRequests b !! Get d "state" = Some r ->
  auth r = None ->
  b_role W (rolename r) = Ok (Some role) ->
  CallbackMode role = callbackModeDirect ->
  fst (pathCallback W req d b) = Resp (successPage W) ->
  exists a, callbackGrants W req d config r role a.
Proof.
  intros Hc Hs Ha Hrole Hmode. apply String.eqb_eq in Hmode.
  to_role Hc Hs Ha. go_on_by ltac:(rewrite Hrole).
  rewrite Hmode. go_on.
  destruct (String.eqb (Get d "error_description") "") eqn:Hdesc;
    [|go_out_by idtac; not_success].
  go_on. go_on_by ltac:(rewrite andb_false_r).
  destruct (cidrPasses_dec W req role) as [Hcidr|Hcidr].
  2:{ destruct (TokenBoundCIDRs role) as [|c cs] eqn:Hcs;
        [exfalso; apply Hcidr; left; exact Hcs|].
      destruct (req_Connection req) as [conn|] eqn:Hconn.
      - destruct (RemoteAddrIsOk W (RemoteAddr conn) (c :: cs)) eqn:Hok.
        + exfalso. apply Hcidr. right. rewrite Hcs. eauto.
        + go_out_by idtac. not_success.
      - go_out_by idtac. not_success. }
  go_on_by ltac:(destruct Hcidr as [->|(conn & -> & ->)];
                 [|destruct (0 <? length (TokenBoundCIDRs role))%nat]).
  drive_by ltac:(idtac; not_success).
  all: intros _; apply String.eqb_eq in Hdesc; eexists;
       (split; [exact Hdesc|]); (split; [exact Hcidr|]).
  all: grants_found.
Qed.

(** A callback that passes every check builds the credential: it answers
    with it when the role is not in direct mode, the request being gone,
    and attaches it to the request in direct mode, answering with the
    success page. *)
Lemma pathCallback_grants (W : World) (req : logical_Request)
    (d : FieldData) (b : jwtAuthBackend) (config : jwtConfig)
    (r : oidcRequest) (role : jwtRole) (a : Auth) :
  b_config W = Ok (Some config) ->
  oidcRequests b !! Get d "state" = Some r ->
  auth r = None ->
  b_role W (rolename r) = Ok (Some role) ->
  noncePasses r (Get d "client_nonce") \/ CallbackMode role = callbackModeDirect ->
  callbackGrants W req d config r role a ->
  fst (pathCallback W req d b)
  = Resp (if String.eqb (CallbackMode role) callbackModeDirect
          then successPage W
          else {| Data := ∅; resp_Auth := Some a |}) /\
  oidcRequests (snd (pathCallback W req d b))
  = (if String.eqb (CallbackMode role) callbackModeDirect
     then <[Get d "state" := set_auth r a]> (oidcRequests b)
     else delete (Get d "state") (oidcRequests b)).
Proof.
  intros Hc Hs Ha Hrole Hn
         (Hdesc & Hcidr & p & rawToken & token & claims & identity
          & Hp & Htok & Hclaims & Hsub & Hid & Hbound & ->).
  pose proof (callback_nonce_test r role _ Hn) as Hn'.
  apply subjectPasses_test in Hsub.
  unfold tokenSourceOf, withUserInfo, subjectOf in *.
  to_role Hc Hs Ha. go_on_by ltac:(rewrite Hrole).
  destruct (String.eqb (CallbackMode role) callbackModeDirect) eqn:Hmode;
    (go_on; go_on_by ltac:(rewrite Hdesc); go_on_by ltac:(rewrite Hn');
     go_on_by ltac:(destruct Hcidr as [->|(conn & -> & ->)];
                    [|destruct (0 <? length (TokenBoundCIDRs role))%nat]);
     go_on_by ltac:(rewrite Hp)).
  all: destruct Htok as [(Hcode & t & Hex & -> & ->)|(Hcode & Hidt & Hver & -> & ->)];
       [ apply String.eqb_neq in Hcode;
         revert Hid Hbound;
         destruct (tk_StaticTokenSource W t) as [ts|] eqn:Hts; intros Hid Hbound
       | apply String.eqb_neq in Hidt; apply String.eqb_eq in Hcode ].
  all: drive_along.
  all: split; reflexivity.
Qed.

(** X16. A credential leaves [pathCallback] exactly when every check has
    passed. The answer of a callback carries the credential [a] if and only
    if: the configuration is there, the state names a stored request without
    a credential, its role exists and is not in direct mode, the supplied
    nonce passes the check against the request, the provider reported no
    error, the connection passes the network check of the role, the provider
    client is there, the provider exchanged the code or verified the stored
    ID token, the claims of the ID token were read, their subject is the
    bound subject of the role if there is one, the identity was made from
    the claims, completed by the user info endpoint when there is an access
    token, those claims pass the bound-claims check, and [a] is the
    credential built from the role and that identity. The answer is then
    that credential and nothing else, and the request is gone from the
    cache. *)
Theorem pathCallback_credential_provenance (W : World) (req : logical_Request)
    (d : FieldData) (b : jwtAuthBackend) (a : Auth) :
  let out := pathCallback W req d b in
  let granted :=
    exists config r role,
      b_config W = Ok (Some config) /\
      oidcRequests b !! Get d "state" = Some r /\
      auth r = None /\
      b_role W (rolename r) = Ok (Some role) /\
      CallbackMode role <> callbackModeDirect /\
      noncePasses r (Get d "client_nonce") /\
      callbackGrants W req d config r role a in
  ((exists resp, fst out = Resp resp /\ resp_Auth resp = Some a) <-> granted) /\
  (granted ->
   fst out = Resp {| Data := ∅; resp_Auth := Some a |} /\
   oidcRequests (snd out) = delete (Get d "state") (oidcRequests b)).
Proof.
  intros out granted.
  assert (granted ->
          fst out = Resp {| Data := ∅; resp_Auth := Some a |} /\
          oidcRequests (snd out) = delete (Get d "state") (oidcRequests b)) as H.
  { intros (config & r & role & Hc & Hs & Ha & Hrole & Hmode & Hn & Hgrants).
    apply String.eqb_neq in Hmode.
    destruct (pathCallback_grants W req d b config r role a Hc Hs Ha Hrole
                (or_introl Hn) Hgrants) as (H1 & H2).
    rewrite Hmode in H1, H2. split; assumption. }
  split; [split|exact H].
  - intros (resp & Hout & Hauth).
    exact (pathCallback_credential_facts W req d b resp a Hout Hauth).
  - intros Hg. destruct (H Hg) as (H1 & _). eexists. split; [exact H1|reflexivity].
Qed.

(** The theorem at the successful callback of the sample mount in client
    mode: the credential of the answer has passed every check. *)
Lemma pathCallback_credential_provenance_witness :
  let W := Sample.mount callbackModeClient in
  let d := Sample.fields [("state", "st-"); ("code", "code-1"); ("client_nonce", "n-1")] in
  let b := Sample.backend {[ "st-" := Sample.request "n-1" ]} in
  exists a,
    (exists resp, fst (pathCallback W Sample.noConnection d b) = Resp resp /\
                  resp_Auth resp = Some a) /\
    exists config r role,
      b_config W = Ok (Some config) /\
      oidcRequests b !! Get d "state" = Some r /\
      auth r = None /\
      b_role W (rolename r) = Ok (Some role) /\
      CallbackMode role <> callbackModeDirect /\
      noncePasses r (Get d "client_nonce") /\
      callbackGrants W Sample.noConnection d config r role a.
Proof.
  intros W d b. eexists. split.
  - eexists. split; reflexivity.
  - apply (proj1 (proj1 (pathCallback_credential_provenance
                           W Sample.noConnection d b _))).
    eexists. split; reflexivity.
Defined.

(** X22. In direct mode a callback never answers with a credential; it
    attaches the credential to the request exactly when every check has
    passed. For a stored request without a credential whose role is in
    direct mode: the answer is the success page if and only if the callback
    passes every check that stands before a credential, whatever nonce it is
    called with; the request is then stored again with that credential
    attached; on every other answer the cache is left as it was. *)
Theorem pathCallback_direct_grant (W : World) (req : logical_Request)
    (d : FieldData) (b : jwtAuthBackend) (config : jwtConfig)
    (r : oidcRequest) (role : jwtRole) :
  b_config W = Ok (Some config) ->
  oidcRequests b !! Get d "state" = Some r ->
  auth r = None ->
  b_role W (rolename r) = Ok (Some role) ->
  CallbackMode role = callbackModeDirect ->
  let out := pathCallback W req d b in
  (fst out = Resp (successPage W) <->
   exists a, callbackGrants W req d config r role a) /\
  (forall a, callbackGrants W req d config r role a ->
             oidcRequests (snd out)
             = <[Get d "state" := set_auth r a]> (oidcRequests b)) /\
  (fst out <> Resp (successPage W) -> oidcRequests (snd out) = oidcRequests b) /\
  (forall resp, fst out = Resp resp -> resp_Auth resp = None).
Proof.
  intros Hc Hs Ha Hrole Hmode out.
  assert (forall a, callbackGrants W req d config r role a ->
                    fst out = Resp (successPage W) /\
                    oidcRequests (snd out)
                    = <[Get d "state" := set_auth r a]> (oidcRequests b)) as H.
  { intros a Hgrants.
    destruct (pathCallback_grants W req d b config r role a Hc Hs Ha Hrole
                (or_intror Hmode) Hgrants) as (H1 & H2).
    apply String.eqb_eq in Hmode. rewrite Hmode in H1, H2. split; assumption. }
  split; [split|split; [|split]].
  - apply pathCallback_attached_facts; assumption.
  - intros (a & Hgrants). apply (H a Hgrants).
  - intros a Hgrants. apply (H a Hgrants).
  - intros Hout.
    destruct (pathCallback_direct_attaches W req d b config r role
                Hc Hs Ha Hrole Hmode) as [Hsame|(a & _ & Hpage)].
    + exact Hsame.
    + contradiction.
  - intros resp Hout. destruct (resp_Auth resp) as [a|] eqn:Hauth; [|reflexivity].
    destruct (pathCallback_credential_facts W req d b resp a Hout Hauth)
      as (config' & r' & role' & _ & Hs' & _ & Hrole' & Hmode' & _).
    rewrite Hs in Hs'. injection Hs' as <-.
    rewrite Hrole in Hrole'. injection Hrole' as <-. contradiction.
Qed.

(** The theorem at the callback of the sample mount in direct mode, called
    without a nonce. *)
Lemma pathCallback_direct_grant_witness :
  let W := Sample.mount callbackModeDirect in
  let d := Sample.fields [("state", "st-"); ("code", "code-1")] in
  let b := Sample.backend {[ "st-" := Sample.request "n-1" ]} in
  exists a, callbackGrants W Sample.noConnection d Sample.config
                           (Sample.request "n-1") (Sample.role callbackModeDirect) a.
Proof.
  intros W d b.
  apply (proj1 (proj1 (pathCallback_direct_grant
                         W Sample.noConnection d b Sample.config
                         (Sample.request "n-1") (Sample.role callbackModeDirect)
                         eq_refl eq_refl eq_refl eq_refl eq_refl))).
  reflexivity.
Defined.

(** X17. The metadata of the credential that is built: every entry of the
    alias metadata is in it, the role name is in it under [role] unless the
    alias metadata has an entry [role] of its own, which then wins, and
    nothing else is in it. The internal data always records the role name,
    and the lease is renewable. *)
Theorem builtAuth_metadata (role : jwtRole) (roleName : string)
    (identity : Alias * list Alias) :
  let a := builtAuth role roleName identity in
  (forall k v, alias_Metadata (fst identity) !! k = Some v ->
               auth_Metadata a !! k = Some v) /\
  (alias_Metadata (fst identity) !! "role" = None ->
   auth_Metadata a !! "role" = Some roleName) /\
  (forall k, k <> "role" -> alias_Metadata (fst identity) !! k = None ->
             auth_Metadata a !! k = None) /\
  auth_InternalData a !! "role" = Some roleName /\
  Renewable (auth_LeaseOptions a) = true.
Proof.
  intros a. unfold a, builtAuth. simpl. repeat split.
  - intros k v Hk. now apply lookup_union_Some_l.
  - intros Hnone. rewrite lookup_union_r by exact Hnone.
    apply lookup_singleton_eq.
  - intros k Hk Hnone. rewrite lookup_union_r by exact Hnone.
    now apply lookup_singleton_ne.
Qed.

Lemma builtAuth_metadata_witness :
  let identity := ({| alias_Name := "alice";
                      alias_Metadata := {[ "team" := "blue" ]} |}, []) in
  auth_Metadata (builtAuth (Sample.role callbackModeClient) "dev" identity) !! "team"
  = Some "blue" /\
  auth_Metadata (builtAuth (Sample.role callbackModeClient) "dev" identity) !! "role"
  = Some "dev".
Proof.
  intros identity.
  destruct (builtAuth_metadata (Sample.role callbackModeClient) "dev" identity)
    as (Hall & Hrole & _).
  split; [apply Hall | apply Hrole]; reflexivity.
Defined.

(** ** [createOIDCRequest] *)

Lemma optionsFit_built (W : World) (config : jwtConfig) (role : jwtRole) :
  let base := [ WithAudiences (BoundAudiences role); WithScopes (OIDCScopes role) ] in
  let aged (options : list oidc_Option) :=
    if (0 <? MaxAge role)%Z
    then (options ++ [WithMaxAge (duration_Seconds_uint W (MaxAge role))])%list
    else options in
  (hasType config responseTypeIDToken = true ->
   optionsFit config role (aged (base ++ [WithImplicitFlow])%list)) /\
  (hasType config responseTypeIDToken = false ->
   hasType config responseTypeCode = true ->
   forall v, optionsFit config role (aged (base ++ [WithPKCE v])%list)) /\
  (hasType config responseTypeIDToken = false ->
   hasType config responseTypeCode = false ->
   optionsFit config role (aged base)).
Proof.
  intros base aged. unfold aged, base, optionsFit.
  destruct (0 <? MaxAge role)%Z eqn:Hage;
    (apply Z.ltb_lt in Hage || apply Z.ltb_ge in Hage);
    (split; [|split]); intros; simpl;
    intuition (try discriminate; try lia; try congruence; eauto);
    repeat match goal with
           | H : exists _, _ |- _ => destruct H
           | H : _ \/ _ |- _ => destruct H
           end; try discriminate; try lia; try contradiction; eauto 6.
Qed.

(** X18. [createOIDCRequest] stores a request exactly when it succeeds, and
    fails only when the library does. When it fails the cache is as it was,
    and the error is the one of [oidc.NewCodeVerifier], wrapped, on a mount
    of the code flow, or the one of [oidc.NewRequest]. When it succeeds the
    request it returns carries the role name and the client nonce it was
    given and no code, ID token or credential; it is stored under the state
    of the provider request, where a lookup finds it; the provider request
    was made by [oidc.NewRequest] for the given redirect URI with the
    ten-minute timeout and with options that fit the configuration and the
    role. Nothing is logged either way. *)
Theorem createOIDCRequest_outcomes (W : World) (config : jwtConfig)
    (role : jwtRole) (roleName redirectURI nonce : string) (b : jwtAuthBackend) :
  let out := run (createOIDCRequest W config role roleName redirectURI nonce) b in
  logger (snd out) = logger b /\
  match fst out with
  | Err e =>
      oidcRequests (snd out) = oidcRequests b /\
      ((exists seed e',
           hasType config responseTypeIDToken = false /\
           hasType config responseTypeCode = true /\
           oidc_NewCodeVerifier W seed = Err e' /\
           e = "error creating code challenge: " ++ e') \/
       (exists seed options,
           optionsFit config role options /\
           oidc_NewRequest W seed oidcRequestTimeout redirectURI options = Err e))
  | Ok r =>
      rolename r = roleName /\ clientNonce r = nonce /\
      code r = "" /\ idToken r = "" /\ auth r = None /\
      oidcRequests (snd out) = <[State (Request r) := r]> (oidcRequests b) /\
      oidcRequests (snd out) !! State (Request r) = Some r /\
      exists seed options,
        optionsFit config role options /\
        oidc_NewRequest W seed oidcRequestTimeout redirectURI options
        = Ok (Request r)
  end.
Proof.
  intros out. unfold out, createOIDCRequest.
  unfold run, bind, fresh, ret, Return, setOIDCRequest.
  destruct (optionsFit_built W config role) as (Himplicit & Hpkce & Hnone).
  cbv zeta in Himplicit, Hpkce, Hnone.
  destruct (hasType config responseTypeIDToken) eqn:Hid;
    [|destruct (hasType config responseTypeCode) eqn:Hcode;
      [destruct (oidc_NewCodeVerifier W (entropy b)) as [v|e] eqn:Hv|]];
    cbn [fst snd logger oidcRequests entropy].
  3:{ split; [reflexivity|]. split; [reflexivity|]. left. eauto 8. }
  all: match goal with
       | |- context [oidc_NewRequest ?w ?s ?t ?u ?o] =>
           destruct (oidc_NewRequest w s t u o) as [request|e'] eqn:Hnew
       end;
       cbn [fst snd logger oidcRequests entropy with_oidcRequests
            rolename clientNonce code idToken auth Request];
       (split; [reflexivity|]).
  all: try (split; [reflexivity|]; right; do 2 eexists; split; [|exact Hnew];
            auto).
  all: repeat (split; [first [reflexivity | apply lookup_insert_eq]|]);
       do 2 eexists; (split; [|exact Hnew]); auto.
Qed.

(** ** [authURL]: what it refuses, what it stores *)

(** X19. The descriptive errors of [authURL] come in a fixed order and
    change nothing in the backend: a storage error of the configuration is
    passed on; without a configuration the call fails with the
    configuration error; on a mount that is not set up for the OIDC flow
    with the message for that; without a role name and without a default
    role with the missing-role error; without a redirect URI with the
    missing-redirect error; for a role that does not exist with the
    role-not-found error, and a storage error of the role is passed on. *)
Theorem authURL_refusals (W : World) {net_url : NetURL}
    (req : logical_Request) (d : FieldData) (b : jwtAuthBackend) :
  (forall e, b_config W = Err e -> authURL W req d b = (Fail e, b)) /\
  (b_config W = Ok None ->
   authURL W req d b = (Resp (ErrorResponse "could not load configuration"), b)) /\
  (forall config,
      b_config W = Ok (Some config) ->
      (authType config <> OIDCFlow ->
       authURL W req d b = (Resp (ErrorResponse errNotOIDCFlow), b)) /\
      (authType config = OIDCFlow ->
       (roleNameOf config d = "" ->
        authURL W req d b = (Resp (ErrorResponse "missing role"), b)) /\
       (roleNameOf config d <> "" ->
        (Get d "redirect_uri" = "" ->
         authURL W req d b = (Resp (ErrorResponse "missing redirect_uri"), b)) /\
        (Get d "redirect_uri" <> "" ->
         (forall e, b_role W (roleNameOf config d) = Err e ->
                    authURL W req d b = (Fail e, b)) /\
         (b_role W (roleNameOf config d) = Ok None ->
          authURL W req d b
          = (Resp (ErrorResponse ("role " ++ fmt_q W (roleNameOf config d)
                                  ++ " could not be found")), b)))))).
Proof.
  split; [|split].
  - intros e Hc. unfold authURL. cbv zeta.
    go_out_by ltac:(unfold try; rewrite Hc). reflexivity.
  - intros Hc. unfold authURL. cbv zeta.
    go_on_by ltac:(unfold try; rewrite Hc). go_out_by idtac. reflexivity.
  - intros config Hc. split.
    + intros Ht. unfold authURL. cbv zeta.
      go_on_by ltac:(unfold try; rewrite Hc). go_on.
      go_out_by ltac:(destruct (authType config); try contradiction).
      reflexivity.
    + intros Ht. split.
      * intros Hname. unfold authURL. cbv zeta.
        go_on_by ltac:(unfold try; rewrite Hc). go_on.
        go_on_by ltac:(rewrite Ht). fold (roleNameOf config d).
        go_out_by ltac:(rewrite Hname). reflexivity.
      * intros Hname. apply String.eqb_neq in Hname. split.
        -- intros Huri. unfold authURL. cbv zeta.
           go_on_by ltac:(unfold try; rewrite Hc). go_on.
           go_on_by ltac:(rewrite Ht). fold (roleNameOf config d).
           go_on_by ltac:(rewrite Hname).
           go_out_by ltac:(rewrite Huri). reflexivity.
        -- intros Huri. apply String.eqb_neq in Huri. split.
           ++ intros e Hrole. unfold authURL. cbv zeta.
              go_on_by ltac:(unfold try; rewrite Hc). go_on.
              go_on_by ltac:(rewrite Ht). fold (roleNameOf config d).
              go_on_by ltac:(rewrite Hname). go_on_by ltac:(rewrite Huri).
              go_out_by ltac:(unfold try; rewrite Hrole). reflexivity.
           ++ intros Hrole. unfold authURL. cbv zeta.
              go_on_by ltac:(unfold try; rewrite Hc). go_on.
              go_on_by ltac:(rewrite Ht). fold (roleNameOf config d).
              go_on_by ltac:(rewrite Hname). go_on_by ltac:(rewrite Huri).
              go_on_by ltac:(unfold try; rewrite Hrole).
              go_out_by idtac. reflexivity.
Qed.

(** The theorem on the sample mount: a call that names no role, and a call
    that names a role the mount does not have. *)
Lemma authURL_refusals_witness :
  let W := Sample.mount callbackModeClient in
  let b := Sample.backend ∅ in
  authURL W Sample.noConnection
          (Sample.fields [("redirect_uri", "http://localhost:8250/oidc/callback")]) b
  = (Resp (ErrorResponse "missing role"), b) /\
  authURL W Sample.noConnection
          (Sample.fields [("role", "ops");
                          ("redirect_uri", "http://localhost:8250/oidc/callback")]) b
  = (Resp (ErrorResponse ("role " ++ fmt_q W "ops" ++ " could not be found")), b).
Proof.
  intros W b. split.
  - destruct (authURL_refusals W Sample.noConnection
                (Sample.fields [("redirect_uri", "http://localhost:8250/oidc/callback")])
                b) as (_ & _ & H).
    destruct (H Sample.config eq_refl) as (_ & H1).
    apply (proj1 (H1 eq_refl)). reflexivity.
  - destruct (authURL_refusals W Sample.noConnection
                (Sample.fields [("role", "ops");
                                ("redirect_uri", "http://localhost:8250/oidc/callback")])
                b) as (_ & _ & H).
    destruct (H Sample.config eq_refl) as (_ & H1).
    destruct (proj2 (H1 eq_refl)) as (_ & H2); [discriminate|].
    apply (proj2 (H2 ltac:(discriminate))). reflexivity.
Defined.

(** What [createOIDCRequest] leaves in the cache, for the callers of it. *)
Lemma createOIDCRequest_cache (W : World) (config : jwtConfig) (role : jwtRole)
    (roleName redirectURI nonce : string) (b : jwtAuthBackend) :
  match run (createOIDCRequest W config role roleName redirectURI nonce) b with
  | (Err _, b') => oidcRequests b' = oidcRequests b
  | (Ok r, b') =>
      rolename r = roleName /\ clientNonce r = nonce /\
      code r = "" /\ idToken r = "" /\ auth r = None /\
      oidcRequests b' = <[State (Request r) := r]> (oidcRequests b)
  end.
Proof.
  unfold createOIDCRequest, run, bind, fresh, ret, Return, setOIDCRequest.
  destruct (hasType config responseTypeIDToken);
    [|destruct (hasType config responseTypeCode);
      [destruct (oidc_NewCodeVerifier W (entropy b))|]];
    cbn [fst snd oidcRequests entropy]; try reflexivity;
    match goal with
    | |- context [oidc_NewRequest W ?s ?t ?u ?o] =>
        destruct (oidc_NewRequest W s t u o)
    end;
    cbn [fst snd oidcRequests entropy with_oidcRequests
         rolename clientNonce code idToken auth Request];
    try reflexivity; repeat split; reflexivity.
Qed.

(** Every run of [authURL]: either nothing is stored and the answer names no
    state, or the request that [createOIDCRequest] made for the validated
    redirect URI is stored, and an answer that names a state names the state
    of that request, for a role in direct mode. *)
Lemma authURL_cases (W : World) {net_url : NetURL}
    (req : logical_Request) (d : FieldData) (b : jwtAuthBackend) :
  let out := authURL W req d b in
  (oidcRequests (snd out) = oidcRequests b /\
   forall resp, fst out = Resp resp -> Data resp !! "state" = None) \/
  exists config role ns r,
    b_config W = Ok (Some config) /\
    authType config = OIDCFlow /\
    b_role W (roleNameOf config d) = Ok (Some role) /\
    splitNamespace config (Get d "redirect_uri") = Some ns /\
    validRedirect (snd ns) (AllowedRedirectURIs role) = true /\
    rolename r = roleNameOf config d /\
    clientNonce r = Get d "client_nonce" /\
    (clientNonce r = "" -> CallbackMode role = callbackModeClient) /\
    code r = "" /\ idToken r = "" /\ auth r = None /\
    oidcRequests (snd out) = <[State (Request r) := r]> (oidcRequests b) /\
    forall resp st,
      fst out = Resp resp -> Data resp !! "state" = Some st ->
      st = DString (State (Request r)) /\
      CallbackMode role = callbackModeDirect /\
      Data resp !! "poll_interval" = Some (DString "5").
Proof.
  intros out. subst out. unfold authURL. cbv zeta.
  assert (forall (o : Outcome) (b' : jwtAuthBackend),
             oidcRequests b' = oidcRequests b ->
             (exists e, o = Fail e) \/ (exists t, o = Resp (ErrorResponse t))
             \/ o = Resp emptyAuthURL ->
             oidcRequests (snd (o, b')) = oidcRequests b /\
             forall resp, fst (o, b') = Resp resp -> Data resp !! "state" = None)
    as Hquiet.
  { intros o b' Hb' Ho. split; [exact Hb'|]. intros resp Hresp. simpl in Hresp.
    destruct Ho as [(e & ->)|[(t & ->)| ->]].
    - discriminate Hresp.
    - injection Hresp as <-. apply lookup_singleton_ne. discriminate.
    - injection Hresp as <-. reflexivity. }
  destruct (b_config W) as [[config|]|e] eqn:Hc;
    [|go_on; go_out_by idtac; left; apply Hquiet; eauto
     |go_out_by idtac; left; apply Hquiet; eauto].
  go_on. go_on.
  destruct (authType_eqb (authType config) OIDCFlow) eqn:Ht;
    [|go_out_by idtac; left; apply Hquiet; eauto].
  go_on. fold (roleNameOf config d).
  destruct (String.eqb (roleNameOf config d) "") eqn:Hname;
    [go_out_by idtac; left; apply Hquiet; eauto|].
  go_on.
  destruct (String.eqb (Get d "redirect_uri") "") eqn:Huri;
    [go_out_by idtac; left; apply Hquiet; eauto|].
  go_on.
  destruct (b_role W (roleNameOf config d)) as [[role|]|e] eqn:Hrole;
    [|go_on; go_out_by idtac; left; apply Hquiet; eauto
     |go_out_by idtac; left; apply Hquiet; eauto].
  go_on. go_on.
  destruct (String.eqb (Get d "client_nonce") ""
            && negb (String.eqb (CallbackMode role) callbackModeClient)) eqn:Hn;
    [go_out_by idtac; left; apply Hquiet; eauto|].
  go_on.
  destruct (splitNamespace config (Get d "redirect_uri")) as [ns|] eqn:Hns;
    [|go_out_by idtac; left; apply Hquiet; eauto].
  go_on.
  destruct (validRedirect (snd ns) (AllowedRedirectURIs role)) eqn:Hvalid;
    [|go_out_by idtac; left; apply Hquiet; eauto].
  go_on.
  destruct (b_getProvider W config) as [p|e] eqn:Hp;
    [|go_out_by idtac; left; apply Hquiet; eauto].
  go_on.
  match goal with
  | |- context [call (createOIDCRequest W config role ?n ?u ?c)] =>
      pose proof (createOIDCRequest_cache W config role n u c b) as Hcache;
      destruct (run (createOIDCRequest W config role n u c) b)
        as [[r|e] b1] eqn:E
  end.
  - go_on_by ltac:(unfold call; rewrite E). go_on.
    assert (authType config = OIDCFlow) as Ht'
        by (destruct (authType config); first [reflexivity | discriminate Ht]).
    assert (clientNonce r = "" -> CallbackMode role = callbackModeClient) as Hmode.
    { destruct Hcache as (_ & -> & _). intros H0. rewrite H0 in Hn.
      simpl in Hn. apply negb_false_iff, String.eqb_eq in Hn. exact Hn. }
    destruct Hcache as (H1 & H2 & H3 & H4 & H5 & H6).
    right. exists config, role, ns, r.
    repeat (split; [first [assumption | reflexivity]|]).
    destruct (provider_AuthURL W p (Request r)) as [u|e] eqn:Hurl.
    + go_on. unfold run, ret. cbn [fst snd]. split; [exact H6|].
      intros resp st [= <-]. cbn [Data].
      destruct (String.eqb (CallbackMode role) callbackModeDirect) eqn:Hdirect.
      * rewrite lookup_insert_ne by discriminate.
        rewrite lookup_insert_eq. intros [= <-].
        apply String.eqb_eq in Hdirect.
        split; [reflexivity|]. split; [exact Hdirect | apply lookup_insert_eq].
      * rewrite lookup_insert_ne by discriminate. discriminate.
    + go_out_by idtac. cbn [fst snd oidcRequests]. split; [exact H6|].
      intros resp st [= <-]. discriminate.
  - go_on_by ltac:(unfold call; rewrite E). go_out_by idtac.
    left. apply Hquiet; [exact Hcache | eauto].
Qed.

(** X20. [authURL] stores a request only for a redirect URI that has been
    validated. After any call the cache is as before, or it holds one more
    request under its own state, and then: the mount is configured for the
    OIDC flow, the role exists, the redirect URI, with the namespace taken
    out of it, validates against the allow-list of the role, and the request
    is the fresh one for that role and the supplied nonce, with no code, no
    ID token and no credential attached; its nonce is empty only for a role
    in client mode. *)
Theorem authURL_stores_validated (W : World) {net_url : NetURL}
    (req : logical_Request) (d : FieldData) (b : jwtAuthBackend) :
  let after := oidcRequests (snd (authURL W req d b)) in
  after = oidcRequests b \/
  exists config role ns r,
    b_config W = Ok (Some config) /\
    authType config = OIDCFlow /\
    b_role W (roleNameOf config d) = Ok (Some role) /\
    splitNamespace config (Get d "redirect_uri") = Some ns /\
    validRedirect (snd ns) (AllowedRedirectURIs role) = true /\
    rolename r = roleNameOf config d /\
    clientNonce r = Get d "client_nonce" /\
    (clientNonce r = "" -> CallbackMode role = callbackModeClient) /\
    code r = "" /\ idToken r = "" /\ auth r = None /\
    after = <[State (Request r) := r]> (oidcRequests b).
Proof.
  intros after. subst after.
  destruct (authURL_cases W req d b)
    as [(H & _)|(config & role & ns & r & H1 & H2 & H3 & H4 & H5 & H6 & H7
                 & H8 & H9 & H10 & H11 & H12 & _)].
  - left. exact H.
  - right. exists config, role, ns, r. repeat (split; [assumption|]). exact H12.
Qed.

(** X21. A state handed out by [authURL] can be polled. Whenever the answer
    of [authURL] names a state, the role is in direct mode, the answer
    carries the poll interval, and the cache holds under that state a
    request without a credential whose nonce is the supplied one, which is
    not empty. A [pathPoll] on that state with the same nonce is answered
    with [authorization_pending] and leaves the backend as it is; with
    another nonce it is answered with [invalid client_nonce] and the request
    is gone. *)
Theorem authURL_state_is_pollable (W : World) {net_url : NetURL}
    (req : logical_Request) (d : FieldData) (b : jwtAuthBackend)
    (resp : Response) (st : string) :
  fst (authURL W req d b) = Resp resp ->
  Data resp !! "state" = Some (DString st) ->
  let b' := snd (authURL W req d b) in
  Data resp !! "poll_interval" = Some (DString "5") /\
  (exists r, oidcRequests b' !! st = Some r /\
             State (Request r) = st /\ auth r = None /\
             clientNonce r = Get d "client_nonce" /\ clientNonce r <> "") /\
  forall req' d',
    Get d' "state" = st ->
    (Get d' "client_nonce" = Get d "client_nonce" ->
     pathPoll req' d' b' = (Resp (ErrorResponse "authorization_pending"), b')) /\
    (Get d' "client_nonce" <> Get d "client_nonce" ->
     fst (pathPoll req' d' b') = Resp (ErrorResponse "invalid client_nonce") /\
     oidcRequests (snd (pathPoll req' d' b')) !! st = None).
Proof.
  intros Hout Hst b'.
  destruct (authURL_cases W req d b)
    as [(_ & H)|(config & role & ns & r & _ & _ & _ & _ & _ & _ & Hnonce
                 & Hmode & _ & _ & Hauth & Hcache & H)].
  { rewrite (H resp Hout) in Hst. discriminate Hst. }
  destruct (H resp (DString st) Hout Hst) as ([= ->] & Hdirect & Hpoll).
  assert (oidcRequests b' !! State (Request r) = Some r) as Hlook.
  { unfold b'. rewrite Hcache. apply lookup_insert_eq. }
  assert (clientNonce r <> "") as Hne.
  { intros H0. apply Hmode in H0. rewrite H0 in Hdirect. discriminate Hdirect. }
  split; [exact Hpoll|]. split.
  { exists r. repeat split; assumption. }
  intros req' d' Hstate. split.
  - intros Hsame. apply (pathPoll_pending req' d' b' r).
    + rewrite Hstate. exact Hlook.
    + right. rewrite Hsame. symmetry. exact Hnonce.
    + exact Hauth.
  - intros Hother.
    rewrite (pathPoll_nonce_mismatch req' d' b' r).
    + cbn [fst snd oidcRequests with_oidcRequests]. split; [reflexivity|].
      rewrite Hstate. apply lookup_delete_eq.
    + rewrite Hstate. exact Hlook.
    + exact Hne.
    + rewrite Hnonce. exact Hother.
Qed.

(** The theorem on the sample mount in direct mode: the state that
    [authURL] hands out for the role [dev] is polled with the nonce of the
    login, and with another one. *)
Lemma authURL_state_is_pollable_witness :
  let d := Sample.fields [("role", "dev");
                          ("redirect_uri", "http://localhost:8250/oidc/callback");
                          ("client_nonce", "n-1")] in
  let b' := snd (authURL (Sample.mount callbackModeDirect) Sample.noConnection
                         d (Sample.backend ∅)) in
  pathPoll Sample.noConnection
           (Sample.fields [("state", "st-i"); ("client_nonce", "n-1")]) b'
  = (Resp (ErrorResponse "authorization_pending"), b') /\
  fst (pathPoll Sample.noConnection
                (Sample.fields [("state", "st-i"); ("client_nonce", "n-2")]) b')
  = Resp (ErrorResponse "invalid client_nonce").
Proof.
  intros d b'.
  set (out := fst (authURL (Sample.mount callbackModeDirect) Sample.noConnection
                           d (Sample.backend ∅))).
  set (resp := match out with Resp r => r | Fail _ => emptyAuthURL end).
  assert (out = Resp resp) as Hout by (vm_compute; reflexivity).
  assert (Data resp !! "state" = Some (DString "st-i")) as Hst
      by (vm_compute; reflexivity).
  destruct (authURL_state_is_pollable
              (Sample.mount callbackModeDirect) Sample.noConnection d
              (Sample.backend ∅) resp "st-i" Hout Hst) as (_ & _ & H).
  split.
  - apply (H Sample.noConnection
             (Sample.fields [("state", "st-i"); ("client_nonce", "n-1")]) eq_refl).
    reflexivity.
  - apply (H Sample.noConnection
             (Sample.fields [("state", "st-i"); ("client_nonce", "n-2")]) eq_refl).
    discriminate.
Defined.

(** Looks a key up in the data of an answer built by insertions. *)
Ltac lookup_in_data :=
  repeat first [ rewrite lookup_insert_eq
               | rewrite lookup_insert_ne by discriminate ];
  try reflexivity.

(** X23. A login that passes every step gets its URL. When the mount is
    configured for the OIDC flow, the role exists, the nonce is there or the
    role is in client mode, the redirect URI validates, the provider client
    is there, the request is created and the provider generates a URL for
    it, [authURL] answers, without an error, with that URL under [auth_url],
    in which the state carries the namespace when one was taken out of the
    redirect URI; in direct mode the answer also names the state of the
    request and a poll interval of five seconds, in any other mode it names
    neither; and the request is in the cache under its state. *)
Theorem authURL_success (W : World) {net_url : NetURL}
    (req : logical_Request) (d : FieldData) (b : jwtAuthBackend)
    (config : jwtConfig) (role : jwtRole) (ns : string * string)
    (p : Provider W) (r : oidcRequest) (u : string) :
  b_config W = Ok (Some config) ->
  authType config = OIDCFlow ->
  roleNameOf config d <> "" ->
  Get d "redirect_uri" <> "" ->
  b_role W (roleNameOf config d) = Ok (Some role) ->
  (Get d "client_nonce" <> "" \/ CallbackMode role = callbackModeClient) ->
  splitNamespace config (Get d "redirect_uri") = Some ns ->
  validRedirect (snd ns) (AllowedRedirectURIs role) = true ->
  b_getProvider W config = Ok p ->
  fst (run (createOIDCRequest W config role (roleNameOf config d)
              (providerRedirect config (snd ns)) (Get d "client_nonce")) b)
  = Ok r ->
  provider_AuthURL W p (Request r) = Ok u ->
  let out := authURL W req d b in
  let state := State (Request r) in
  let urlStr :=
    if NamespaceInState config && (0 <? String.length (fst ns))%nat
    then Strings.Replace1 u state (url_QueryEscape (state ++ ",ns=" ++ fst ns))
    else u in
  exists resp,
    fst out = Resp resp /\
    resp_Auth resp = None /\
    Data resp !! "error" = None /\
    Data resp !! "auth_url" = Some (DString urlStr) /\
    (CallbackMode role = callbackModeDirect ->
     Data resp !! "state" = Some (DString state) /\
     Data resp !! "poll_interval" = Some (DString "5")) /\
    (CallbackMode role <> callbackModeDirect ->
     Data resp !! "state" = None /\ Data resp !! "poll_interval" = None) /\
    oidcRequests (snd out) = <[state := r]> (oidcRequests b).
Proof.
  intros Hc Ht Hname Huri Hrole Hnonce Hns Hvalid Hp Hcreate Hurl out state urlStr.
  assert (String.eqb (Get d "client_nonce") ""
          && negb (String.eqb (CallbackMode role) callbackModeClient) = false)
    as Hn.
  { destruct Hnonce as [H|H].
    - apply String.eqb_neq in H. now rewrite H.
    - apply String.eqb_eq in H. now rewrite H, andb_false_r. }
  apply String.eqb_neq in Hname, Huri.
  pose proof (createOIDCRequest_cache W config role (roleNameOf config d)
                (providerRedirect config (snd ns)) (Get d "client_nonce") b)
    as Hcache.
  destruct (run (createOIDCRequest W config role (roleNameOf config d)
                   (providerRedirect config (snd ns)) (Get d "client_nonce")) b)
    as [created b1] eqn:E.
  cbn [fst] in Hcreate. subst created.
  destruct Hcache as (_ & _ & _ & _ & _ & Hcache).
  unfold out, authURL. cbv zeta.
  go_on_by ltac:(unfold try; rewrite Hc). go_on.
  go_on_by ltac:(rewrite Ht). fold (roleNameOf config d).
  go_on_by ltac:(rewrite Hname). go_on_by ltac:(rewrite Huri).
  go_on_by ltac:(unfold try; rewrite Hrole). go_on.
  go_on_by ltac:(rewrite Hn). go_on_by ltac:(rewrite Hns).
  go_on_by ltac:(rewrite Hvalid). go_on_by ltac:(rewrite Hp).
  fold (providerRedirect config (snd ns)).
  go_on_by ltac:(unfold call; rewrite E). go_on.
  go_on_by ltac:(rewrite Hurl).
  unfold run, ret. cbn [fst snd].
  eexists. split; [reflexivity|]. cbn [resp_Auth Data].
  split; [reflexivity|].
  destruct (String.eqb (CallbackMode role) callbackModeDirect) eqn:Hmode;
    [apply String.eqb_eq in Hmode | apply String.eqb_neq in Hmode];
    (split; [now lookup_in_data|]); (split; [now lookup_in_data|]);
    (split; [intros Hm; first [contradiction | split; now lookup_in_data]|]);
    (split; [intros Hm; first [contradiction | split; now lookup_in_data]|]);
    exact Hcache.
Qed.

(** The theorem on the sample mount in direct mode, for the role [dev]. *)
Lemma authURL_success_witness :
  let d := Sample.fields [("role", "dev");
                          ("redirect_uri", "http://localhost:8250/oidc/callback");
                          ("client_nonce", "n-1")] in
  let out := authURL (Sample.mount callbackModeDirect) Sample.noConnection d
                     (Sample.backend ∅) in
  exists resp,
    fst out = Resp resp /\
    Data resp !! "auth_url"
    = Some (DString "https://idp.example/authorize?state=st-i") /\
    Data resp !! "state" = Some (DString "st-i") /\
    Data resp !! "poll_interval" = Some (DString "5") /\
    is_Some (oidcRequests (snd out) !! "st-i").
Proof.
  intros d out.
  edestruct (authURL_success
               (Sample.mount callbackModeDirect) Sample.noConnection d
               (Sample.backend ∅) Sample.config (Sample.role callbackModeDirect)
               ("", "http://localhost:8250/oidc/callback"))
    as (resp & Hout & _ & _ & Hurl & Hdirect & _ & Hcache);
    [reflexivity | reflexivity | discriminate | discriminate | reflexivity
    | left; discriminate | reflexivity | reflexivity | reflexivity
    | reflexivity | reflexivity |].
  destruct (Hdirect eq_refl) as (Hstate & Hpoll).
  exists resp. split; [exact Hout|]. split; [exact Hurl|].
  split; [exact Hstate|]. split; [exact Hpoll|].
  unfold out. rewrite Hcache. eexists. apply lookup_insert_eq.
Defined.
